(** * SISPIN: the data management core (js/data-management.js), the password
    policy of the security module and the configuration reader.

    The development is a shallow embedding of the JavaScript source.  Records
    and candidate field sets are JavaScript values; the objects among them are
    field bags kept in insertion order.  The conventions of the embedding:

    - a value is undefined, null, a boolean, a number, a string or a plain
      data object; the numbers carried by values are integers ([VNum]) or
      [VNaN], and stand for the binary64 numbers of the same value (exact up
      to 2^53);
    - property names are names of data fields.  The members that
      [Object.prototype] lends to every object are modelled where the program
      reads or writes a table under a name it does not choose: the validator
      table of [validateData], the credential table, the attempts of the
      rate limiter, the walk of [AppConfig.set] and the rows of the export;
    - a value holds no function, so an object with a property [toString] of
      its own has none to call: it does not convert to a string, a number or
      a key ([converts]).  The validators, the password policy, the capacity
      check and the registration of the teachers throw the TypeError of such
      a conversion where the source converts ([converted]); [ToString] and
      [ToPrimitive] give the result for the values that convert;
    - the embedding has no object identity: [===] between two objects is
      [false], as it is between the objects of two different sources;
    - strings are sequences of code units below 256;
    - the library functions whose result is a binary64 number or a text that
      the engine chooses ([Date.parse], the numeric reading of a string,
      [parseFloat], [JSON.stringify]) are the members of the class [Runtime];
      every statement holds for every runtime, and [reference_runtime] is one
      that evaluates;
    - [console.error] and the notification toasts leave the store untouched
      and are not part of the state; of the rendering of the page the
      embedding keeps what reaches the store, its calls of [getFilteredData];
      the backend ([window.dataSdk]) is present and its answer is an input of
      the call. *)

From Stdlib Require Import ZArith QArith List String Ascii Bool Lia.
From Stdlib Require Import Permutation Sorted DecimalString.
From stdpp Require Import gmap strings.
Import ListNotations.
Local Open Scope string_scope.
Local Open Scope Z_scope.

(** ** JavaScript values *)

#[warnings="-register-all"]
Inductive value : Type :=
| VUndef
| VNull
| VBool (b : bool)
| VNum (n : Z)
| VNaN
| VStr (s : string)
| VObj (o : list (string * value)).

(** An object: its own properties, in insertion order. *)
Definition obj : Type := list (string * value).

(** Numbers that are computed and compared, never stored: the results of
    [ToNumber], [parseFloat] and of subtracting two dates. *)
Inductive num : Type :=
| NaN
| PosInf
| NegInf
| Fin (q : Q).

(** What is thrown: a [TypeError] of the engine, or [new Error(message)]. *)
Inductive exn : Type :=
| TypeError
| Error (message : string).

(** What a call does: it returns, it throws, or it leaves the program through
    the member [k] of [Object.prototype] that it fetched from the validator
    table and called. *)
Inductive outcome (A : Type) : Type :=
| Return (a : A)
| Throw (e : exn)
| Builtin (k : string).
Arguments Return {A} a.
Arguments Throw {A} e.
Arguments Builtin {A} k.

#[global] Instance outcome_ret : MRet outcome := fun A a => Return a.

#[global] Instance outcome_bind : MBind outcome := fun A B k m =>
  match m with
  | Return a => k a
  | Throw e => Throw e
  | Builtin s => Builtin s
  end.

(** ** The library functions taken from the engine *)

Class Runtime : Type := {
  (** [Date.parse(s)]: a time value in milliseconds, or [None] for NaN. *)
  Date_parse : string -> option Z;
  (** The number a string converts to ([Number(s)]). *)
  StringToNumber : string -> num;
  (** [parseFloat(s)] on a string. *)
  parseFloat_string : string -> num;
  (** [JSON.stringify(o)] on an object. *)
  JSON_stringify : obj -> string
}.

(** ** Conversions and operators *)

Definition truthy (v : value) : bool :=
  match v with
  | VUndef | VNull | VNaN => false
  | VBool b => b
  | VNum n => negb (n =? 0)
  | VStr s => negb (String.eqb s "")
  | VObj _ => true
  end.

(** [a || b] *)
Definition js_or (a b : value) : value := if truthy a then a else b.

Definition ZToString (n : Z) : string := NilZero.string_of_int (Z.to_int n).

(** [String(v)], for a value that converts (see [converts] below). *)
Definition ToString (v : value) : string :=
  match v with
  | VUndef => "undefined"
  | VNull => "null"
  | VBool true => "true"
  | VBool false => "false"
  | VNum n => ZToString n
  | VNaN => "NaN"
  | VStr s => s
  | VObj _ => "[object Object]"
  end.

(** [a === b] *)
Definition strict_eq (a b : value) : bool :=
  match a, b with
  | VUndef, VUndef => true
  | VNull, VNull => true
  | VBool x, VBool y => Bool.eqb x y
  | VNum x, VNum y => x =? y
  | VStr x, VStr y => String.eqb x y
  | _, _ => false
  end.

(** The own property [o[k]]; [undefined] when absent. *)
Fixpoint get_own (o : obj) (k : string) : value :=
  match o with
  | [] => VUndef
  | (k', v) :: o' => if String.eqb k' k then v else get_own o' k
  end.

(** [o] has an own property [k]. *)
Fixpoint has_own (o : obj) (k : string) : bool :=
  match o with
  | [] => false
  | (k', _) :: o' => String.eqb k' k || has_own o' k
  end.

(** [o[k] = v]: an existing property keeps its place, a new one goes last. *)
Fixpoint set_own (o : obj) (k : string) (v : value) : obj :=
  match o with
  | [] => [(k, v)]
  | (k', v') :: o' =>
      if String.eqb k' k then (k', v) :: o' else (k', v') :: set_own o' k v
  end.

(** [delete o[k]] *)
Definition delete_own (o : obj) (k : string) : obj :=
  List.filter (fun kv => negb (String.eqb (fst kv) k)) o.

Definition string_chars (s : string) : list ascii := list_ascii_of_string s.

Definition char_string (c : ascii) : string := String c "".

(** The indexed characters of a string as properties ["0"], ["1"], ... *)
Fixpoint index_entries (i : Z) (cs : list ascii) : obj :=
  match cs with
  | [] => []
  | c :: cs' => (ZToString i, VStr (char_string c)) :: index_entries (i + 1) cs'
  end.

(** [v[k]] on a value that is neither [null] nor [undefined]. *)
Definition get_prop (v : value) (k : string) : value :=
  match v with
  | VObj o => get_own o k
  | VStr s =>
      if String.eqb k "length" then VNum (Z.of_nat (String.length s))
      else get_own (index_entries 0 (string_chars s)) k
  | _ => VUndef
  end.

(** [v[k]], which throws on [null] and [undefined]. *)
Definition get_member (v : value) (k : string) : outcome value :=
  match v with
  | VUndef | VNull => Throw TypeError
  | _ => Return (get_prop v k)
  end.

(** [v?.[k]] *)
Definition get_optional (v : value) (k : string) : value :=
  match v with
  | VUndef | VNull => VUndef
  | _ => get_prop v k
  end.

(** The own enumerable properties that [{...v}] copies. *)
Definition spread_entries (v : value) : obj :=
  match v with
  | VObj o => o
  | VStr s => index_entries 0 (string_chars s)
  | _ => []
  end.

Definition assign_all (target : obj) (entries : obj) : obj :=
  fold_left (fun acc kv => set_own acc (fst kv) (snd kv)) entries target.

(** ** Numbers and the relational operators *)

Definition Qltb (x y : Q) : bool := (Qnum x * QDen y <? Qnum y * QDen x)%Z.

(** The comparison of two numbers; [None] is the undefined verdict that a
    NaN operand gives. *)
Definition num_lt (x y : num) : option bool :=
  match x, y with
  | NaN, _ | _, NaN => None
  | PosInf, _ => Some false
  | _, PosInf => Some true
  | _, NegInf => Some false
  | NegInf, _ => Some true
  | Fin a, Fin b => Some (Qltb a b)
  end.

(** [x < y] on numbers, as a condition. *)
Definition num_ltb (x y : num) : bool :=
  match num_lt x y with Some true => true | _ => false end.

Definition isNaN (x : num) : bool :=
  match x with NaN => true | _ => false end.

(** A plain object has no numeric or string form of its own: it converts
    through its [toString]. *)
Definition ToPrimitive (v : value) : value :=
  match v with
  | VObj _ => VStr "[object Object]"
  | _ => v
  end.

(** [ToString] and [ToPrimitive] give what the conversion yields when there
    is a [toString] to call: the one of [Object.prototype].  An object that
    has a property [toString] of its own hides it, and the values of this
    embedding hold no function, so there is nothing to call ([valueOf]
    gives no primitive either) and the conversion throws a TypeError. *)
Definition converts (v : value) : bool :=
  match v with
  | VObj o => negb (has_own o "toString")
  | _ => true
  end.

(** The point of a function at which a value is converted to a string, to
    a number or to a property key. *)
Definition converted (v : value) : outcome unit :=
  if converts v then Return tt else Throw TypeError.

Definition ToNumber {JS : Runtime} (v : value) : num :=
  match ToPrimitive v with
  | VNull => Fin 0
  | VBool b => Fin (if b then 1 else 0)
  | VNum n => Fin (inject_Z n)
  | VStr s => StringToNumber s
  | _ => NaN
  end.

Definition js_less_than {JS : Runtime} (a b : value) : option bool :=
  match ToPrimitive a, ToPrimitive b with
  | VStr x, VStr y => Some (String.ltb x y)
  | pa, pb => num_lt (ToNumber pa) (ToNumber pb)
  end.

(** [a < b] *)
Definition js_lt {JS : Runtime} (a b : value) : bool :=
  match js_less_than a b with Some true => true | _ => false end.

(** [a >= b]: [a < b] is neither true nor undefined. *)
Definition js_ge {JS : Runtime} (a b : value) : bool :=
  match js_less_than a b with Some false => true | _ => false end.

(** [parseFloat(v)] *)
Definition parseFloat {JS : Runtime} (v : value) : num :=
  parseFloat_string (ToString v).

(** ** Strings, regular expressions, arrays of literals *)

Definition in_range (lo hi c : ascii) : bool :=
  ((nat_of_ascii lo <=? nat_of_ascii c) && (nat_of_ascii c <=? nat_of_ascii hi))%nat.

Definition is_digit : ascii -> bool := in_range "0" "9".
Definition is_lower : ascii -> bool := in_range "a" "z".
Definition is_upper : ascii -> bool := in_range "A" "Z".

(** [/^\d{n}$/.test(v)] *)
Definition test_digits (n : nat) (v : value) : bool :=
  let cs := string_chars (ToString v) in
  (length cs =? n)%nat && forallb is_digit cs.

(** [/[a-z]/.test(v)] and its like: some character of the class occurs. *)
Definition test_class (class : ascii -> bool) (v : value) : bool :=
  existsb class (string_chars (ToString v)).

Definition same_value_zero (a b : value) : bool :=
  match a, b with
  | VNaN, VNaN => true
  | _, _ => strict_eq a b
  end.

(** [xs.includes(v)] *)
Definition includes (xs : list value) (v : value) : bool :=
  existsb (fun x => same_value_zero x v) xs.

(** [s.split(sep)] for a one-character separator. *)
Fixpoint split_on (sep : ascii) (s : string) : list string :=
  match s with
  | EmptyString => [""]
  | String c s' =>
      if Ascii.eqb c sep then "" :: split_on sep s'
      else match split_on sep s' with
           | h :: t => String c h :: t
           | [] => [String c ""]
           end
  end.

(** [s.includes(c)] for a one-character needle. *)
Definition string_includes (c : ascii) (s : string) : bool :=
  existsb (Ascii.eqb c) (string_chars s).

(** ** Dates *)

Definition max_time : Z := 8640000000000000.

Definition TimeClip (n : Z) : option Z :=
  if Z.abs n <=? max_time then Some n else None.

(** The time value of [new Date(v)]; [None] is an invalid date. *)
Definition new_Date {JS : Runtime} (v : value) : option Z :=
  match ToPrimitive v with
  | VStr s => Date_parse s
  | VNull => Some 0
  | VBool b => Some (if b then 1 else 0)
  | VNum n => TimeClip n
  | _ => None
  end.

(** [d1 - d2] on two dates; [None] is NaN. *)
Definition date_minus (d1 d2 : option Z) : option Z :=
  match d1, d2 with
  | Some t1, Some t2 => Some (t1 - t2)
  | _, _ => None
  end.

(** ** Array.prototype.sort

    The sort is stable, and a comparator result of NaN counts as zero.  For
    a comparator that orders the elements consistently this fixes the
    result; the embedding takes the insertion sort that keeps equal
    elements in their order. *)
Section ArraySort.
Context {A : Type} (comparator : A -> A -> option Z).

(** [comparator(x, y) > 0]: [y] has to come first. *)
Definition swaps (x y : A) : bool :=
  match comparator x y with
  | Some d => 0 <? d
  | None => false
  end.

Fixpoint sort_insert (x : A) (l : list A) : list A :=
  match l with
  | [] => [x]
  | y :: l' => if swaps x y then y :: sort_insert x l' else x :: l
  end.

Definition Array_sort (l : list A) : list A := fold_right sort_insert [] l.
End ArraySort.

(** ** AppConfig (the configuration module) *)

(** [AppConfig.defaults], without its cosmetic keys (titles, colours, fonts,
    feature switches of the pages). *)
Definition AppConfig_defaults : value :=
  VObj [ ("max_data_items", VNum 999);
         ("session_timeout", VNum 1800000);
         ("security", VObj [ ("enable_csrf", VBool true);
                             ("sanitize_input", VBool true);
                             ("encrypt_sensitive", VBool true);
                             ("max_login_attempts", VNum 5);
                             ("password_min_length", VNum 6) ]);
         ("performance", VObj [ ("enable_virtual_scrolling", VBool true);
                                ("enable_lazy_loading", VBool true);
                                ("cache_enabled", VBool true);
                                ("cache_ttl", VNum 300000) ]) ].

(** [AppConfig.get(key)] over [AppConfig.current]:
    [key.split('.').reduce((obj, i) => obj?.[i], this.current)]. *)
Definition AppConfig_get (current : value) (key : string) : value :=
  fold_left get_optional (split_on "." key) current.

(** ** SecurityService.validatePassword *)

(** The result of a validator: [{ valid, message }]. *)
Record vresult : Type := { valid : bool; message : option string }.

Definition pass : vresult := {| valid := true; message := None |}.
Definition fail (m : string) : vresult := {| valid := false; message := Some m |}.

Section Validation.
Context {JS : Runtime}.

(** [config] is [AppConfig.current]. *)
Definition validatePassword (config : value) (password : value) : outcome vresult :=
  let minLength := AppConfig_get config "security.password_min_length" in
  len ← get_member password "length";
  _ ← converted len;
  _ ← converted minLength;
  if js_lt len minLength then
    Return (fail ("Password minimal " ++ ToString minLength ++ " karakter"))
  else
    _ ← converted password;
    if negb (test_class is_lower password) then
      Return (fail "Password harus mengandung huruf kecil")
    else if negb (test_class is_upper password) then
      Return (fail "Password harus mengandung huruf besar")
    else if negb (test_class is_digit password) then
      Return (fail "Password harus mengandung angka")
    else
      Return {| valid := true; message := Some "Password kuat" |}.

(** ** The validators of DataService *)

(** The loop that opens every validator:
    [for (const field of required) if (!data[field]) return {...}],
    followed by the rest of the function. *)
Fixpoint required_loop (required : list string) (data : value)
    (rest : outcome vresult) : outcome vresult :=
  match required with
  | [] => rest
  | field :: required' =>
      v ← get_member data field;
      if negb (truthy v) then Return (fail (field ++ " wajib diisi"))
      else required_loop required' data rest
  end.

(** The names that every object inherits from [Object.prototype]: reading
    one of them from a table without such an own key yields a member of the
    prototype, which is truthy and has no property of this program. *)
Definition Object_prototype_names : list string :=
  [ "constructor"; "__defineGetter__"; "__defineSetter__"; "hasOwnProperty";
    "__lookupGetter__"; "__lookupSetter__"; "isPrototypeOf";
    "propertyIsEnumerable"; "toString"; "valueOf"; "__proto__";
    "toLocaleString" ].

Definition inherited (k : string) : bool :=
  existsb (String.eqb k) Object_prototype_names.

(** [AuthService.users[data.username] &&
     AuthService.users[data.username].username !== data.username];
    [users] is [AuthService.users].  An inherited member has no [username],
    and [undefined] differs from the truthy [data.username]. *)
Definition username_taken (users : obj) (username : value) : bool :=
  let key := ToString username in
  if has_own users key then
    let entry := get_own users key in
    truthy entry && negb (strict_eq (get_prop entry "username") username)
  else inherited key.

Definition validateGuruData (config : value) (users : obj) (data : value)
    : outcome vresult :=
  let required := ["title"; "nip"; "mapel"; "role"; "username"; "password"] in
  required_loop required data (
    nip ← get_member data "nip";
    _ ← converted nip;
    if negb (test_digits 18 nip) then Return (fail "NIP harus 18 digit") else
    password ← get_member data "password";
    passwordValidation ← validatePassword config password;
    if negb (valid passwordValidation) then Return passwordValidation else
    username ← get_member data "username";
    _ ← converted username;
    if username_taken users username then Return (fail "Username sudah digunakan")
    else Return pass).

Definition validateSiswaData (data : value) : outcome vresult :=
  let required := ["title"; "nisn"; "jenis_kelamin"; "class"] in
  required_loop required data (
    nisn ← get_member data "nisn";
    _ ← converted nisn;
    if negb (test_digits 10 nisn) then Return (fail "NISN harus 10 digit") else
    jenis_kelamin ← get_member data "jenis_kelamin";
    if negb (includes [VStr "L"; VStr "P"] jenis_kelamin) then
      Return (fail "Jenis kelamin harus L atau P")
    else Return pass).

Definition validateKelasData (data : value) : outcome vresult :=
  let required := ["title"; "tingkat"; "jurusan"] in
  required_loop required data (
    tingkat ← get_member data "tingkat";
    if negb (includes [VStr "X"; VStr "XI"; VStr "XII"] tingkat) then
      Return (fail "Tingkat harus X, XI, atau XII")
    else Return pass).

Definition validateIntraData (data : value) : outcome vresult :=
  let required := ["judul_modul"; "mata_pelajaran"; "kelas"; "fase"; "penulis"] in
  required_loop required data (Return pass).

Definition validateJurnalData (data : value) : outcome vresult :=
  let required :=
    ["nama_guru"; "kelas"; "hari"; "tanggal"; "mata_pelajaran"; "materi_pokok"] in
  required_loop required data (
    waktu_mulai ← get_member data "waktu_mulai";
    waktu_selesai ← get_member data "waktu_selesai";
    if truthy waktu_mulai && truthy waktu_selesai then
      _ ← converted waktu_mulai;
      _ ← converted waktu_selesai;
      if js_ge waktu_mulai waktu_selesai then
        Return (fail "Waktu mulai harus sebelum waktu selesai")
      else Return pass
    else Return pass).

Definition validateAbsensiData (data : value) : outcome vresult :=
  let required := ["student_name"; "class"; "status"; "date"] in
  required_loop required data (
    let validStatus := [VStr "Hadir"; VStr "Sakit"; VStr "Izin"; VStr "Alpha"] in
    status ← get_member data "status";
    if negb (includes validStatus status) then Return (fail "Status tidak valid")
    else Return pass).

Definition validateNilaiData (data : value) : outcome vresult :=
  let required :=
    ["student_name"; "class"; "mata_pelajaran"; "jenis_penilaian"; "nilai"; "date"] in
  required_loop required data (
    raw ← get_member data "nilai";
    _ ← converted raw;
    let nilai := parseFloat raw in
    if isNaN nilai || num_ltb nilai (Fin 0) || num_ltb (Fin 100) nilai then
      Return (fail "Nilai harus antara 0 dan 100")
    else Return pass).

Definition validatePerilakuData (data : value) : outcome vresult :=
  let required := ["student_name"; "class"; "jenis_perilaku"; "catatan"; "date"] in
  required_loop required data (
    let validTypes := [VStr "Positif"; VStr "Negatif"; VStr "Netral"] in
    jenis_perilaku ← get_member data "jenis_perilaku";
    if negb (includes validTypes jenis_perilaku) then
      Return (fail "Jenis perilaku tidak valid")
    else Return pass).

Definition validateBKAbsensiData (data : value) : outcome vresult :=
  let required := ["student_name"; "class"; "status"; "date"; "waktu"] in
  required_loop required data (
    let validStatus :=
      [VStr "Hadir"; VStr "Sakit"; VStr "Izin"; VStr "Alpha"; VStr "Terlambat"] in
    status ← get_member data "status";
    if negb (includes validStatus status) then Return (fail "Status tidak valid")
    else Return pass).

Definition validateBKPelanggaranData (data : value) : outcome vresult :=
  let required :=
    ["student_name"; "class"; "kategori_pelanggaran"; "jenis_pelanggaran";
     "lokasi"; "kronologi"; "tindak_lanjut"] in
  required_loop required data (
    let validKategori := [VStr "Ringan"; VStr "Sedang"; VStr "Berat"] in
    kategori ← get_member data "kategori_pelanggaran";
    if negb (includes validKategori kategori) then
      Return (fail "Kategori pelanggaran tidak valid")
    else Return pass).

(** The own keys of the table [validators] of [validateData]. *)
Definition validators (config : value) (users : obj)
    : list (string * (value -> outcome vresult)) :=
  [ ("guru", validateGuruData config users);
    ("siswa", validateSiswaData);
    ("kelas", validateKelasData);
    ("intra", validateIntraData);
    ("jurnal", validateJurnalData);
    ("absensi", validateAbsensiData);
    ("nilai", validateNilaiData);
    ("perilaku", validatePerilakuData);
    ("bk_absensi", validateBKAbsensiData);
    ("bk_pelanggaran", validateBKPelanggaranData) ].

Fixpoint table_get {V : Type} (table : list (string * V)) (k : string) : option V :=
  match table with
  | [] => None
  | (k', v) :: table' => if String.eqb k' k then Some v else table_get table' k
  end.

(** An inherited name reaches a member of [Object.prototype] instead of a
    validator; the other names fall through to the basic validation. *)
Definition validateData (config : value) (users : obj) (type : string)
    (data : value) : outcome vresult :=
  match table_get (validators config users) type with
  | Some validator => validator data
  | None =>
      if inherited type then Builtin type else
      title ← get_member data "title";
      if negb (truthy title) then Return (fail "Title dan content wajib diisi") else
      content ← get_member data "content";
      if negb (truthy content) then Return (fail "Title dan content wajib diisi")
      else Return pass
  end.
End Validation.

(** ** DataService: the record store *)

(** [AuthService.currentUser], when somebody is logged in. *)
Record identity : Type := { role : value; name : value }.

(** A cache entry [{ data, timestamp }]. *)
Record cache_entry : Type := { entry_data : list obj; entry_timestamp : Z }.

(** The store: [DataService.allData], [DataService.cache], and the
    credential table [AuthService.users] that the store rebuilds. *)
Record state : Type := {
  allData : list obj;
  cache : gmap string cache_entry;
  users : obj
}.

(** The page on the screen: whether the element [content] is in the
    document, [UIService.currentPage], and the calls of [getFilteredData]
    that the renderers outside these sources make while the page is drawn. *)
Record screen : Type := {
  content : bool;
  currentPage : string;
  elsewhere : list (string * obj)
}.

(** What a call finds around it: the logged-in user, [AppConfig.current]
    and the page on the screen. *)
Record env : Type := {
  currentUser : option identity;
  config : value;
  page : screen
}.

(** A reading of the clock: [Date.now()] and [new Date().toISOString()]. *)
Record clock : Type := { now : Z; iso : string }.

(** The answer of the backend ([window.dataSdk]) to a request. *)
Record sdk_result : Type := { isOk : bool; result_data : value }.

Definition set_cache (st : state) (c : gmap string cache_entry) : state :=
  {| allData := allData st; cache := c; users := users st |}.

Section Store.
Context {JS : Runtime}.

Definition getCachedData (E : env) (st : state) (clk : clock) (key : string)
    : option (list obj) :=
  if negb (truthy (AppConfig_get (config E) "performance.cache_enabled")) then None
  else match cache st !! key with
       | Some cached =>
           if js_lt (VNum (now clk - entry_timestamp cached))
                    (AppConfig_get (config E) "performance.cache_ttl")
           then Some (entry_data cached)
           else None
       | None => None
       end.

Definition setCachedData (E : env) (st : state) (clk : clock) (key : string)
    (data : list obj) : state :=
  if negb (truthy (AppConfig_get (config E) "performance.cache_enabled")) then st
  else set_cache st
         (<[key := {| entry_data := data; entry_timestamp := now clk |}]> (cache st)).

Definition invalidateCache (st : state) : state := set_cache st ∅.

(** The role-based filtering of [getFilteredData]. *)
Definition role_filter (user : option identity) (l : list obj) : list obj :=
  match user with
  | Some u =>
      if strict_eq (role u) (VStr "siswa") then
        List.filter (fun d => strict_eq (get_own d "approved") (VBool true)) l
      else if strict_eq (role u) (VStr "guru") || strict_eq (role u) (VStr "bk") then
        List.filter (fun d => strict_eq (get_own d "author") (name u)) l
      else l
  | None => l
  end.

(** The predicate of one additional filter.  The dotted path is walked
    through own properties: a member that a record inherits from a
    prototype on the way, or a member of a string, a number or a boolean
    other than the length and the characters of a string, is not followed. *)
Definition filter_matches (key : string) (v : value) (item : obj) : bool :=
  if string_includes "." key then
    strict_eq (fold_left get_optional (split_on "." key) (VObj item)) v
  else strict_eq (get_own item key) v.

Definition additional_filters (filters : obj) (l : list obj) : list obj :=
  fold_left
    (fun filteredData key =>
       let v := get_own filters key in
       if negb (strict_eq v VUndef) && negb (strict_eq v (VStr "")) then
         List.filter (filter_matches key v) filteredData
       else filteredData)
    (map fst filters) l.

(** The date a record is sorted by: [new Date(d.createdAt || d.date)]. *)
Definition sort_date (d : obj) : option Z :=
  new_Date (js_or (get_own d "createdAt") (get_own d "date")).

(** The comparator of the sort:
    [(a, b) => new Date(b.createdAt || b.date) - new Date(a.createdAt || a.date)]. *)
Definition newest_first (a b : obj) : option Z :=
  date_minus (sort_date b) (sort_date a).

(** What [getFilteredData] computes when the cache has no answer. *)
Definition compute_filtered (E : env) (st : state) (type : string) (filters : obj)
    : list obj :=
  let filteredData :=
    List.filter (fun d => strict_eq (get_own d "type") (VStr type)) (allData st) in
  let filteredData := role_filter (currentUser E) filteredData in
  let filteredData := additional_filters filters filteredData in
  Array_sort newest_first filteredData.

Definition cacheKey (type : string) (filters : obj) : string :=
  type ++ "_" ++ JSON_stringify filters.

Definition getFilteredData (E : env) (st : state) (clk : clock) (type : string)
    (filters : obj) : state * list obj :=
  match getCachedData E st clk (cacheKey type filters) with
  | Some cached => (st, cached)
  | None =>
      let filteredData := compute_filtered E st type filters in
      (setCachedData E st clk (cacheKey type filters) filteredData, filteredData)
  end.

(** *** The mutation gate *)

Definition canUpdateData (user : option identity) (data : obj) : bool :=
  match user with
  | None => false
  | Some u =>
      if strict_eq (role u) (VStr "admin") then true
      else strict_eq (get_own data "author") (name u)
  end.

Definition canDeleteData (user : option identity) (data : obj) : bool :=
  match user with
  | None => false
  | Some u =>
      if strict_eq (role u) (VStr "admin") then true
      else strict_eq (get_own data "author") (name u)
  end.

(** *** create

    Each of the three mutations runs up to its [await] of the backend
    (the [_request] half, which yields what is handed to the backend) and
    resumes with the backend's answer (the [_resume] half).  The
    [try]/[catch] around them reports the error and throws it again. *)

Definition createData_request (E : env) (st : state) (clk : clock) (type : string)
    (data : value) : outcome obj :=
  validation ← validateData (config E) (users st) type data;
  if negb (valid validation) then
    Throw (Error (default "" (message validation)))
  else
  _ ← converted (AppConfig_get (config E) "max_data_items");
  if js_ge (VNum (Z.of_nat (length (allData st))))
           (AppConfig_get (config E) "max_data_items") then
    Throw (Error "Batas maksimum data telah tercapai")
  else match currentUser E with
       | None => Throw TypeError
       | Some u =>
           let newData := assign_all [("type", VStr type)] (spread_entries data) in
           let newData := set_own newData "author" (name u) in
           let newData := set_own newData "createdAt" (VStr (iso clk)) in
           let newData :=
             set_own newData "approved"
               (VBool (strict_eq (role u) (VStr "admin")
                       || strict_eq (role u) (VStr "kepsek"))) in
           Return newData
       end.

Definition createData_resume (st : state) (result : sdk_result)
    : state * outcome value :=
  if isOk result then (invalidateCache st, Return (result_data result))
  else (st, Throw (Error "Gagal menyimpan data")).

Definition createData (E : env) (st : state) (clk : clock) (type : string)
    (data : value) (result : sdk_result) : state * outcome value :=
  match createData_request E st clk type data with
  | Return _ => createData_resume st result
  | Throw e => (st, Throw e)
  | Builtin k => (st, Builtin k)
  end.

(** *** update *)

Definition find_by_id (st : state) (id : value) : option obj :=
  List.find (fun d => strict_eq (get_own d "__backendId") id) (allData st).

Definition updateData_request (E : env) (st : state) (clk : clock) (id : value)
    (data : value) : outcome obj :=
  match find_by_id st id with
  | None => Throw (Error "Data tidak ditemukan")
  | Some existingData =>
      if negb (canUpdateData (currentUser E) existingData) then
        Throw (Error "Tidak memiliki izin untuk mengupdate data ini")
      else
        let updateData := assign_all existingData (spread_entries data) in
        Return (set_own updateData "updatedAt" (VStr (iso clk)))
  end.

Definition updateData_resume (st : state) (result : sdk_result)
    : state * outcome value :=
  if isOk result then (invalidateCache st, Return (result_data result))
  else (st, Throw (Error "Gagal mengupdate data")).

Definition updateData (E : env) (st : state) (clk : clock) (id : value)
    (data : value) (result : sdk_result) : state * outcome value :=
  match updateData_request E st clk id data with
  | Return _ => updateData_resume st result
  | Throw e => (st, Throw e)
  | Builtin k => (st, Builtin k)
  end.

(** *** delete *)

Definition deleteData_request (E : env) (st : state) (id : value) : outcome obj :=
  match find_by_id st id with
  | None => Throw (Error "Data tidak ditemukan")
  | Some existingData =>
      if negb (canDeleteData (currentUser E) existingData) then
        Throw (Error "Tidak memiliki izin untuk menghapus data ini")
      else Return existingData
  end.

Definition deleteData_resume (st : state) (result : sdk_result)
    : state * outcome value :=
  if isOk result then (invalidateCache st, Return (VBool true))
  else (st, Throw (Error "Gagal menghapus data")).

Definition deleteData (E : env) (st : state) (id : value) (result : sdk_result)
    : state * outcome value :=
  match deleteData_request E st id with
  | Return _ => deleteData_resume st result
  | Throw e => (st, Throw e)
  | Builtin k => (st, Builtin k)
  end.

(** *** resync: [handleDataChange] *)

Definition defaultUsers : obj :=
  [ ("admin", VObj [("password", VStr "admin123"); ("role", VStr "admin");
                    ("name", VStr "Administrator")]);
    ("kepsek", VObj [("password", VStr "kepsek123"); ("role", VStr "kepsek");
                     ("name", VStr "Kepala Sekolah")]);
    ("guru", VObj [("password", VStr "guru123"); ("role", VStr "guru");
                   ("name", VStr "Guru Matematika")]);
    ("bk", VObj [("password", VStr "bk123"); ("role", VStr "bk");
                 ("name", VStr "Guru BK")]);
    ("siswa", VObj [("password", VStr "siswa123"); ("role", VStr "siswa");
                    ("name", VStr "Siswa/Orang Tua")]) ].

(** [AuthService.users[guru.username] = { ... }] for one teacher.  The user
    name is converted to a property key, which throws for a name that does
    not convert.  The key [__proto__], unless the table has it as a property
    of its own, is the accessor of [Object.prototype]: the assignment makes
    the entry the prototype of the table and adds no key (what the table
    then inherits from the entry is not followed). *)
Definition register_teacher (table : obj) (guru : obj) : outcome obj :=
  let username := get_own guru "username" in
  _ ← converted username;
  let key := ToString username in
  if String.eqb key "__proto__" && negb (has_own table key) then Return table
  else
    Return (set_own table key
              (VObj [ ("password", get_own guru "password");
                      ("role", js_or (get_own guru "role") (VStr "guru"));
                      ("name", get_own guru "title");
                      ("nip", get_own guru "nip");
                      ("mapel", get_own guru "mapel") ])).

(** [guruUsers.forEach(...)]: the table as the loop leaves it, and whether
    the loop ran to its end. *)
Fixpoint register_teachers (table : obj) (guruUsers : list obj)
    : obj * outcome unit :=
  match guruUsers with
  | [] => (table, Return tt)
  | guru :: guruUsers' =>
      match register_teacher table guru with
      | Return table' => register_teachers table' guruUsers'
      | Throw e => (table, Throw e)
      | Builtin k => (table, Builtin k)
      end
  end.

(** [updateUsersFromData(data)] on the table [AuthService.users]: the table
    as the call leaves it, and whether the call returned. *)
Definition updateUsersFromData (table : obj) (data : list obj)
    : obj * outcome unit :=
  let table := assign_all table defaultUsers in
  let guruUsers :=
    List.filter (fun d => strict_eq (get_own d "type") (VStr "guru")
                          && truthy (get_own d "username")
                          && truthy (get_own d "password")) data in
  register_teachers table guruUsers.

(** The calls of [getFilteredData] that [UIService.renderCurrentPage()]
    makes before it returns.  Without the element [content] it returns at
    once.  [renderIntraKurikuler] lists the type [intra] without filters
    and hands the list to a table helper that is not part of these sources;
    the dashboard reads the statistics and the collection itself and calls
    helpers of the login module; the renderers of four pages are not part
    of these sources: the calls from outside are [elsewhere].  The pages
    [kokurikuler] and [wali] draw their tabs and fill them later, from a
    timer, and any other name is no page: drawing it throws before anything
    is asked. *)
Definition rendered_queries (s : screen) : list (string * obj) :=
  if negb (content s) then []
  else if String.eqb (currentPage s) "intra" then ("intra", []) :: elsewhere s
  else if existsb (String.eqb (currentPage s))
            ["beranda"; "jurnal"; "bk"; "manajemen"; "persetujuan"]
  then elsewhere s
  else [].

Definition renderCurrentPage (E : env) (st : state) (clk : clock) : state :=
  fold_left (fun st q => fst (getFilteredData E st clk (fst q) (snd q)))
    (rendered_queries (page E)) st.

(** The store as [handleDataChange(data)] leaves it.  When the update of
    the credentials throws, the cache is not invalidated and nothing is
    rendered; otherwise the cache is cleared and, with a user logged in, the
    page is rendered again, which reads through [getFilteredData]. *)
Definition handleDataChange (E : env) (clk : clock) (st : state) (data : list obj)
    : state :=
  let '(table, updated) := updateUsersFromData (users st) data in
  let st := {| allData := data; cache := cache st; users := table |} in
  match updated with
  | Return _ =>
      let st := invalidateCache st in
      match currentUser E with
      | Some _ => renderCurrentPage E st clk
      | None => st
      end
  | _ => st
  end.
End Store.

(** *** The operations of the store as a transition system *)

Inductive request : Type :=
| Query (type : string) (filters : obj)
| Create (type : string) (data : value) (result : sdk_result)
| Update (id : value) (data : value) (result : sdk_result)
| Delete (id : value) (result : sdk_result)
| Resync (data : list obj).

(** The answers: the list of a query, the outcome of a mutation, and for a
    resync whether the credentials were rebuilt (if not, the exception left
    [handleDataChange] before the cache was cleared). *)
Inductive reply : Type :=
| Listed (l : list obj)
| Settled (o : outcome value)
| Refreshed (updated : outcome unit).

Definition step {JS : Runtime} (E : env) (clk : clock) (st : state) (r : request)
    : state * reply :=
  match r with
  | Query type filters =>
      let '(st', l) := getFilteredData E st clk type filters in (st', Listed l)
  | Create type data result =>
      let '(st', o) := createData E st clk type data result in (st', Settled o)
  | Update id data result =>
      let '(st', o) := updateData E st clk id data result in (st', Settled o)
  | Delete id result =>
      let '(st', o) := deleteData E st id result in (st', Settled o)
  | Resync data =>
      (handleDataChange E clk st data,
       Refreshed (snd (updateUsersFromData (users st) data)))
  end.


(** A history: each call with the user, configuration and clock it met. *)
Definition run {JS : Runtime} (history : list (env * clock * request)) (st : state)
    : state :=
  fold_left (fun st c => fst (step (fst (fst c)) (snd (fst c)) st (snd c))) history st.

(** ** DataService: the statistics, the CSV export and the cache sweep *)

(** [this.allData.filter(d => d.type === type).length] *)
Definition count_of_type (st : state) (type : string) : Z :=
  Z.of_nat (length (List.filter (fun d => strict_eq (get_own d "type") (VStr type))
                      (allData st))).

Definition getStatistics (st : state) : obj :=
  [ ("intra", VNum (count_of_type st "intra"));
    ("kokurikuler", VNum (count_of_type st "kokurikuler"));
    ("jurnal", VNum (count_of_type st "jurnal"));
    ("siswa", VNum (count_of_type st "siswa"));
    ("guru", VNum (count_of_type st "guru"));
    ("absensi", VNum (count_of_type st "absensi"));
    ("nilai", VNum (count_of_type st "nilai"));
    ("perilaku", VNum (count_of_type st "perilaku"));
    ("bk_absensi", VNum (count_of_type st "bk_absensi"));
    ("bk_pelanggaran", VNum (count_of_type st "bk_pelanggaran")) ].

(** [s.replace(/c/g, by)] for a one-character pattern. *)
Fixpoint replace_char (c : ascii) (replacement : string) (s : string) : string :=
  match s with
  | EmptyString => EmptyString
  | String a s' =>
      (if Ascii.eqb a c then replacement else char_string a)
      ++ replace_char c replacement s'
  end.

Definition double_quote : ascii := "034"%char.

(** One cell of a row:
    [const value = row[header] || ''] and then the text of [value] between
    quotes, every quote in it doubled. *)
Definition csv_cell (v : value) : string :=
  let value := js_or v (VStr EmptyString) in
  char_string double_quote
  ++ replace_char double_quote (String double_quote (char_string double_quote))
       (ToString value)
  ++ char_string double_quote.







(** [a > b] *)
Definition js_gt {JS : Runtime} (a b : value) : bool :=
  match js_less_than b a with Some true => true | _ => false end.

(** One run of the timer that [setupCache] starts: every entry with
    [now - value.timestamp > ttl] is deleted. *)
Definition sweepCache {JS : Runtime} (E : env) (st : state) (clk : clock) : state :=
  let ttl := AppConfig_get (config E) "performance.cache_ttl" in
  set_cache st
    (filter (fun kv : string * cache_entry =>
               js_gt (VNum (now clk - entry_timestamp (snd kv))) ttl = false)
            (cache st)).

(** [setupCache] starts the timer only when the cache is enabled. *)
Definition setupCache (E : env) : bool :=
  truthy (AppConfig_get (config E) "performance.cache_enabled").

(** ** SecurityService: the sanitizer and the rate limiter *)


(** [this.attempts[key] || []]: the list stored under the key, or a new
    list.  A key that [attempts] only inherits yields a member of
    [Object.prototype], which is truthy and has no [filter]: [None]. *)
Definition stored_attempts (attempts : gmap string (list Z)) (key : string)
    : option (list Z) :=
  match attempts !! key with
  | Some userAttempts => Some userAttempts
  | None => if inherited key then None else Some []
  end.

(** [RateLimiter.isAllowed(key, maxAttempts = 5, windowMs = 60000)] at the
    time [now]; [attempts] is [RateLimiter.attempts], and an argument left
    out is [None].  The list that is filtered is the list that is stored, so
    the attempt pushed on it is stored with it. *)
Definition isAllowed (attempts : gmap string (list Z)) (now : Z) (key : string)
    (maxAttempts windowMs : option Z) : gmap string (list Z) * outcome bool :=
  let maxAttempts := default 5 maxAttempts in
  let windowMs := default 60000 windowMs in
  match stored_attempts attempts key with
  | None => (attempts, Throw TypeError)
  | Some userAttempts =>
      let validAttempts :=
        List.filter (fun time => now - time <? windowMs) userAttempts in
      if Z.of_nat (length validAttempts) >=? maxAttempts then
        (<[key := validAttempts]> attempts, Return false)
      else (<[key := (validAttempts ++ [now])%list]> attempts, Return true)
  end.

(** [RateLimiter.reset(key)] *)
Definition reset (attempts : gmap string (list Z)) (key : string)
    : gmap string (list Z) :=
  delete key attempts.

(** ** AppConfig: writing and loading *)

(** [keys.pop()] on the segments of a key: the last segment and the others. *)
Definition pop_last (keys : list string) : list string * string :=
  (List.removelast keys, List.last keys EmptyString).

(** The walk of [AppConfig.set] from [obj] along [keys], then the assignment
    [target[lastKey] = value]; it returns [obj] as the walk leaves it.  An
    object on the way is entered, a falsy property is first replaced by a
    new object; an assignment to a property of a number, a boolean or a
    string is lost (the script is not in strict mode), and reading a
    property of [undefined] throws.  A segment that the value met only
    inherits from [Object.prototype] takes the walk into that member, and
    the last segment [__proto__], unless it is an own property, calls the
    setter of the prototype: both are [Builtin].  The members that a
    string, a number or a boolean inherits under other names are not
    followed. *)
Fixpoint set_along (obj : value) (keys : list string) (lastKey : string)
    (v : value) : outcome value :=
  match keys with
  | [] =>
      match obj with
      | VObj o =>
          if negb (has_own o lastKey) && String.eqb lastKey "__proto__"
          then Builtin lastKey
          else Return (VObj (set_own o lastKey v))
      | VUndef | VNull => Throw TypeError
      | _ => Return obj
      end
  | i :: keys' =>
      match obj with
      | VObj o =>
          if negb (has_own o i) && inherited i then Builtin i else
          let child := if truthy (get_own o i) then get_own o i else VObj [] in
          child' ← set_along child keys' lastKey v;
          Return (VObj (set_own o i child'))
      | VUndef | VNull => Throw TypeError
      | _ =>
          if inherited i then Builtin i else
          _ ← set_along (get_prop obj i) keys' lastKey v;
          Return obj
      end
  end.

(** [AppConfig.set(key, value)] on [AppConfig.current]; saving to the local
    storage and the change event leave the configuration as it is. *)
Definition AppConfig_set (current : value) (key : string) (v : value)
    : outcome value :=
  let '(keys, lastKey) := pop_last (split_on "." key) in
  set_along current keys lastKey v.

(** [AppConfig.load()]: [stored] is what [JSON.parse] makes of the stored
    text, [None] when nothing (or the empty text) is stored; a text that does
    not parse leaves the defaults. *)
Definition AppConfig_load (defaults : value) (stored : option (outcome value))
    : value :=
  match stored with
  | Some (Return parsed) =>
      VObj (assign_all (assign_all [] (spread_entries defaults))
              (spread_entries parsed))
  | _ => VObj (assign_all [] (spread_entries defaults))
  end.

(** ** A runtime that evaluates

    It reads the decimal literals without exponent, the two date formats the
    program itself produces ([YYYY-MM-DD] of a date input and the output of
    [toISOString]), and prints objects as [JSON.stringify] does. *)
Module Reference.

Definition digit_value (c : ascii) : Z := Z.of_nat (nat_of_ascii c) - 48.

Definition digits_value (ds : list ascii) : Z :=
  fold_left (fun acc c => 10 * acc + digit_value c) ds 0.

Fixpoint take_digits (cs : list ascii) : list ascii * list ascii :=
  match cs with
  | c :: cs' =>
      if is_digit c then let '(ds, rest) := take_digits cs' in (c :: ds, rest)
      else ([], cs)
  | [] => ([], [])
  end.

Definition is_space (c : ascii) : bool :=
  existsb (Ascii.eqb c) [" "; "009"; "010"; "011"; "012"; "013"; "160"]%char.

Fixpoint skip_spaces (cs : list ascii) : list ascii :=
  match cs with
  | c :: cs' => if is_space c then skip_spaces cs' else cs
  | [] => []
  end.

Definition pow10 (n : nat) : positive := Nat.iter n (Pos.mul 10) 1%positive.

(** An unsigned decimal: digits, optionally a point and more digits. *)
Definition unsigned_decimal (cs : list ascii) : option (Q * list ascii) :=
  let '(whole, rest) := take_digits cs in
  let '(fraction, rest') :=
    match rest with
    | "."%char :: after => take_digits after
    | _ => ([], rest)
    end in
  match (whole ++ fraction)%list with
  | [] => None
  | ds => Some (Qmake (digits_value ds) (pow10 (length fraction)), rest')
  end.

Definition signed_decimal (cs : list ascii) : option (Q * list ascii) :=
  match cs with
  | "-"%char :: cs' =>
      match unsigned_decimal cs' with
      | Some (q, rest) => Some (Qopp q, rest)
      | None => None
      end
  | "+"%char :: cs' => unsigned_decimal cs'
  | _ => unsigned_decimal cs
  end.

Definition parseFloat_string (s : string) : num :=
  match signed_decimal (skip_spaces (string_chars s)) with
  | Some (q, _) => Fin q
  | None => NaN
  end.

Definition StringToNumber (s : string) : num :=
  match skip_spaces (string_chars s) with
  | [] => Fin 0
  | cs =>
      match signed_decimal cs with
      | Some (q, rest) =>
          match skip_spaces rest with [] => Fin q | _ => NaN end
      | None => NaN
      end
  end.

(** Days from 1970-01-01 to a date of the proleptic Gregorian calendar. *)
Definition days_from_civil (y m d : Z) : Z :=
  let y' := if m <=? 2 then y - 1 else y in
  let era := y' / 400 in
  let yoe := y' - era * 400 in
  let mp := (m + 9) mod 12 in
  let doy := (153 * mp + 2) / 5 + d - 1 in
  let doe := yoe * 365 + yoe / 4 - yoe / 100 + doy in
  era * 146097 + doe - 719468.

Definition days_in_month (y m : Z) : Z :=
  if m =? 2 then
    if ((y mod 4 =? 0) && negb (y mod 100 =? 0)) || (y mod 400 =? 0) then 29 else 28
  else if (m =? 4) || (m =? 6) || (m =? 9) || (m =? 11) then 30 else 31.

Definition number_of (cs : list ascii) : option Z :=
  if forallb is_digit cs then Some (digits_value cs) else None.

Definition date_part (y m d : list ascii) : option Z :=
  match number_of y, number_of m, number_of d with
  | Some y, Some m, Some d =>
      if (1 <=? m) && (m <=? 12) && (1 <=? d) && (d <=? days_in_month y m)
      then Some (days_from_civil y m d * 86400000) else None
  | _, _, _ => None
  end.

Definition time_part (h mi s ms : list ascii) : option Z :=
  match number_of h, number_of mi, number_of s, number_of ms with
  | Some h, Some mi, Some s, Some ms =>
      if (h <=? 23) && (mi <=? 59) && (s <=? 59)
      then Some (((h * 60 + mi) * 60 + s) * 1000 + ms) else None
  | _, _, _, _ => None
  end.

Definition Date_parse (s : string) : option Z :=
  match string_chars s with
  | [y1; y2; y3; y4; "-"; m1; m2; "-"; d1; d2]%char =>
      date_part [y1; y2; y3; y4] [m1; m2] [d1; d2]
  | [y1; y2; y3; y4; "-"; m1; m2; "-"; d1; d2; "T";
     h1; h2; ":"; i1; i2; ":"; s1; s2; "."; f1; f2; f3; "Z"]%char =>
      match date_part [y1; y2; y3; y4] [m1; m2] [d1; d2],
            time_part [h1; h2] [i1; i2] [s1; s2] [f1; f2; f3] with
      | Some day, Some time => Some (day + time)
      | _, _ => None
      end
  | _ => None
  end.

Definition hex_digit (n : nat) : ascii :=
  nth n (string_chars "0123456789abcdef") "0"%char.

Definition escape (c : ascii) : string :=
  if Ascii.eqb c "034"%char then "\" ++ char_string c
  else if Ascii.eqb c "\"%char then "\\"
  else if Ascii.eqb c "010"%char then "\n"
  else if Ascii.eqb c "013"%char then "\r"
  else if Ascii.eqb c "009"%char then "\t"
  else if Ascii.eqb c "008"%char then "\b"
  else if Ascii.eqb c "012"%char then "\f"
  else if (nat_of_ascii c <? 32)%nat then
    "\u00" ++ char_string (hex_digit (nat_of_ascii c / 16))
            ++ char_string (hex_digit (nat_of_ascii c mod 16))
  else char_string c.

Definition quote (s : string) : string :=
  let q := char_string "034"%char in
  q ++ String.concat EmptyString (map escape (string_chars s)) ++ q.

Fixpoint json_value (v : value) : option string :=
  match v with
  | VUndef => None
  | VNull | VNaN => Some "null"
  | VBool true => Some "true"
  | VBool false => Some "false"
  | VNum n => Some (ZToString n)
  | VStr s => Some (quote s)
  | VObj o =>
      let fix members (o : list (string * value)) : list string :=
        match o with
        | [] => []
        | (k, v') :: o' =>
            match json_value v' with
            | Some text => (quote k ++ ":" ++ text) :: members o'
            | None => members o'
            end
        end in
      Some ("{" ++ String.concat "," (members o) ++ "}")
  end.

Definition JSON_stringify (o : obj) : string :=
  default "" (json_value (VObj o)).

End Reference.

Definition reference_runtime : Runtime := {|
  Date_parse := Reference.Date_parse;
  StringToNumber := Reference.StringToNumber;
  parseFloat_string := Reference.parseFloat_string;
  JSON_stringify := Reference.JSON_stringify
|}.

(** ** Vocabulary of the statements *)

(** The [required] arrays of the ten validators, by record type. *)
Definition required_fields : list (string * list string) :=
  [ ("guru", ["title"; "nip"; "mapel"; "role"; "username"; "password"]);
    ("siswa", ["title"; "nisn"; "jenis_kelamin"; "class"]);
    ("kelas", ["title"; "tingkat"; "jurusan"]);
    ("intra", ["judul_modul"; "mata_pelajaran"; "kelas"; "fase"; "penulis"]);
    ("jurnal", ["nama_guru"; "kelas"; "hari"; "tanggal"; "mata_pelajaran";
                "materi_pokok"]);
    ("absensi", ["student_name"; "class"; "status"; "date"]);
    ("nilai", ["student_name"; "class"; "mata_pelajaran"; "jenis_penilaian";
               "nilai"; "date"]);
    ("perilaku", ["student_name"; "class"; "jenis_perilaku"; "catatan"; "date"]);
    ("bk_absensi", ["student_name"; "class"; "status"; "date"; "waktu"]);
    ("bk_pelanggaran", ["student_name"; "class"; "kategori_pelanggaran";
                        "jenis_pelanggaran"; "lokasi"; "kronologi";
                        "tindak_lanjut"]) ].

(** A field counts as missing when its value is falsy: [!data[field]]. *)
Definition missing (data : value) (field : string) : bool :=
  negb (truthy (get_prop data field)).

(** The message of the required-field loop. *)
Definition missing_message (field : string) : string := field ++ " wajib diisi".

Definition nullish (v : value) : bool :=
  match v with VUndef | VNull => true | _ => false end.

(** Plain data: no object in the value, at any depth, has a property
    [toString] of its own.  What a form or a parsed text yields is plain
    unless it names a field so. *)
Fixpoint plain (v : value) : bool :=
  match v with
  | VObj o => negb (has_own o "toString") && forallb (fun kv => plain (snd kv)) o
  | _ => true
  end.

(** A character class occurs in a string. *)
Definition contains (class : ascii -> bool) (s : string) : Prop :=
  exists c, In c (string_chars s) /\ class c = true.

(** ** Stores, users and candidates that the statements are tried on *)

(** The grade of section 8 of the specification. *)
Definition grade_fields : obj :=
  [ ("student_name", VStr "A"); ("class", VStr "10A");
    ("mata_pelajaran", VStr "Math"); ("jenis_penilaian", VStr "Quiz");
    ("nilai", VNum 85); ("date", VStr "2024-05-01") ].

Definition admin_user : identity :=
  {| role := VStr "admin"; name := VStr "Administrator" |}.
Definition guru_user : identity :=
  {| role := VStr "guru"; name := VStr "Guru Matematika" |}.
Definition bk_user : identity :=
  {| role := VStr "bk"; name := VStr "Guru BK" |}.
Definition siswa_user : identity :=
  {| role := VStr "siswa"; name := VStr "Siswa/Orang Tua" |}.

(** The dashboard, the page a session opens with. *)
Definition dashboard : screen :=
  {| content := true; currentPage := "beranda"; elsewhere := [] |}.

Definition session (u : identity) : env :=
  {| currentUser := Some u; config := AppConfig_defaults; page := dashboard |}.

(** The same session on another page of [ui.js]. *)
Definition on_page (p : string) (E : env) : env :=
  {| currentUser := currentUser E; config := config E;
     page := {| content := true; currentPage := p; elsewhere := [] |} |}.

Definition at_time (t : Z) (text : string) : clock := {| now := t; iso := text |}.

(** A lesson plan that a teacher wrote and nobody approved yet. *)
Definition pending_plan : obj :=
  [ ("type", VStr "intra"); ("judul_modul", VStr "Modul 1");
    ("author", VStr "Guru Matematika");
    ("createdAt", VStr "2024-05-01T08:00:00.000Z");
    ("approved", VBool false); ("__backendId", VStr "r1") ].

Definition store_with_pending : state :=
  {| allData := [pending_plan]; cache := ∅; users := [] |}.

(** Two grades: the first was created earlier and updated later than the
    second was created. *)
Definition grade_updated : obj :=
  [ ("type", VStr "nilai"); ("student_name", VStr "A");
    ("author", VStr "Guru Matematika");
    ("createdAt", VStr "2024-01-01T00:00:00.000Z"); ("approved", VBool true);
    ("updatedAt", VStr "2024-03-01T00:00:00.000Z"); ("__backendId", VStr "g1") ].

Definition grade_recent : obj :=
  [ ("type", VStr "nilai"); ("student_name", VStr "B");
    ("author", VStr "Guru Matematika");
    ("createdAt", VStr "2024-02-01T00:00:00.000Z"); ("approved", VBool true);
    ("__backendId", VStr "g2") ].

Definition store_with_grades : state :=
  {| allData := [grade_updated; grade_recent]; cache := ∅; users := [] |}.

(** The three records of the sorting example of the specification. *)
Definition dated_record (id day : string) : obj :=
  [ ("type", VStr "absensi"); ("author", VStr "Guru Matematika");
    ("date", VStr day); ("approved", VBool true); ("__backendId", VStr id) ].

Definition store_with_dates : state :=
  {| allData := [ dated_record "a1" "2024-01-01"; dated_record "a2" "2024-03-01";
                  dated_record "a3" "2024-02-01" ];
     cache := ∅; users := [] |}.

(** A grade as the store holds it, written by the mathematics teacher. *)
Definition stored_grade : obj :=
  [ ("type", VStr "nilai"); ("student_name", VStr "A"); ("class", VStr "10A");
    ("mata_pelajaran", VStr "Math"); ("jenis_penilaian", VStr "Quiz");
    ("nilai", VNum 85); ("date", VStr "2024-05-01");
    ("author", VStr "Guru Matematika");
    ("createdAt", VStr "2024-05-01T08:00:00.000Z"); ("approved", VBool false);
    ("__backendId", VStr "n1") ].

Definition store_with_grade : state :=
  {| allData := [stored_grade]; cache := ∅; users := [] |}.

(** The backend accepts and echoes a record, or refuses. *)
Definition accepted (record : obj) : sdk_result :=
  {| isOk := true; result_data := VObj record |}.
Definition refused : sdk_result := {| isOk := false; result_data := VUndef |}.

(** A list in descending order of a date that every element has. *)
Definition newer_or_equal {A : Type} (date : A -> option Z) (a b : A) : Prop :=
  match date a, date b with
  | Some ta, Some tb => tb <= ta
  | _, _ => False
  end.

Definition descending_by {A : Type} (date : A -> option Z) (l : list A) : Prop :=
  StronglySorted (newer_or_equal date) l.

(** The elements of a list that carry the date [t], in their order. *)
Definition with_date {A : Type} (date : A -> option Z) (t : Z) (l : list A) : list A :=
  List.filter (fun a => match date a with Some ta => ta =? t | None => false end) l.

(** The comparator [(a, b) => date(b) - date(a)]. *)
Definition by_date {A : Type} (date : A -> option Z) (a b : A) : option Z :=
  date_minus (date b) (date a).

Definition has_date {A : Type} (date : A -> option Z) (a : A) : Prop :=
  date a <> None.

(** What the required-field loop gives a validator, whatever follows it;
    the checks that follow return a result or throw the TypeError of a
    conversion. *)
Definition loop_then_checks (required : list string)
    (validator : value -> outcome vresult) : Prop :=
  (forall data, nullish data = true -> validator data = Throw TypeError)
  /\ (forall data field, nullish data = false ->
        List.find (missing data) required = Some field ->
        validator data = Return (fail (missing_message field)))
  /\ (forall data, nullish data = false ->
        List.find (missing data) required = None ->
        (exists r, validator data = Return r) \/ validator data = Throw TypeError).

(** The effective timestamp as the specification words it: [updatedAt],
    falling back to [createdAt] and then to [date]. *)
Definition effective_timestamp {JS : Runtime} (d : obj) : option Z :=
  new_Date (js_or (get_own d "updatedAt")
                  (js_or (get_own d "createdAt") (get_own d "date"))).

(** The records that a query selects, before they are sorted. *)
Definition matching_records (E : env) (st : state) (type : string) (filters : obj)
    : list obj :=
  additional_filters filters
    (role_filter (currentUser E)
       (List.filter (fun d => strict_eq (get_own d "type") (VStr type)) (allData st))).

Definition is_query (c : env * clock * request) : Prop :=
  match snd c with Query _ _ => True | _ => False end.


(** Every cache entry holds a list computed from the collection of the
    store as it is now, for some user. *)
Definition fresh {JS : Runtime} (st : state) : Prop :=
  forall key entry,
    cache st !! key = Some entry ->
    exists E type filters,
      key = cacheKey type filters
      /\ entry_data entry = compute_filtered E st type filters.

(** Every cache entry holds a list computed for the user of [E] from the
    collection of the store as it is now. *)
Definition fresh_for {JS : Runtime} (E : env) (st : state) : Prop :=
  forall key entry,
    cache st !! key = Some entry ->
    exists type filters,
      key = cacheKey type filters
      /\ entry_data entry = compute_filtered E st type filters.

(** A user for whom the role filter lets every record through: nobody
    logged in, or a role other than siswa, guru and bk. *)
Definition unrestricted (E : env) : Prop :=
  match currentUser E with
  | None => True
  | Some u =>
      strict_eq (role u) (VStr "siswa") = false
      /\ strict_eq (role u) (VStr "guru") = false
      /\ strict_eq (role u) (VStr "bk") = false
  end.

(** A filter counts when its value is neither [undefined] nor the empty
    string. *)
Definition active_filter (filters : obj) (key : string) : bool :=
  negb (strict_eq (get_own filters key) VUndef)
  && negb (strict_eq (get_own filters key) (VStr EmptyString)).

(** A record passes every filter that counts. *)
Definition passes_filters (filters : obj) (item : obj) : bool :=
  forallb (fun key =>
             if active_filter filters key
             then filter_matches key (get_own filters key) item
             else true)
          (map fst filters).

Definition of_type (type : string) (d : obj) : bool :=
  strict_eq (get_own d "type") (VStr type).

(** A value that makes a filter count, and a record that matches every
    entry of the filters whose value counts. *)
Definition active_value (v : value) : bool :=
  negb (strict_eq v VUndef) && negb (strict_eq v (VStr EmptyString)).

Definition matches_all (filters : obj) (item : obj) : bool :=
  forallb (fun kv => negb (active_value (snd kv))
                     || filter_matches (fst kv) (snd kv) item)
          filters.

(** The walk along a dotted path stays within own properties: before its
    last step it meets [undefined], [null], or an object that has the next
    segment as a property of its own or does not inherit it.  (What a
    record inherits from a prototype, and the members of strings, numbers
    and booleans, are not followed by [filter_matches].) *)
Fixpoint reads_own (keys : list string) (v : value) : bool :=
  match keys with
  | [] => true
  | k :: keys' =>
      match keys' with
      | [] => true
      | _ =>
          match v with
          | VUndef | VNull => true
          | VObj o =>
              (has_own o k || negb (inherited k)) && reads_own keys' (get_own o k)
          | _ => false
          end
      end
  end.

(** A filter key that the records of a store are read under through own
    properties only: a key without a dot, or a dotted path that stays
    within the own properties of every record. *)
Definition reads_own_properties (st : state) (key : string) : bool :=
  negb (string_includes "." key)
  || forallb (fun d => reads_own (split_on "." key) (VObj d)) (allData st).

(** The types that the dashboard counts. *)
Definition counted_types : list string :=
  [ "intra"; "kokurikuler"; "jurnal"; "siswa"; "guru"; "absensi"; "nilai";
    "perilaku"; "bk_absensi"; "bk_pelanggaran" ].

(** The sum of the numbers of a statistics object. *)
Definition statistics_total (stats : obj) : Z :=
  fold_right (fun kv acc => match snd kv with VNum n => n + acc | _ => acc end) 0 stats.

(** The last element of a list that satisfies [p]. *)
Fixpoint find_last {A : Type} (p : A -> bool) (l : list A) : option A :=
  match l with
  | [] => None
  | x :: l' =>
      match find_last p l' with
      | Some y => Some y
      | None => if p x then Some x else None
      end
  end.

(** A record of the collection registers the user name [k]: it is a teacher
    with a user name that reads [k] and a password. *)
Definition registers (k : string) (d : obj) : bool :=
  strict_eq (get_own d "type") (VStr "guru")
  && truthy (get_own d "username")
  && truthy (get_own d "password")
  && String.eqb (ToString (get_own d "username")) k.

(** The records that [updateUsersFromData] takes for teachers, and the key
    under which it registers one. *)
Definition is_teacher (d : obj) : bool :=
  strict_eq (get_own d "type") (VStr "guru")
  && truthy (get_own d "username")
  && truthy (get_own d "password").

Definition user_name (guru : obj) : string := ToString (get_own guru "username").

(** The assignment of a teacher's entry writes a key of the table: the user
    name is not [__proto__], or the table has that key of its own. *)
Definition writes_key (table : obj) (guru : obj) : bool :=
  negb (String.eqb (user_name guru) "__proto__") || has_own table "__proto__".

(** The entry that [updateUsersFromData] writes for a teacher. *)
Definition credentials_of (guru : obj) : value :=
  VObj [ ("password", get_own guru "password");
         ("role", js_or (get_own guru "role") (VStr "guru"));
         ("name", get_own guru "title");
         ("nip", get_own guru "nip");
         ("mapel", get_own guru "mapel") ].




(** A series of calls of the rate limiter under one limit and one window,
    each call with its time and its key. *)
Fixpoint limiter_run (attempts : gmap string (list Z)) (maxAttempts windowMs : option Z)
    (calls : list (Z * string)) : gmap string (list Z) * list (outcome bool) :=
  match calls with
  | [] => (attempts, [])
  | (t, key) :: calls' =>
      let '(attempts', r) := isAllowed attempts t key maxAttempts windowMs in
      let '(attempts'', rs) := limiter_run attempts' maxAttempts windowMs calls' in
      (attempts'', r :: rs)
  end.

Definition allowed (r : outcome bool) : bool :=
  match r with Return true => true | _ => false end.

(** The times of the calls on [key] that were allowed. *)
Fixpoint allowed_times (key : string) (calls : list (Z * string))
    (results : list (outcome bool)) : list Z :=
  match calls, results with
  | (t, key') :: calls', r :: results' =>
      (if String.eqb key' key && allowed r then [t] else [])
      ++ allowed_times key calls' results'
  | _, _ => []
  end%list.

(** The attempts recorded under a key; none when the key is absent. *)
Definition recorded (attempts : gmap string (list Z)) (key : string) : list Z :=
  default [] (attempts !! key).

(** The times that lie within the window before [T]: [T - t < window]. *)
Definition recent (window T : Z) (times : list Z) : list Z :=
  List.filter (fun t => T - t <? window) times.

(** Along [keys] from [obj], everything that [AppConfig.set] walks through
    is an object: [obj] is one, and so is every truthy property on the way. *)
Fixpoint path_clear (keys : list string) (obj : value) : bool :=
  match obj, keys with
  | VObj _, [] => true
  | VObj o, i :: keys' =>
      if truthy (get_own o i) then path_clear keys' (get_own o i) else true
  | _, _ => false
  end.

(** What a call returned, [d] when it did not return. *)
Definition returned {A : Type} (d : A) (o : outcome A) : A :=
  match o with Return a => a | _ => d end.

(** The properties of a value that is an object. *)
Definition object_of (v : value) : obj :=
  match v with VObj o => o | _ => [] end.

(** A configuration with the cache switched off, and one that lets the
    collection hold a single record. *)
Definition config_without_cache : value :=
  VObj [ ("max_data_items", VNum 999);
         ("security", VObj [ ("password_min_length", VNum 6) ]);
         ("performance", VObj [ ("cache_enabled", VBool false);
                                ("cache_ttl", VNum 300000) ]) ].

Definition config_for_one_record : value :=
  VObj [ ("max_data_items", VNum 1);
         ("security", VObj [ ("password_min_length", VNum 6) ]);
         ("performance", VObj [ ("cache_enabled", VBool true);
                                ("cache_ttl", VNum 300000) ]) ].

Definition session_with (c : value) (u : identity) : env :=
  {| currentUser := Some u; config := c; page := dashboard |}.

(** A visitor whose role the code does not know. *)
Definition guest_user : identity := {| role := VStr "tamu"; name := VStr "Tamu" |}.

(** A store whose cache holds one entry, written at time 0. *)
Definition cached_entry : cache_entry :=
  {| entry_data := [pending_plan]; entry_timestamp := 0 |}.

Definition store_with_entry : state :=
  {| allData := [pending_plan]; cache := {[ "intra_{}" := cached_entry ]};
     users := [] |}.

(** A grade whose candidate claims an author, an approval and a creation
    time of its own, and one that claims another type. *)
Definition forged_grade : obj :=
  (grade_fields
   ++ [ ("author", VStr "Administrator"); ("approved", VBool true);
        ("createdAt", VStr "1999-01-01T00:00:00.000Z") ])%list.

Definition grade_posing_as_teacher : obj :=
  (grade_fields ++ [ ("type", VStr "guru") ])%list.

(** A teacher as a candidate and as records of the collection; the second
    record has the same user name and another password. *)
Definition teacher_fields : obj :=
  [ ("title", VStr "Budi"); ("nip", VStr "198001012005011001");
    ("mapel", VStr "Fisika"); ("role", VStr "guru");
    ("username", VStr "budi"); ("password", VStr "Rahasia1") ].

Definition teacher_record : obj := (("type", VStr "guru") :: teacher_fields)%list.

Definition teacher_record_renewed : obj :=
  set_own teacher_record "password" (VStr "Rahasia2").

(** A store whose credential table knows the teacher although the
    collection is empty. *)
Definition store_after_teacher : state :=
  {| allData := []; cache := ∅;
     users := [ ("budi", credentials_of teacher_record) ] |}.


Definition plans_page : env := on_page "intra" (session admin_user).


(** A teacher record whose user name is an object that does not convert. *)
Definition nameless_teacher : obj :=
  [ ("type", VStr "guru"); ("title", VStr "Tanpa Nama");
    ("username", VObj [("toString", VNull)]); ("password", VStr "Rahasia1") ].

(** Two texts that differ in their quotes. *)
Definition quoted_once : string :=
  String "a" (String double_quote (String "b" EmptyString)).
Definition quoted_twice : string :=
  String "a" (String double_quote (String double_quote (String "b" EmptyString))).

(** Seven calls on one key, a second apart. *)
Definition seven_calls : list (Z * string) :=
  map (fun t => (t, "budi")) [1000; 2000; 3000; 4000; 5000; 6000; 7000].

(** ** Lemmas on the JavaScript layer *)

Lemma get_member_value (data : value) (k : string) :
  nullish data = false -> get_member data k = Return (get_prop data k).
Proof. destruct data; simpl; intros Hn; congruence. Qed.

Lemma get_member_nullish (data : value) (k : string) :
  nullish data = true -> get_member data k = Throw TypeError.
Proof. destruct data; simpl; intros Hn; congruence. Qed.

Lemma truthy_not_nullish (v : value) : truthy v = true -> nullish v = false.
Proof. destruct v; simpl; congruence. Qed.

Lemma plain_object (o : obj) :
  plain (VObj o)
  = negb (has_own o "toString") && forallb (fun kv => plain (snd kv)) o.
Proof. reflexivity. Qed.

Lemma plain_get_own (o : obj) (k : string) :
  plain (VObj o) = true -> plain (get_own o k) = true.
Proof.
  rewrite plain_object. intros [_ Hall]%andb_true_iff.
  induction o as [|[k0 v0] o IH]; [reflexivity|].
  cbn [forallb snd] in Hall. apply andb_true_iff in Hall as [Hv Hall].
  cbn [get_own]. destruct (String.eqb k0 k); [exact Hv|now apply IH].
Qed.

Lemma plain_index_entries (i : Z) (cs : list ascii) (k : string) :
  plain (get_own (index_entries i cs) k) = true.
Proof.
  revert i. induction cs as [|c cs IH]; intros i; [reflexivity|].
  cbn [index_entries get_own]. destruct (String.eqb _ k); [reflexivity|apply IH].
Qed.

Lemma plain_get_prop (v : value) (k : string) :
  plain v = true -> plain (get_prop v k) = true.
Proof.
  destruct v; try reflexivity.
  - intros _. cbn [get_prop]. destruct (String.eqb k "length"); [reflexivity|].
    apply plain_index_entries.
  - apply plain_get_own.
Qed.

Lemma plain_AppConfig_get (config : value) (key : string) :
  plain config = true -> plain (AppConfig_get config key) = true.
Proof.
  unfold AppConfig_get. generalize (split_on "." key) as keys.
  intros keys. revert config. induction keys as [|k keys IH]; intros config Hp;
    [exact Hp|].
  cbn [fold_left]. apply IH. unfold get_optional.
  destruct config; try reflexivity; now apply plain_get_prop.
Qed.

Lemma converted_plain (v : value) : plain v = true -> converted v = Return tt.
Proof.
  unfold converted. destruct v; try reflexivity.
  rewrite plain_object. intros [Hown _]%andb_true_iff.
  cbn [converts]. now rewrite Hown.
Qed.

Lemma converted_outcome (v : value) :
  converted v = Return tt \/ converted v = Throw TypeError.
Proof. unfold converted. destruct (converts v); auto. Qed.

Lemma Qltb_inject_Z (a b : Z) : Qltb (inject_Z a) (inject_Z b) = (a <? b).
Proof. unfold Qltb, inject_Z; simpl. now rewrite !Z.mul_1_r. Qed.

Lemma js_lt_numbers {JS : Runtime} (a b : Z) : js_lt (VNum a) (VNum b) = (a <? b).
Proof.
  unfold js_lt, js_less_than, ToNumber; simpl.
  rewrite Qltb_inject_Z. now destruct (a <? b).
Qed.

Lemma existsb_contains (class : ascii -> bool) (s : string) :
  existsb class (string_chars s) = true <-> contains class s.
Proof. unfold contains. apply existsb_exists. Qed.

Lemma get_own_delete_other (o : obj) (k k' : string) :
  k <> k' -> get_own (delete_own o k) k' = get_own o k'.
Proof.
  intros Hne. induction o as [|[k0 v] o IH]; simpl; [reflexivity|].
  destruct (String.eqb_spec k0 k) as [->|Hk]; simpl.
  - destruct (String.eqb_spec k k'); [contradiction|exact IH].
  - destruct (String.eqb_spec k0 k'); [reflexivity|exact IH].
Qed.

Lemma get_own_delete_same (o : obj) (k : string) :
  get_own (delete_own o k) k = VUndef.
Proof.
  induction o as [|[k0 v] o IH]; simpl; [reflexivity|].
  destruct (String.eqb_spec k0 k) as [->|Hk]; simpl; [exact IH|].
  destruct (String.eqb_spec k0 k); [contradiction|exact IH].
Qed.

Lemma get_own_set_other (o : obj) (k k' : string) (v : value) :
  k <> k' -> get_own (set_own o k v) k' = get_own o k'.
Proof.
  intros Hne. induction o as [|[k0 v0] o IH]; simpl.
  - destruct (String.eqb_spec k k'); [contradiction|reflexivity].
  - destruct (String.eqb_spec k0 k) as [->|Hk]; simpl.
    + destruct (String.eqb_spec k k'); [contradiction|reflexivity].
    + destruct (String.eqb_spec k0 k'); [reflexivity|exact IH].
Qed.

Lemma get_own_set_same (o : obj) (k : string) (v : value) :
  get_own (set_own o k v) k = v.
Proof.
  induction o as [|[k0 v0] o IH]; simpl.
  - now rewrite String.eqb_refl.
  - destruct (String.eqb_spec k0 k) as [->|Hk]; simpl.
    + now rewrite String.eqb_refl.
    + destruct (String.eqb_spec k0 k); [contradiction|exact IH].
Qed.

(** ** The required-field loop *)

Section RequiredLoop.
Context {JS : Runtime}.

Lemma required_loop_nullish (required : list string) (data : value)
    (rest : outcome vresult) :
  required <> [] -> nullish data = true ->
  required_loop required data rest = Throw TypeError.
Proof.
  destruct required as [|f fs]; [congruence|].
  intros _ Hn. simpl. now rewrite get_member_nullish.
Qed.

Lemma required_loop_first_missing (required : list string) (data : value)
    (rest : outcome vresult) (field : string) :
  nullish data = false ->
  List.find (missing data) required = Some field ->
  required_loop required data rest = Return (fail (missing_message field)).
Proof.
  intros Hn. induction required as [|f fs IH]; simpl; [discriminate|].
  rewrite get_member_value by assumption. simpl.
  unfold missing at 1. destruct (truthy (get_prop data f)); simpl.
  - exact IH.
  - intros [= ->]. reflexivity.
Qed.

Lemma required_loop_all_present (required : list string) (data : value)
    (rest : outcome vresult) :
  nullish data = false ->
  List.find (missing data) required = None ->
  required_loop required data rest = rest.
Proof.
  intros Hn. induction required as [|f fs IH]; simpl; [reflexivity|].
  rewrite get_member_value by assumption. simpl.
  unfold missing at 1. destruct (truthy (get_prop data f)); simpl.
  - exact IH.
  - discriminate.
Qed.

Lemma find_missing_none (required : list string) (data : value) (field : string) :
  List.find (missing data) required = None -> In field required ->
  truthy (get_prop data field) = true.
Proof.
  intros Hnone Hin.
  pose proof (find_none _ _ Hnone field Hin) as Hm.
  unfold missing in Hm. now destruct (truthy (get_prop data field)).
Qed.

End RequiredLoop.

(** ** The validators *)

Section Validators.
Context {JS : Runtime}.

Lemma loop_then_checks_intro (required : list string)
    (validator : value -> outcome vresult) (rest : value -> outcome vresult) :
  required <> [] ->
  (forall data, validator data = required_loop required data (rest data)) ->
  (forall data, nullish data = false ->
     List.find (missing data) required = None ->
     (exists r, rest data = Return r) \/ rest data = Throw TypeError) ->
  loop_then_checks required validator.
Proof.
  intros Hne Hshape Hrest. repeat split.
  - intros data Hn. rewrite Hshape. now apply required_loop_nullish.
  - intros data field Hn Hfind. rewrite Hshape.
    now apply required_loop_first_missing.
  - intros data Hn Hfind. rewrite Hshape.
    rewrite required_loop_all_present by assumption. now apply Hrest.
Qed.

Lemma loop_then_checks_valid (required : list string)
    (validator : value -> outcome vresult) (data : value) (r : vresult) :
  loop_then_checks required validator ->
  validator data = Return r -> valid r = true ->
  nullish data = false /\ List.find (missing data) required = None.
Proof.
  intros (Hnull & Hmiss & _) Hr Hv.
  destruct (nullish data) eqn:Hn.
  - rewrite Hnull in Hr by assumption. discriminate.
  - split; [reflexivity|].
    destruct (List.find (missing data) required) as [field|] eqn:Hfind;
      [|reflexivity].
    rewrite (Hmiss _ _ Hn Hfind) in Hr. injection Hr as <-. discriminate.
Qed.

Ltac split_checks :=
  repeat (rewrite get_member_value by assumption; cbn [mbind outcome_bind]);
  repeat match goal with
         | |- context [converted ?v] =>
             destruct (converted_outcome v) as [-> | ->]; cbn [mbind outcome_bind]
         | |- context [if ?c then _ else _] => destruct c
         end; eauto.

Lemma validatePassword_outcome (config password : value) :
  nullish password = false ->
  (exists r, validatePassword config password = Return r)
  \/ validatePassword config password = Throw TypeError.
Proof. intros Hn. unfold validatePassword. split_checks. Qed.

Lemma validatePassword_returns (config password : value) :
  nullish password = false -> plain config = true -> plain password = true ->
  exists r, validatePassword config password = Return r.
Proof.
  intros Hn Hc Hp. unfold validatePassword.
  rewrite get_member_value by assumption. cbn [mbind outcome_bind].
  rewrite !converted_plain
    by (assumption || now apply plain_get_prop || now apply plain_AppConfig_get).
  cbn [mbind outcome_bind].
  repeat match goal with
         | |- context [if ?c then _ else _] => destruct c
         end; eauto.
Qed.

Ltac settle_checks :=
  intros data Hn Hfind; cbv beta; split_checks.

Lemma validateGuruData_loop (config : value) (users : obj) :
  loop_then_checks ["title"; "nip"; "mapel"; "role"; "username"; "password"]
    (validateGuruData config users).
Proof.
  eapply loop_then_checks_intro; [discriminate | intros; reflexivity |].
  intros data Hn Hfind. cbv beta.
  rewrite !get_member_value by assumption. cbn [mbind outcome_bind].
  destruct (converted_outcome (get_prop data "nip")) as [-> | ->];
    cbn [mbind outcome_bind]; [|now right].
  destruct (test_digits 18 (get_prop data "nip")); simpl; [|eauto].
  assert (Hp : truthy (get_prop data "password") = true).
  { eapply find_missing_none; [exact Hfind|]. simpl. tauto. }
  destruct (validatePassword_outcome config (get_prop data "password")
              (truthy_not_nullish _ Hp)) as [[r ->] | ->];
    cbn [mbind outcome_bind]; [|now right].
  destruct (valid r); simpl; [|eauto].
  destruct (converted_outcome (get_prop data "username")) as [-> | ->];
    cbn [mbind outcome_bind]; [|now right].
  match goal with |- context [if ?c then _ else _] => destruct c end; eauto.
Qed.

Lemma validateSiswaData_loop :
  loop_then_checks ["title"; "nisn"; "jenis_kelamin"; "class"] validateSiswaData.
Proof.
  eapply loop_then_checks_intro; [discriminate | intros; reflexivity |].
  settle_checks.
Qed.

Lemma validateKelasData_loop :
  loop_then_checks ["title"; "tingkat"; "jurusan"] validateKelasData.
Proof.
  eapply loop_then_checks_intro; [discriminate | intros; reflexivity |].
  settle_checks.
Qed.

Lemma validateIntraData_loop :
  loop_then_checks ["judul_modul"; "mata_pelajaran"; "kelas"; "fase"; "penulis"]
    validateIntraData.
Proof.
  eapply loop_then_checks_intro; [discriminate | intros; reflexivity |].
  settle_checks.
Qed.

Lemma validateJurnalData_loop :
  loop_then_checks
    ["nama_guru"; "kelas"; "hari"; "tanggal"; "mata_pelajaran"; "materi_pokok"]
    validateJurnalData.
Proof.
  eapply loop_then_checks_intro; [discriminate | intros; reflexivity |].
  settle_checks.
Qed.

Lemma validateAbsensiData_loop :
  loop_then_checks ["student_name"; "class"; "status"; "date"] validateAbsensiData.
Proof.
  eapply loop_then_checks_intro; [discriminate | intros; reflexivity |].
  settle_checks.
Qed.

Lemma validateNilaiData_loop :
  loop_then_checks
    ["student_name"; "class"; "mata_pelajaran"; "jenis_penilaian"; "nilai"; "date"]
    validateNilaiData.
Proof.
  eapply loop_then_checks_intro; [discriminate | intros; reflexivity |].
  settle_checks.
Qed.

Lemma validatePerilakuData_loop :
  loop_then_checks ["student_name"; "class"; "jenis_perilaku"; "catatan"; "date"]
    validatePerilakuData.
Proof.
  eapply loop_then_checks_intro; [discriminate | intros; reflexivity |].
  settle_checks.
Qed.

Lemma validateBKAbsensiData_loop :
  loop_then_checks ["student_name"; "class"; "status"; "date"; "waktu"]
    validateBKAbsensiData.
Proof.
  eapply loop_then_checks_intro; [discriminate | intros; reflexivity |].
  settle_checks.
Qed.

Lemma validateBKPelanggaranData_loop :
  loop_then_checks
    ["student_name"; "class"; "kategori_pelanggaran"; "jenis_pelanggaran";
     "lokasi"; "kronologi"; "tindak_lanjut"]
    validateBKPelanggaranData.
Proof.
  eapply loop_then_checks_intro; [discriminate | intros; reflexivity |].
  settle_checks.
Qed.

Lemma required_loop_returns (required : list string) (data : value)
    (rest : outcome vresult) :
  nullish data = false ->
  (List.find (missing data) required = None -> exists r, rest = Return r) ->
  exists r, required_loop required data rest = Return r.
Proof.
  intros Hn Hrest.
  destruct (List.find (missing data) required) as [field|] eqn:Hfind.
  - rewrite (required_loop_first_missing _ _ _ _ Hn Hfind). eauto.
  - rewrite required_loop_all_present by assumption. now apply Hrest.
Qed.

Ltac plain_checks :=
  repeat (rewrite get_member_value by assumption; cbn [mbind outcome_bind]);
  repeat first
    [ rewrite converted_plain by (now apply plain_get_prop);
      cbn [mbind outcome_bind]
    | match goal with
      | |- context [if ?c then _ else _] => destruct c
      end ];
  eauto.

(** On plain data, under a plain configuration, every validator of the
    table returns. *)
Lemma validators_return (config : value) (users : obj) (type : string)
    (validator : value -> outcome vresult) (data : value) :
  table_get (validators config users) type = Some validator ->
  plain config = true -> nullish data = false -> plain data = true ->
  exists r, validator data = Return r.
Proof.
  intros Htable Hc Hn Hp. unfold validators in Htable. cbn [table_get] in Htable.
  repeat match type of Htable with
         | context [String.eqb ?a type] => destruct (String.eqb a type)
         end;
    try discriminate; injection Htable as <-;
    apply required_loop_returns; try assumption; intros Hfind;
    try (plain_checks; fail).
  rewrite !get_member_value by assumption. cbn [mbind outcome_bind].
  rewrite !converted_plain by (now apply plain_get_prop).
  cbn [mbind outcome_bind].
  destruct (test_digits 18 (get_prop data "nip")); simpl; [|eauto].
  assert (Hpw : truthy (get_prop data "password") = true).
  { eapply find_missing_none; [exact Hfind|]. simpl. tauto. }
  destruct (validatePassword_returns config (get_prop data "password")
              (truthy_not_nullish _ Hpw) Hc (plain_get_prop _ _ Hp)) as [r ->].
  cbn [mbind outcome_bind]. destruct (valid r); simpl; [|eauto].
  match goal with |- context [if ?c then _ else _] => destruct c end; eauto.
Qed.

(** The table of validators and the table of required fields have the same
    keys, and each validator opens with the loop over its fields. *)
Lemma validators_required (config : value) (users : obj) (type : string) :
  match table_get (validators config users) type, table_get required_fields type with
  | Some validator, Some required =>
      NoDup required /\ loop_then_checks required validator
  | None, None => True
  | _, _ => False
  end.
Proof.
  unfold validators, required_fields. cbn [table_get].
  repeat match goal with
         | |- context [String.eqb ?a type] =>
             destruct (String.eqb a type) eqn:?
         end;
    try exact I;
    (split; [apply (bool_decide_unpack _); vm_compute; reflexivity|]).
  - apply validateGuruData_loop.
  - apply validateSiswaData_loop.
  - apply validateKelasData_loop.
  - apply validateIntraData_loop.
  - apply validateJurnalData_loop.
  - apply validateAbsensiData_loop.
  - apply validateNilaiData_loop.
  - apply validatePerilakuData_loop.
  - apply validateBKAbsensiData_loop.
  - apply validateBKPelanggaranData_loop.
Qed.

End Validators.

(** ** Validation: the claims *)

Section ValidationClaims.
Context {JS : Runtime}.

Lemma find_missing_after_delete (required : list string) (o : obj) (field : string) :
  In field required ->
  List.find (missing (VObj o)) required = None ->
  List.find (missing (VObj (delete_own o field))) required = Some field.
Proof.
  induction required as [|f fs IH]; simpl; [tauto|].
  intros Hin Hfind. unfold missing at 1 in Hfind. unfold missing at 1.
  simpl in *.
  destruct (String.eqb_spec f field) as [->|Hne].
  - now rewrite get_own_delete_same.
  - rewrite get_own_delete_other by congruence.
    destruct (truthy (get_own o f)); simpl in *; [|discriminate].
    apply IH; [|assumption]. destruct Hin; [contradiction|assumption].
Qed.

Lemma find_missing_after_set (required : list string) (o : obj) (field : string)
    (v : value) :
  In field required -> truthy v = false ->
  List.find (missing (VObj o)) required = None ->
  List.find (missing (VObj (set_own o field v))) required = Some field.
Proof.
  induction required as [|f fs IH]; simpl; [tauto|].
  intros Hin Hv Hfind. unfold missing at 1 in Hfind. unfold missing at 1.
  simpl in *.
  destruct (String.eqb_spec f field) as [->|Hne].
  - now rewrite get_own_set_same, Hv.
  - rewrite get_own_set_other by congruence.
    destruct (truthy (get_own o f)); simpl in *; [|discriminate].
    apply IH; [|assumption|assumption]. destruct Hin; [contradiction|assumption].
Qed.

(** Every record type dispatches to its validator. *)
Lemma validateData_dispatch (config : value) (users : obj) (type : string)
    (required : list string) :
  table_get required_fields type = Some required ->
  exists validator,
    (forall data, validateData config users type data = validator data)
    /\ loop_then_checks required validator.
Proof.
  intros Hreq. pose proof (validators_required config users type) as Htable.
  unfold validateData. rewrite Hreq in Htable.
  destruct (table_get (validators config users) type) as [validator|];
    [|contradiction].
  exists validator. split; [reflexivity|apply Htable].
Qed.

(** C7. For each of the ten record types the loop over the required fields
    runs before the checks of the type: a candidate with a required field
    missing is rejected with the message of the loop that names the first
    such field, and deleting one required field from a field set that
    validates makes the validation fail with the message naming that field. *)
Theorem missing_field_rejected_first (config : value) (users : obj)
    (type : string) (required : list string) :
  table_get required_fields type = Some required ->
  (forall data field,
     nullish data = false ->
     List.find (missing data) required = Some field ->
     validateData config users type data = Return (fail (missing_message field)))
  /\ (forall o field r,
        In field required ->
        validateData config users type (VObj o) = Return r -> valid r = true ->
        validateData config users type (VObj (delete_own o field))
        = Return (fail (missing_message field))).
Proof.
  intros Hreq.
  destruct (validateData_dispatch config users type required Hreq)
    as (validator & Hcall & Hloop).
  split.
  - intros data field Hn Hfind. rewrite Hcall.
    destruct Hloop as (_ & Hmiss & _). now apply Hmiss.
  - intros o field r Hin Hr Hvalid. rewrite Hcall in *.
    destruct (loop_then_checks_valid _ _ _ _ Hloop Hr Hvalid) as [_ Hall].
    destruct Hloop as (_ & Hmiss & _). apply Hmiss; [reflexivity|].
    now apply find_missing_after_delete.
Qed.

(** C10. A required field whose value is falsy counts as missing, for each of
    the ten record types and for the fallback of the other types: replacing a
    required field of a field set that validates by a falsy value (0, NaN,
    the empty string, false, null, undefined) is rejected by the loop with
    the message naming the field; in particular a grade whose score is the
    number 0 is rejected with the message for the field nilai. *)
Theorem falsy_required_field_is_missing (config : value) (users : obj) :
  (forall type required o field v r,
     table_get required_fields type = Some required ->
     In field required -> truthy v = false ->
     validateData config users type (VObj o) = Return r -> valid r = true ->
     validateData config users type (VObj (set_own o field v))
     = Return (fail (missing_message field)))
  /\ validateData config users "nilai" (VObj (set_own grade_fields "nilai" (VNum 0)))
     = Return (fail "nilai wajib diisi")
  /\ (forall type o field v,
        table_get (validators config users) type = None -> inherited type = false ->
        In field ["title"; "content"] -> truthy v = false ->
        validateData config users type (VObj (set_own o field v))
        = Return (fail "Title dan content wajib diisi")).
Proof.
  split; [|split].
  - intros type required o field v r Hreq Hin Hv Hr Hvalid.
    destruct (validateData_dispatch config users type required Hreq)
      as (validator & Hcall & Hloop).
    rewrite Hcall in *.
    destruct (loop_then_checks_valid _ _ _ _ Hloop Hr Hvalid) as [_ Hall].
    destruct Hloop as (_ & Hmiss & _). apply Hmiss; [reflexivity|].
    now apply find_missing_after_set.
  - destruct (validateData_dispatch config users "nilai" _ eq_refl)
      as (validator & Hcall & Hloop).
    rewrite Hcall. destruct Hloop as (_ & Hmiss & _).
    apply (Hmiss _ "nilai"); reflexivity.
  - intros type o field v Hnone Hinh Hin Hv.
    unfold validateData. rewrite Hnone, Hinh. simpl.
    destruct Hin as [<-|[<-|[]]].
    + now rewrite get_own_set_same, Hv.
    + destruct (truthy (get_own (set_own o "content" v) "title")); simpl;
        [|reflexivity].
      now rewrite get_own_set_same, Hv.
Qed.

(** A type name that the validator table only inherits from
    Object.prototype reaches a member of the prototype, not a validator. *)
Lemma validateData_inherited_type (config : value) (users : obj) (type : string)
    (data : value) :
  inherited type = true -> validateData config users type data = Builtin type.
Proof.
  intros Hinh. unfold validateData.
  assert (Hnone : table_get (validators config users) type = None).
  { unfold validators. cbn [table_get].
    repeat match goal with
           | |- context [String.eqb ?a type] =>
               destruct (String.eqb_spec a type) as [<-|_]; [discriminate|]
           end.
    reflexivity. }
  now rewrite Hnone, Hinh.
Qed.

(** C6, as amended. For every type name that the validator table does not
    inherit from Object.prototype: on null and on undefined [validateData]
    throws a TypeError; on every other candidate it returns a structured
    result or throws a TypeError, and it returns a structured result when
    the candidate and the configuration are plain data (a candidate that is
    not an object fails on its first required field). *)
Theorem validateData_structured_unless_null (config : value) (users : obj)
    (type : string) (data : value) :
  inherited type = false ->
  if nullish data then validateData config users type data = Throw TypeError
  else (plain config = true -> plain data = true ->
        exists r, validateData config users type data = Return r)
       /\ ((exists r, validateData config users type data = Return r)
           \/ validateData config users type data = Throw TypeError).
Proof.
  intros Hinh. pose proof (validators_required config users type) as Htable.
  pose proof (validators_return config users type) as Hplain.
  unfold validateData.
  destruct (table_get (validators config users) type) as [validator|].
  - destruct (table_get required_fields type) as [required|]; [|contradiction].
    destruct Htable as (_ & Hnull & Hmiss & Hrest).
    destruct (nullish data) eqn:Hn; [now apply Hnull|].
    split; [intros Hc Hp; now apply (Hplain validator data)|].
    destruct (List.find (missing data) required) as [field|] eqn:Hfind.
    + rewrite (Hmiss _ _ Hn Hfind). eauto.
    + now apply Hrest.
  - rewrite Hinh. destruct (nullish data) eqn:Hn.
    + rewrite (get_member_nullish data "title") by assumption. reflexivity.
    + rewrite !get_member_value by assumption. simpl.
      destruct (truthy (get_prop data "title")); simpl; [|eauto].
      destruct (truthy (get_prop data "content")); simpl; eauto.
Qed.

(** C8. On a string, with a configured minimum length [n], the password
    checks run in the order length, lowercase letter, uppercase letter,
    digit; the first check that fails gives the message, and a password
    that passes the four is reported valid. *)
Theorem validatePassword_checks_in_order (config : value) (n : Z) (s : string) :
  AppConfig_get config "security.password_min_length" = VNum n ->
  let len := Z.of_nat (String.length s) in
  let result := validatePassword config (VStr s) in
  (len < n ->
   result = Return (fail ("Password minimal " ++ ZToString n ++ " karakter")))
  /\ (n <= len -> ~ contains is_lower s ->
      result = Return (fail "Password harus mengandung huruf kecil"))
  /\ (n <= len -> contains is_lower s -> ~ contains is_upper s ->
      result = Return (fail "Password harus mengandung huruf besar"))
  /\ (n <= len -> contains is_lower s -> contains is_upper s ->
      ~ contains is_digit s ->
      result = Return (fail "Password harus mengandung angka"))
  /\ (n <= len -> contains is_lower s -> contains is_upper s ->
      contains is_digit s ->
      result = Return {| valid := true; message := Some "Password kuat" |}).
Proof.
  intros Hmin len result. subst result.
  unfold validatePassword. rewrite Hmin. cbn [get_member get_prop].
  replace (String.eqb "length" "length") with true by reflexivity.
  cbn [mbind outcome_bind converted converts]. rewrite js_lt_numbers. fold len.
  unfold test_class. cbn [ToString].
  repeat split.
  - intros Hlt. apply Z.ltb_lt in Hlt. now rewrite Hlt.
  - intros Hge Hlow. apply Z.ltb_ge in Hge. rewrite Hge.
    destruct (existsb is_lower (string_chars s)) eqn:El; [|reflexivity].
    apply existsb_contains in El. contradiction.
  - intros Hge Hlow Hup. apply Z.ltb_ge in Hge. rewrite Hge.
    apply existsb_contains in Hlow. rewrite Hlow. simpl.
    destruct (existsb is_upper (string_chars s)) eqn:Eu; [|reflexivity].
    apply existsb_contains in Eu. contradiction.
  - intros Hge Hlow Hup Hdig. apply Z.ltb_ge in Hge. rewrite Hge.
    apply existsb_contains in Hlow, Hup. rewrite Hlow, Hup. simpl.
    destruct (existsb is_digit (string_chars s)) eqn:Ed; [|reflexivity].
    apply existsb_contains in Ed. contradiction.
  - intros Hge Hlow Hup Hdig. apply Z.ltb_ge in Hge. rewrite Hge.
    apply existsb_contains in Hlow, Hup, Hdig. now rewrite Hlow, Hup, Hdig.
Qed.

End ValidationClaims.

(** ** Array.prototype.sort with a comparator of dates *)

Section SortFacts.
Context {A : Type} (date : A -> option Z).

Local Abbreviation by_date := (by_date date).
Local Abbreviation has_date := (has_date date).

Lemma swaps_by_date (x y : A) (tx ty : Z) :
  date x = Some tx -> date y = Some ty -> swaps by_date x y = (tx <? ty).
Proof.
  intros Hx Hy. unfold swaps, by_date. rewrite Hx, Hy. simpl.
  destruct (Z.ltb_spec 0 (ty - tx)), (Z.ltb_spec tx ty); lia || reflexivity.
Qed.

Lemma sort_insert_permutation (comparator : A -> A -> option Z) (x : A) (l : list A) :
  Permutation (x :: l) (sort_insert comparator x l).
Proof.
  induction l as [|y l IH]; simpl; [reflexivity|].
  destruct (swaps comparator x y); [|reflexivity].
  rewrite perm_swap. now apply perm_skip.
Qed.

Lemma Array_sort_permutation (comparator : A -> A -> option Z) (l : list A) :
  Permutation l (Array_sort comparator l).
Proof.
  induction l as [|x l IH]; simpl; [reflexivity|].
  rewrite <- sort_insert_permutation. now apply perm_skip.
Qed.

Lemma sort_insert_descending (x : A) (l : list A) :
  has_date x -> Forall has_date l ->
  descending_by date l -> descending_by date (sort_insert by_date x l).
Proof.
  unfold descending_by, has_date. intros Hx Hl Hsorted.
  destruct (date x) as [tx|] eqn:Ex; [clear Hx|congruence].
  induction Hsorted as [|y l Hs IH Hy]; simpl.
  - repeat constructor.
  - inversion Hl as [|? ? Hdy Hl']; subst.
    destruct (date y) as [ty|] eqn:Ey; [|congruence].
    rewrite (swaps_by_date x y tx ty Ex Ey).
    destruct (Z.ltb_spec tx ty) as [Hlt|Hge].
    + constructor; [now apply IH|].
      eapply Permutation_Forall; [apply sort_insert_permutation|].
      constructor; [|assumption].
      unfold newer_or_equal. rewrite Ex, Ey. lia.
    + constructor; [now constructor|].
      constructor; [unfold newer_or_equal; rewrite Ex, Ey; lia|].
      rewrite Forall_forall in Hy, Hl' |- *. intros z Hz.
      specialize (Hy z Hz). specialize (Hl' z Hz).
      unfold newer_or_equal in *. rewrite Ex. rewrite Ey in Hy.
      destruct (date z); [lia|congruence].
Qed.

Lemma sort_insert_stable (t : Z) (x : A) (l : list A) :
  has_date x -> Forall has_date l ->
  with_date date t (sort_insert by_date x l) = with_date date t (x :: l).
Proof.
  unfold has_date. intros Hx Hl.
  destruct (date x) as [tx|] eqn:Ex; [clear Hx|congruence].
  induction l as [|y l IH]; [reflexivity|].
  inversion Hl as [|? ? Hdy Hl']; subst.
  destruct (date y) as [ty|] eqn:Ey; [|congruence].
  simpl. rewrite (swaps_by_date x y tx ty Ex Ey).
  destruct (Z.ltb_spec tx ty) as [Hlt|Hge]; [|reflexivity].
  unfold with_date in *. simpl in *. rewrite IH by assumption.
  rewrite Ex, Ey.
  destruct (Z.eqb_spec tx t), (Z.eqb_spec ty t); try reflexivity. lia.
Qed.

Lemma Array_sort_has_date (l : list A) :
  Forall has_date l -> Forall has_date (Array_sort by_date l).
Proof.
  intros Hl. eapply Permutation_Forall; [apply Array_sort_permutation|exact Hl].
Qed.

Lemma Array_sort_descending (l : list A) :
  Forall has_date l -> descending_by date (Array_sort by_date l).
Proof.
  induction l as [|x l IH]; intros Hl; simpl; [constructor|].
  inversion Hl; subst.
  apply sort_insert_descending; auto using Array_sort_has_date.
Qed.

Lemma Array_sort_stable (t : Z) (l : list A) :
  Forall has_date l ->
  with_date date t (Array_sort by_date l) = with_date date t l.
Proof.
  induction l as [|x l IH]; intros Hl; simpl; [reflexivity|].
  inversion Hl; subst.
  rewrite sort_insert_stable by auto using Array_sort_has_date.
  unfold with_date in *. simpl. now rewrite IH.
Qed.

End SortFacts.

Section SortDetermined.
Context {A : Type} (date : A -> option Z).

Lemma with_date_In (t : Z) (x : A) (l : list A) :
  In x (with_date date t l) <-> In x l /\ date x = Some t.
Proof.
  unfold with_date. rewrite filter_In. split; intros [Hin Hd]; split; auto.
  - destruct (date x) as [tx|]; [|discriminate].
    apply Z.eqb_eq in Hd. now subst.
  - rewrite Hd. apply Z.eqb_refl.
Qed.

Lemma with_date_cons (t : Z) (x : A) (l : list A) (tx : Z) :
  date x = Some tx ->
  with_date date t (x :: l)
  = if tx =? t then x :: with_date date t l else with_date date t l.
Proof. intros Hx. unfold with_date. simpl. now rewrite Hx. Qed.

Lemma descending_head (x y : A) (l : list A) (tx ty : Z) :
  descending_by date (x :: l) -> In y (x :: l) ->
  date x = Some tx -> date y = Some ty -> ty <= tx.
Proof.
  intros Hs [<-|Hin] Hx Hy.
  - rewrite Hx in Hy. injection Hy as <-. lia.
  - inversion Hs as [|? ? _ Hall]; subst.
    rewrite List.Forall_forall in Hall. specialize (Hall y Hin).
    unfold newer_or_equal in Hall. now rewrite Hx, Hy in Hall.
Qed.

(** A descending list with the same records of each date, in the same
    order, is the same list: what the language asks of a sort (sorted by the
    comparator, stable) leaves one result. *)
Lemma descending_stable_unique (l1 l2 : list A) :
  Forall (has_date date) l1 -> Forall (has_date date) l2 ->
  descending_by date l1 -> descending_by date l2 ->
  (forall t, with_date date t l1 = with_date date t l2) ->
  l1 = l2.
Proof.
  revert l2. induction l1 as [|a l1 IH]; intros l2 H1 H2 S1 S2 Hsame.
  - destruct l2 as [|b l2]; [reflexivity|].
    inversion H2 as [|? ? Hb _]; subst.
    destruct (date b) as [tb|] eqn:Eb; [|now elim Hb].
    specialize (Hsame tb). rewrite (with_date_cons tb b l2 tb Eb) in Hsame.
    rewrite Z.eqb_refl in Hsame. discriminate.
  - inversion H1 as [|? ? Ha H1']; subst.
    destruct (date a) as [ta|] eqn:Ea; [|now elim Ha].
    destruct l2 as [|b l2].
    { specialize (Hsame ta). rewrite (with_date_cons ta a l1 ta Ea) in Hsame.
      rewrite Z.eqb_refl in Hsame. discriminate. }
    inversion H2 as [|? ? Hb H2']; subst.
    destruct (date b) as [tb|] eqn:Eb; [|now elim Hb].
    assert (Hab : ta = tb).
    { assert (In a (b :: l2)) as Hin2.
      { apply (with_date_In ta). rewrite <- Hsame. apply with_date_In.
        split; [now left|assumption]. }
      assert (In b (a :: l1)) as Hin1.
      { apply (with_date_In tb). rewrite Hsame. apply with_date_In.
        split; [now left|assumption]. }
      pose proof (descending_head b a l2 tb ta S2 Hin2 Eb Ea).
      pose proof (descending_head a b l1 ta tb S1 Hin1 Ea Eb). lia. }
    subst tb.
    assert (a = b) as <-.
    { specialize (Hsame ta).
      rewrite (with_date_cons ta a l1 ta Ea), (with_date_cons ta b l2 ta Eb) in Hsame.
      rewrite Z.eqb_refl in Hsame. now injection Hsame. }
    f_equal. apply IH; try assumption.
    + now inversion S1.
    + now inversion S2.
    + intros t. specialize (Hsame t).
      rewrite !(with_date_cons t a _ ta Ea) in Hsame.
      destruct (ta =? t); [now injection Hsame|assumption].
Qed.

(** So every sort that meets the language's contract agrees with
    [Array_sort] on records that all have a date. *)
Lemma Array_sort_determined (l out : list A) :
  Forall (has_date date) l -> Forall (has_date date) out ->
  descending_by date out ->
  (forall t, with_date date t out = with_date date t l) ->
  out = Array_sort (by_date date) l.
Proof.
  intros Hl Hout Hsorted Hstable.
  apply descending_stable_unique; try assumption.
  - now apply Array_sort_has_date.
  - now apply Array_sort_descending.
  - intros t. rewrite Hstable. symmetry. now apply Array_sort_stable.
Qed.

End SortDetermined.

(** ** The query *)

Section QueryFacts.
Context {JS : Runtime}.


Lemma getFilteredData_miss (E : env) (st : state) (clk : clock) (type : string)
    (filters : obj) :
  getCachedData E st clk (cacheKey type filters) = None ->
  snd (getFilteredData E st clk type filters) = compute_filtered E st type filters.
Proof. intros Hmiss. unfold getFilteredData. now rewrite Hmiss. Qed.

Lemma compute_filtered_sorts (E : env) (st : state) (type : string) (filters : obj) :
  compute_filtered E st type filters
  = Array_sort (by_date sort_date) (matching_records E st type filters).
Proof. reflexivity. Qed.

Lemma additional_filters_keeps (P : obj -> Prop) (filters : obj) (l : list obj) :
  Forall P l -> Forall P (additional_filters filters l).
Proof.
  unfold additional_filters. generalize (map fst filters) as keys.
  intros keys. revert l. induction keys as [|k keys IH]; intros l Hl; simpl;
    [assumption|].
  apply IH. destruct (_ && _); [|assumption].
  rewrite List.Forall_forall in Hl |- *. intros d Hd.
  apply filter_In in Hd. now apply Hl.
Qed.

Lemma role_filter_student (u : identity) (l : list obj) :
  strict_eq (role u) (VStr "siswa") = true ->
  Forall (fun d => get_own d "approved" = VBool true) (role_filter (Some u) l).
Proof.
  intros Hrole. unfold role_filter. rewrite Hrole.
  apply List.Forall_forall. intros d Hd. apply filter_In in Hd as [_ Hd].
  destruct (get_own d "approved") as [| |[|]| | | |]; simpl in Hd;
    congruence.
Qed.

(** What the role filter does give a student: a list that is computed, not
    taken from the cache, holds approved records only. *)
Lemma student_recomputed_list_is_approved (E : env) (st : state) (clk : clock)
    (type : string) (filters : obj) (u : identity) :
  currentUser E = Some u -> strict_eq (role u) (VStr "siswa") = true ->
  getCachedData E st clk (cacheKey type filters) = None ->
  Forall (fun d => get_own d "approved" = VBool true)
    (snd (getFilteredData E st clk type filters)).
Proof.
  intros Hu Hrole Hmiss. rewrite getFilteredData_miss by assumption.
  rewrite compute_filtered_sorts.
  eapply Permutation_Forall; [apply Array_sort_permutation|].
  unfold matching_records. apply additional_filters_keeps.
  rewrite Hu. now apply role_filter_student.
Qed.

(** C2, as amended. On a cache miss the query returns the matching records
    in descending order of the date [createdAt], or [date] when [createdAt]
    is absent; [updatedAt] plays no part.  Records of equal date keep the
    order of the collection.  The statement is for matching records whose
    dates all read as valid dates. *)
Theorem query_sorted_by_creation_date (E : env) (st : state) (clk : clock)
    (type : string) (filters : obj) :
  getCachedData E st clk (cacheKey type filters) = None ->
  Forall (has_date sort_date) (matching_records E st type filters) ->
  let result := snd (getFilteredData E st clk type filters) in
  Permutation (matching_records E st type filters) result
  /\ descending_by sort_date result
  /\ (forall t, with_date sort_date t result
                = with_date sort_date t (matching_records E st type filters)).
Proof.
  intros Hmiss Hdates result. subst result.
  rewrite getFilteredData_miss by assumption. rewrite compute_filtered_sorts.
  split; [apply Array_sort_permutation|].
  split; [now apply Array_sort_descending|].
  intros t. now apply Array_sort_stable.
Qed.

End QueryFacts.

(** ** The cache between two mutations *)

Section CacheCoherence.
Context {JS : Runtime}.

Lemma fresh_empty (st : state) : cache st = ∅ -> fresh st.
Proof. intros Hc key entry. rewrite Hc, lookup_empty. discriminate. Qed.

Lemma getCachedData_entry (E : env) (st : state) (clk : clock) (key : string)
    (l : list obj) :
  getCachedData E st clk key = Some l ->
  exists entry, cache st !! key = Some entry /\ entry_data entry = l.
Proof.
  unfold getCachedData. destruct (negb _); [discriminate|].
  destruct (cache st !! key) as [entry|]; [|discriminate].
  destruct (js_lt _ _); [|discriminate]. intros [= <-]. eauto.
Qed.

Lemma getFilteredData_collection (E : env) (st : state) (clk : clock)
    (type : string) (filters : obj) :
  allData (fst (getFilteredData E st clk type filters)) = allData st.
Proof.
  unfold getFilteredData. destruct (getCachedData _ _ _ _); [reflexivity|].
  unfold setCachedData. simpl. now destruct (negb _).
Qed.

Lemma getFilteredData_fresh (E : env) (st : state) (clk : clock) (type : string)
    (filters : obj) :
  fresh st ->
  fresh (fst (getFilteredData E st clk type filters))
  /\ exists E0 type0 filters0,
       cacheKey type0 filters0 = cacheKey type filters
       /\ snd (getFilteredData E st clk type filters)
          = compute_filtered E0 st type0 filters0.
Proof.
  intros Hfresh. unfold getFilteredData.
  destruct (getCachedData E st clk (cacheKey type filters)) as [cached|] eqn:Hget.
  - split; [exact Hfresh|]. simpl.
    destruct (getCachedData_entry _ _ _ _ _ Hget) as (entry & Hentry & <-).
    destruct (Hfresh _ _ Hentry) as (E0 & type0 & filters0 & Hkey & Hdata).
    exists E0, type0, filters0. split; [now symmetry|exact Hdata].
  - split; [|exists E, type, filters; split; reflexivity].
    simpl. unfold setCachedData. destruct (negb _); [exact Hfresh|].
    intros key entry. unfold set_cache. simpl.
    destruct (decide (cacheKey type filters = key)) as [<-|Hne].
    + rewrite lookup_insert_eq. intros [= <-]. simpl.
      exists E, type, filters. split; reflexivity.
    + rewrite lookup_insert_ne by assumption. intros Hentry.
      destruct (Hfresh _ _ Hentry) as (E0 & type0 & filters0 & Hkey & Hdata).
      exists E0, type0, filters0. split; assumption.
Qed.

(** After a mutation any number of queries may run (the page is rendered
    again after a resync): the cache stays fresh, so no later query returns a
    list that was computed from an earlier collection. *)
Lemma queries_keep_cache_fresh (history : list (env * clock * request))
    (st : state) :
  Forall is_query history -> fresh st ->
  fresh (run history st) /\ allData (run history st) = allData st.
Proof.
  intros Hq. revert st. induction Hq as [|[[E clk] r] history Hr _ IH];
    intros st Hfresh; [split; [assumption|reflexivity]|].
  destruct r as [type filters| | | |]; try contradiction.
  change (run ((E, clk, Query type filters) :: history) st)
    with (run history (fst (step E clk st (Query type filters)))).
  assert (Hstep : fst (step E clk st (Query type filters))
                  = fst (getFilteredData E st clk type filters)).
  { simpl. now destruct (getFilteredData E st clk type filters). }
  rewrite Hstep.
  destruct (IH (fst (getFilteredData E st clk type filters))) as [Hf Hd].
  - apply (getFilteredData_fresh E st clk type filters Hfresh).
  - split; [assumption|]. rewrite Hd. apply getFilteredData_collection.
Qed.

Lemma getFilteredData_users (E : env) (st : state) (clk : clock)
    (type : string) (filters : obj) :
  users (fst (getFilteredData E st clk type filters)) = users st.
Proof.
  unfold getFilteredData. destruct (getCachedData _ _ _ _); [reflexivity|].
  unfold setCachedData. simpl. now destruct (negb _).
Qed.

Lemma fresh_for_empty (E : env) (st : state) : cache st = ∅ -> fresh_for E st.
Proof. intros Hc key entry. rewrite Hc, lookup_empty. discriminate. Qed.

Lemma fresh_for_fresh (E : env) (st : state) : fresh_for E st -> fresh st.
Proof.
  intros Hfresh key entry Hentry.
  destruct (Hfresh key entry Hentry) as (type & filters & Hkey & Hdata).
  exists E, type, filters. split; assumption.
Qed.

(** A query of the user for whom the cache is fresh keeps it so. *)
Lemma getFilteredData_fresh_for (E : env) (st : state) (clk : clock)
    (type : string) (filters : obj) :
  fresh_for E st -> fresh_for E (fst (getFilteredData E st clk type filters)).
Proof.
  intros Hfresh. unfold getFilteredData.
  destruct (getCachedData E st clk (cacheKey type filters)); [exact Hfresh|].
  cbn [fst]. unfold setCachedData. destruct (negb _); [exact Hfresh|].
  intros key entry. unfold set_cache. simpl.
  destruct (decide (cacheKey type filters = key)) as [<-|Hne].
  - rewrite lookup_insert_eq. intros [= <-]. simpl.
    exists type, filters. split; reflexivity.
  - rewrite lookup_insert_ne by assumption. intros Hentry.
    destruct (Hfresh _ _ Hentry) as (type0 & filters0 & Hkey & Hdata).
    exists type0, filters0. split; assumption.
Qed.

(** Rendering the page only queries: the collection and the credentials
    stay, and a cache that is fresh for the user stays so. *)
Lemma renderCurrentPage_fresh (E : env) (st : state) (clk : clock) :
  fresh_for E st ->
  fresh_for E (renderCurrentPage E st clk)
  /\ allData (renderCurrentPage E st clk) = allData st
  /\ users (renderCurrentPage E st clk) = users st.
Proof.
  unfold renderCurrentPage. generalize (rendered_queries (page E)) as queries.
  intros queries. revert st.
  induction queries as [|[type filters] queries IH]; intros st Hfresh;
    [repeat split; assumption|].
  cbn [fold_left fst snd].
  destruct (IH (fst (getFilteredData E st clk type filters))) as (Hf & Hd & Hu).
  - apply (getFilteredData_fresh_for E st clk type filters Hfresh).
  - split; [assumption|]. split.
    + rewrite Hd. apply getFilteredData_collection.
    + rewrite Hu. apply getFilteredData_users.
Qed.


Lemma handleDataChange_collection (E : env) (clk : clock) (st : state)
    (data : list obj) :
  allData (handleDataChange E clk st data) = data
  /\ users (handleDataChange E clk st data) = fst (updateUsersFromData (users st) data).
Proof.
  unfold handleDataChange.
  destruct (updateUsersFromData (users st) data) as [table [[]| |]];
    try (split; reflexivity).
  destruct (currentUser E); [|split; reflexivity].
  match goal with
  | |- context [renderCurrentPage E ?s clk] =>
      destruct (renderCurrentPage_fresh E s clk (fresh_for_empty E s eq_refl))
        as (_ & -> & ->)
  end.
  split; reflexivity.
Qed.


End CacheCoherence.

(** C2, the witness: the sorting example of the specification. *)
Lemma query_sorted_by_creation_date_witness :
  descending_by (sort_date (JS := reference_runtime))
    (snd (getFilteredData (JS := reference_runtime) (session admin_user)
            store_with_dates (at_time 1000 "2024-06-01T00:00:00.000Z")
            "absensi" []))
  /\ snd (getFilteredData (JS := reference_runtime) (session admin_user)
            store_with_dates (at_time 1000 "2024-06-01T00:00:00.000Z")
            "absensi" [])
     = [ dated_record "a2" "2024-03-01"; dated_record "a3" "2024-02-01";
         dated_record "a1" "2024-01-01" ].
Proof.
  split.
  - apply (query_sorted_by_creation_date (JS := reference_runtime)).
    + reflexivity.
    + repeat constructor; discriminate.
  - reflexivity.
Defined.

(** C2, the counterexample: a grade created in January and updated in March
    is listed after a grade created in February, so the list is not in
    descending order of the timestamp that prefers [updatedAt]. *)
Lemma updatedAt_does_not_order_the_list :
  getCachedData (JS := reference_runtime) (session admin_user) store_with_grades
    (at_time 1000 "2024-06-01T00:00:00.000Z")
    (cacheKey (JS := reference_runtime) "nilai" []) = None
  /\ snd (getFilteredData (JS := reference_runtime) (session admin_user)
            store_with_grades (at_time 1000 "2024-06-01T00:00:00.000Z") "nilai" [])
     = [grade_recent; grade_updated]
  /\ ~ descending_by (effective_timestamp (JS := reference_runtime))
         (snd (getFilteredData (JS := reference_runtime) (session admin_user)
                 store_with_grades (at_time 1000 "2024-06-01T00:00:00.000Z")
                 "nilai" [])).
Proof.
  split; [reflexivity|]. split; [reflexivity|].
  intros Hsorted. change (snd _) with [grade_recent; grade_updated] in Hsorted.
  inversion Hsorted as [|? ? _ Hall]; subst.
  inversion Hall as [|? ? Hle _]; subst.
  vm_compute in Hle. apply Hle. reflexivity.
Qed.

(** C1, the failing run: the administrator opens the lesson plans, then a
    student opens them within the time to live of the cache.  The student
    gets the list that was cached for the administrator, with the plan that
    nobody approved; asked without that history, the same query gives the
    student an empty list. *)
Example student_served_from_admin_cache :
  let history :=
    [ (session admin_user, at_time 1000 "2024-06-01T00:00:00.000Z",
       Query "intra" []) ] in
  let student_query st :=
    snd (step (JS := reference_runtime) (session siswa_user)
           (at_time 61000 "2024-06-01T00:01:00.000Z") st (Query "intra" [])) in
  student_query (run (JS := reference_runtime) history store_with_pending)
  = Listed [pending_plan]
  /\ get_own pending_plan "approved" = VBool false
  /\ student_query store_with_pending = Listed [].
Proof.
  cbv zeta. split; [|split].
  - vm_compute. reflexivity.
  - reflexivity.
  - vm_compute. reflexivity.
Qed.

(** ** The mutations *)

Section MutationFacts.
Context {JS : Runtime}.

(** The second half of a mutation, resumed on whatever store the answer of
    the backend finds: an accepted request leaves the cache empty. *)
Lemma resume_accepted (st : state) (result : sdk_result) :
  isOk result = true ->
  cache (fst (createData_resume st result)) = ∅
  /\ cache (fst (updateData_resume st result)) = ∅
  /\ cache (fst (deleteData_resume st result)) = ∅.
Proof.
  intros Hok. unfold createData_resume, updateData_resume, deleteData_resume.
  rewrite Hok. repeat split.
Qed.






(** C4. The mutation gate.  When the record that an update or a delete
    finds was written by somebody else and the user is no administrator,
    the call fails with the permission error and the store is as before;
    the request reaches the backend exactly when a user is logged in who is
    an administrator or the author of the record.  The type of the record
    plays no part. *)
Theorem mutation_gate (E : env) (st : state) (clk : clock) (id data : value)
    (result : sdk_result) (existing : obj) :
  find_by_id st id = Some existing ->
  (forall u,
     currentUser E = Some u ->
     strict_eq (role u) (VStr "admin") = false ->
     strict_eq (get_own existing "author") (name u) = false ->
     updateData E st clk id data result
     = (st, Throw (Error "Tidak memiliki izin untuk mengupdate data ini"))
     /\ deleteData E st id result
        = (st, Throw (Error "Tidak memiliki izin untuk menghapus data ini")))
  /\ ((exists sent, updateData_request E st clk id data = Return sent)
      <-> exists u, currentUser E = Some u
                    /\ (strict_eq (role u) (VStr "admin") = true
                        \/ strict_eq (get_own existing "author") (name u) = true))
  /\ ((exists sent, deleteData_request E st id = Return sent)
      <-> exists u, currentUser E = Some u
                    /\ (strict_eq (role u) (VStr "admin") = true
                        \/ strict_eq (get_own existing "author") (name u) = true)).
Proof.
  intros Hfind.
  unfold updateData, deleteData, updateData_request, deleteData_request.
  rewrite Hfind. unfold canUpdateData, canDeleteData.
  split; [|split].
  - intros u Hu Hrole Hauthor. rewrite Hu, Hrole, Hauthor. split; reflexivity.
  - destruct (currentUser E) as [u|]; simpl.
    + destruct (strict_eq (role u) (VStr "admin")) eqn:Hrole; simpl.
      * split; eauto.
      * destruct (strict_eq (get_own existing "author") (name u)) eqn:Hauthor;
          simpl; split; eauto.
        -- intros [sent Hsent]. discriminate.
        -- intros (u' & [= <-] & [Hr|Ha]); congruence.
    + split; [intros [sent Hsent]; discriminate|].
      intros (u & Hu & _). discriminate.
  - destruct (currentUser E) as [u|]; simpl.
    + destruct (strict_eq (role u) (VStr "admin")) eqn:Hrole; simpl.
      * split; eauto.
      * destruct (strict_eq (get_own existing "author") (name u)) eqn:Hauthor;
          simpl; split; eauto.
        -- intros [sent Hsent]. discriminate.
        -- intros (u' & [= <-] & [Hr|Ha]); congruence.
    + split; [intros [sent Hsent]; discriminate|].
      intros (u & Hu & _). discriminate.
Qed.

(** C5. [createData] never writes the collection: whatever the candidate and
    whatever the backend answers, the collection after the call is the
    collection before it; and when the backend refuses a request, the call
    fails with the save-failed error and the whole store is as before. *)
Theorem createData_keeps_collection (E : env) (st : state) (clk : clock)
    (type : string) (data : value) (result : sdk_result) :
  allData (fst (createData E st clk type data result)) = allData st
  /\ (forall sent,
        createData_request E st clk type data = Return sent ->
        isOk result = false ->
        createData E st clk type data result
        = (st, Throw (Error "Gagal menyimpan data"))).
Proof.
  unfold createData, createData_resume. split.
  - destruct (createData_request E st clk type data); try reflexivity.
    destruct (isOk result); reflexivity.
  - intros sent -> ->. reflexivity.
Qed.

(** C9. [updateData] calls no validator: once the record is found and the
    gate passes, the record merged with the partial fields and stamped with
    [updatedAt] is what goes to the backend, whatever the fields are. *)
Theorem updateData_skips_validation (E : env) (st : state) (clk : clock)
    (id data : value) (existing : obj) :
  find_by_id st id = Some existing ->
  canUpdateData (currentUser E) existing = true ->
  updateData_request E st clk id data
  = Return (set_own (assign_all existing (spread_entries data))
              "updatedAt" (VStr (iso clk))).
Proof.
  intros Hfind Hgate. unfold updateData_request. now rewrite Hfind, Hgate.
Qed.

End MutationFacts.



(** C4, the witness: the counselor may not touch the grade the mathematics
    teacher wrote. *)
Lemma mutation_gate_witness :
  updateData (session bk_user) store_with_grade
    (at_time 1000 "2024-06-01T00:00:00.000Z") (VStr "n1")
    (VObj [("nilai", VNum 90)]) (accepted stored_grade)
  = (store_with_grade, Throw (Error "Tidak memiliki izin untuk mengupdate data ini"))
  /\ deleteData (session bk_user) store_with_grade
       (VStr "n1") (accepted stored_grade)
     = (store_with_grade, Throw (Error "Tidak memiliki izin untuk menghapus data ini")).
Proof.
  apply (proj1 (mutation_gate (session bk_user)
                  store_with_grade (at_time 1000 "2024-06-01T00:00:00.000Z")
                  (VStr "n1") (VObj [("nilai", VNum 90)]) (accepted stored_grade)
                  stored_grade eq_refl) bk_user); reflexivity.
Defined.

(** C9, the witness: the teacher sets the score of the stored grade to 150.
    The request goes out, with a record that the validator of grades
    rejects. *)
Lemma updateData_skips_validation_witness :
  updateData_request (session guru_user) store_with_grade
    (at_time 1000 "2024-06-01T00:00:00.000Z") (VStr "n1") (VObj [("nilai", VNum 150)])
  = Return (set_own (assign_all stored_grade [("nilai", VNum 150)])
              "updatedAt" (VStr "2024-06-01T00:00:00.000Z"))
  /\ validateData (JS := reference_runtime) AppConfig_defaults []
       "nilai" (VObj (set_own (assign_all stored_grade [("nilai", VNum 150)])
                        "updatedAt" (VStr "2024-06-01T00:00:00.000Z")))
     = Return (fail "Nilai harus antara 0 dan 100").
Proof.
  split.
  - apply updateData_skips_validation; reflexivity.
  - vm_compute. reflexivity.
Defined.

(** ** The validation claims on concrete candidates *)

(** C5, the witness: the backend refuses the grade of a teacher. *)
Lemma createData_keeps_collection_witness :
  createData (JS := reference_runtime) (session guru_user) store_with_pending
    (at_time 1000 "2024-06-01T00:00:00.000Z") "nilai" (VObj grade_fields) refused
  = (store_with_pending, Throw (Error "Gagal menyimpan data")).
Proof.
  eapply (proj2 (createData_keeps_collection (JS := reference_runtime)
                   (session guru_user) store_with_pending
                   (at_time 1000 "2024-06-01T00:00:00.000Z") "nilai"
                   (VObj grade_fields) refused)).
  - vm_compute. reflexivity.
  - reflexivity.
Defined.

(** C6, the counterexample: a null candidate makes [validateData] throw, for
    a known type and for an unknown one. *)
Lemma validateData_throws_on_null :
  validateData (JS := reference_runtime) AppConfig_defaults [] "nilai" VNull
  = Throw TypeError
  /\ validateData (JS := reference_runtime) AppConfig_defaults [] "pengumuman" VUndef
     = Throw TypeError
  /\ ~ (exists r, validateData (JS := reference_runtime) AppConfig_defaults []
                    "nilai" VNull = Return r).
Proof.
  split; [reflexivity|]. split; [reflexivity|].
  intros [r Hr]. vm_compute in Hr. discriminate.
Qed.

(** C6, the witness: a candidate that is a string, not an object. *)
Lemma validateData_structured_unless_null_witness :
  exists r, validateData (JS := reference_runtime) AppConfig_defaults []
              "nilai" (VStr "85") = Return r.
Proof.
  exact (proj1 (validateData_structured_unless_null (JS := reference_runtime)
                  AppConfig_defaults [] "nilai" (VStr "85") eq_refl)
           eq_refl eq_refl).
Defined.

(** A student whose number is an object with a [toString] of its own that
    is no function: the test of the number's format throws. *)
Lemma validateData_throws_on_unconvertible_field :
  validateData (JS := reference_runtime) AppConfig_defaults [] "siswa"
    (VObj [ ("title", VStr "A"); ("nisn", VObj [("toString", VNull)]);
            ("jenis_kelamin", VStr "L"); ("class", VStr "10A") ])
  = Throw TypeError.
Proof. reflexivity. Qed.

(** C7, the witness: the grade of the specification without its date. *)
Lemma missing_field_rejected_first_witness :
  validateData (JS := reference_runtime) AppConfig_defaults [] "nilai"
    (VObj (delete_own grade_fields "date"))
  = Return (fail "date wajib diisi").
Proof.
  apply (proj2 (missing_field_rejected_first (JS := reference_runtime)
                  AppConfig_defaults [] "nilai" _ eq_refl)
           grade_fields "date" pass).
  - simpl. tauto.
  - vm_compute. reflexivity.
  - reflexivity.
Defined.

(** C8, the witness, with the default minimum length 6: a password that is
    too short fails on its length although it has the three classes, one
    that is long enough and has neither an uppercase letter nor a digit
    fails on the uppercase letter, and one that passes is valid. *)
Lemma validatePassword_checks_in_order_witness :
  validatePassword (JS := reference_runtime) AppConfig_defaults (VStr "Ab1")
  = Return (fail "Password minimal 6 karakter")
  /\ validatePassword (JS := reference_runtime) AppConfig_defaults (VStr "abcdefgh")
     = Return (fail "Password harus mengandung huruf besar")
  /\ validatePassword (JS := reference_runtime) AppConfig_defaults (VStr "Abc123")
     = Return {| valid := true; message := Some "Password kuat" |}.
Proof.
  split; [|split].
  - apply (validatePassword_checks_in_order (JS := reference_runtime)
             AppConfig_defaults 6 "Ab1" eq_refl). simpl. lia.
  - apply (validatePassword_checks_in_order (JS := reference_runtime)
             AppConfig_defaults 6 "abcdefgh" eq_refl).
    + simpl. lia.
    + exists "a"%char. split; [simpl; tauto|reflexivity].
    + intros [c [Hin Hc]]. simpl in Hin.
      repeat (destruct Hin as [<-|Hin]; [discriminate|]). exact Hin.
  - apply (validatePassword_checks_in_order (JS := reference_runtime)
             AppConfig_defaults 6 "Abc123" eq_refl).
    + simpl. lia.
    + exists "b"%char. split; [simpl; tauto|reflexivity].
    + exists "A"%char. split; [simpl; tauto|reflexivity].
    + exists "1"%char. split; [simpl; tauto|reflexivity].
Defined.

(** C10, the witness: the grade of the specification with an empty score. *)
Lemma falsy_required_field_is_missing_witness :
  validateData (JS := reference_runtime) AppConfig_defaults [] "nilai"
    (VObj (set_own grade_fields "nilai" (VStr EmptyString)))
  = Return (fail "nilai wajib diisi").
Proof.
  apply (proj1 (falsy_required_field_is_missing (JS := reference_runtime)
                  AppConfig_defaults [])
           "nilai" _ grade_fields "nilai" (VStr EmptyString) pass eq_refl).
  - simpl. tauto.
  - reflexivity.
  - vm_compute. reflexivity.
  - reflexivity.
Defined.

(** * Further properties of the code *)

(** ** The query cache: entries, expiry and the sweep *)

Section CacheFacts.
Context {JS : Runtime}.

Lemma Qltb_lt (x y : Q) : Qltb x y = true <-> (x < y)%Q.
Proof. unfold Qltb, Qlt. apply Z.ltb_lt. Qed.

(** The age [d'] is served and the age [d], not older, is swept: impossible. *)
Lemma served_not_swept (x : num) (d d' : Z) :
  d <= d' -> num_lt (Fin (inject_Z d')) x = Some true ->
  num_lt x (Fin (inject_Z d)) <> Some true.
Proof.
  intros Hle. destruct x as [| | |q]; simpl; try discriminate.
  intros [= Hs] [= Hw]. apply Qltb_lt in Hs, Hw.
  assert (inject_Z d' < inject_Z d)%Q as Hlt by (eapply Qlt_trans; eassumption).
  rewrite <- Zlt_Qlt in Hlt. lia.
Qed.

Lemma js_lt_age (d : Z) (ttl : value) :
  js_lt (VNum d) ttl
  = match num_lt (Fin (inject_Z d)) (ToNumber ttl) with Some true => true | _ => false end.
Proof.
  unfold js_lt, js_less_than, ToNumber.
  destruct ttl; simpl; reflexivity.
Qed.

Lemma js_gt_age (d : Z) (ttl : value) :
  js_gt (VNum d) ttl
  = match num_lt (ToNumber ttl) (Fin (inject_Z d)) with Some true => true | _ => false end.
Proof.
  unfold js_gt, js_less_than, ToNumber.
  destruct ttl; simpl; reflexivity.
Qed.

Lemma js_gt_numbers (a b : Z) : js_gt (VNum a) (VNum b) = (b <? a).
Proof.
  rewrite js_gt_age. unfold ToNumber. simpl. rewrite Qltb_inject_Z.
  now destruct (b <? a).
Qed.

(** X1. With the cache enabled and a numeric time to live [n], an entry
    stored at one time is served at a later time exactly while its age is
    below [n], and storing under one key leaves the other keys as they
    were. *)
Theorem cache_entry_served_until_ttl (E : env) (st : state) (clk clk' : clock)
    (key : string) (data : list obj) (n : Z) :
  truthy (AppConfig_get (config E) "performance.cache_enabled") = true ->
  AppConfig_get (config E) "performance.cache_ttl" = VNum n ->
  getCachedData E (setCachedData E st clk key data) clk' key
  = (if now clk' - now clk <? n then Some data else None)
  /\ (forall key', key' <> key ->
        getCachedData E (setCachedData E st clk key data) clk' key'
        = getCachedData E st clk' key').
Proof.
  intros Hon Httl. unfold getCachedData, setCachedData.
  rewrite Hon, Httl. simpl. split.
  - rewrite lookup_insert_eq. simpl. now rewrite js_lt_numbers.
  - intros key' Hne. now rewrite lookup_insert_ne by congruence.
Qed.

(** X2. With the cache switched off nothing is ever stored or served: a
    query leaves the store as it is and returns the list it computes. *)
Theorem cache_switched_off (E : env) (st : state) (clk : clock) (key type : string)
    (data : list obj) (filters : obj) :
  truthy (AppConfig_get (config E) "performance.cache_enabled") = false ->
  getCachedData E st clk key = None
  /\ setCachedData E st clk key data = st
  /\ getFilteredData E st clk type filters = (st, compute_filtered E st type filters).
Proof.
  intros Hoff. unfold getFilteredData, getCachedData, setCachedData.
  rewrite Hoff. simpl. repeat split.
Qed.

(** X3. A query that computed its list stores it; the same query (type and
    filters) asked again while the entry is younger than the time to live
    returns that list and leaves the store as it is, whoever asks. *)
Theorem repeated_query_is_served_from_cache (E1 E2 : env) (st : state)
    (clk1 clk2 : clock) (type : string) (filters : obj) (n : Z) :
  truthy (AppConfig_get (config E1) "performance.cache_enabled") = true ->
  truthy (AppConfig_get (config E2) "performance.cache_enabled") = true ->
  AppConfig_get (config E2) "performance.cache_ttl" = VNum n ->
  getCachedData E1 st clk1 (cacheKey type filters) = None ->
  now clk2 - now clk1 < n ->
  let first := getFilteredData E1 st clk1 type filters in
  getFilteredData E2 (fst first) clk2 type filters = (fst first, snd first).
Proof.
  intros Hon1 Hon2 Httl Hmiss Hage first.
  assert (Hfirst : first
                   = (setCachedData E1 st clk1 (cacheKey type filters)
                        (compute_filtered E1 st type filters),
                      compute_filtered E1 st type filters)).
  { unfold first, getFilteredData. now rewrite Hmiss. }
  rewrite Hfirst. simpl. unfold getFilteredData.
  replace (getCachedData E2 _ clk2 (cacheKey type filters))
    with (Some (compute_filtered E1 st type filters)); [reflexivity|].
  unfold getCachedData, setCachedData. rewrite Hon1, Hon2, Httl. simpl.
  rewrite lookup_insert_eq. simpl. rewrite js_lt_numbers.
  apply Z.ltb_lt in Hage. now rewrite Hage.
Qed.

(** X4. The sweep is invisible to the lookups: at the time of the sweep and
    at every later time a lookup finds what it would have found without the
    sweep, whatever the configured time to live is; the collection and the
    credentials are not touched. *)
Theorem sweep_keeps_what_is_served (E : env) (st : state) (clk clk' : clock)
    (key : string) :
  now clk <= now clk' ->
  getCachedData E (sweepCache E st clk) clk' key = getCachedData E st clk' key
  /\ allData (sweepCache E st clk) = allData st
  /\ users (sweepCache E st clk) = users st.
Proof.
  intros Hlater. split; [|split; reflexivity].
  unfold getCachedData, sweepCache. simpl.
  destruct (negb _); [reflexivity|].
  set (ttl := AppConfig_get (config E) "performance.cache_ttl").
  destruct (cache st !! key) as [entry|] eqn:Hentry.
  - destruct (js_lt (VNum (now clk' - entry_timestamp entry)) ttl) eqn:Hserved.
    + assert (Hkept : filter (fun kv : string * cache_entry =>
                 js_gt (VNum (now clk - entry_timestamp (snd kv))) ttl = false)
                 (cache st) !! key = Some entry).
      { apply map_lookup_filter_Some. split; [assumption|]. simpl.
        rewrite js_gt_age. rewrite js_lt_age in Hserved.
        destruct (num_lt (Fin (inject_Z (now clk' - entry_timestamp entry)))
                    (ToNumber ttl)) as [[|]|] eqn:Hs; try discriminate.
        pose proof (served_not_swept (ToNumber ttl)
                      (now clk - entry_timestamp entry)
                      (now clk' - entry_timestamp entry) ltac:(lia) Hs) as Hn.
        destruct (num_lt (ToNumber ttl) _) as [[|]|]; congruence. }
      rewrite Hkept. now rewrite Hserved.
    + destruct (filter _ (cache st) !! key) as [entry'|] eqn:Hf; [|reflexivity].
      apply map_lookup_filter_Some in Hf as [Hf _].
      rewrite Hentry in Hf. injection Hf as <-. now rewrite Hserved.
  - destruct (filter _ (cache st) !! key) as [entry'|] eqn:Hf; [|reflexivity].
    apply map_lookup_filter_Some in Hf as [Hf _]. congruence.
Qed.

(** X5. With a numeric time to live [n] the sweep removes exactly the
    entries older than [n]: what is left is at most [n] old, and an entry of
    age exactly [n] stays although no lookup serves it any more. *)
Theorem sweep_removes_the_expired (E : env) (st : state) (clk : clock)
    (key : string) (entry : cache_entry) (n : Z) :
  AppConfig_get (config E) "performance.cache_ttl" = VNum n ->
  (cache (sweepCache E st clk) !! key = Some entry
   <-> cache st !! key = Some entry /\ now clk - entry_timestamp entry <= n)
  /\ (truthy (AppConfig_get (config E) "performance.cache_enabled") = true ->
      cache st !! key = Some entry -> now clk - entry_timestamp entry = n ->
      cache (sweepCache E st clk) !! key = Some entry
      /\ getCachedData E st clk key = None).
Proof.
  intros Httl. unfold sweepCache. rewrite Httl. simpl.
  assert (Hiff : filter (fun kv : string * cache_entry =>
              js_gt (VNum (now clk - entry_timestamp (snd kv))) (VNum n) = false)
              (cache st) !! key = Some entry
            <-> cache st !! key = Some entry /\ now clk - entry_timestamp entry <= n).
  { rewrite map_lookup_filter_Some. simpl. rewrite js_gt_numbers.
    rewrite Z.ltb_ge. reflexivity. }
  split; [exact Hiff|].
  intros Hon Hentry Hage. split.
  - apply Hiff. split; [assumption|lia].
  - unfold getCachedData. rewrite Hon, Hentry, Httl. simpl.
    rewrite js_lt_numbers, Hage. now rewrite Z.ltb_irrefl.
Qed.

End CacheFacts.

(** ** The query: roles, filters and what a list may hold *)

Section QueryExtras.
Context {JS : Runtime}.

Lemma strict_eq_string (v : value) (s : string) :
  strict_eq v (VStr s) = true -> v = VStr s.
Proof.
  destruct v; simpl; try discriminate.
  intros Heq. apply String.eqb_eq in Heq. now subst.
Qed.

Lemma role_filter_keeps (P : obj -> Prop) (user : option identity) (l : list obj) :
  Forall P l -> Forall P (role_filter user l).
Proof.
  intros Hl. unfold role_filter. destruct user as [u|]; [|assumption].
  repeat match goal with
         | |- context [if ?c then _ else _] => destruct c
         end; try assumption;
    rewrite List.Forall_forall in Hl |- *; intros d Hd;
    apply filter_In in Hd; now apply Hl.
Qed.

Lemma role_filter_unrestricted (E : env) (l : list obj) :
  unrestricted E -> role_filter (currentUser E) l = l.
Proof.
  unfold unrestricted, role_filter. destruct (currentUser E) as [u|]; [|reflexivity].
  intros (-> & -> & ->). reflexivity.
Qed.

Lemma filter_filter_and {A : Type} (p q : A -> bool) (l : list A) :
  List.filter q (List.filter p l) = List.filter (fun x => p x && q x) l.
Proof.
  induction l as [|x l IH]; simpl; [reflexivity|].
  destruct (p x); simpl; [destruct (q x)|]; now rewrite IH.
Qed.

Lemma filter_true {A : Type} (l : list A) : List.filter (fun _ => true) l = l.
Proof. induction l as [|x l IH]; simpl; [reflexivity|now rewrite IH]. Qed.

Lemma additional_filters_as_filter (filters : obj) (l : list obj) :
  additional_filters filters l = List.filter (passes_filters filters) l.
Proof.
  unfold additional_filters, passes_filters.
  generalize (map fst filters) as keys. intros keys. revert l.
  induction keys as [|key keys IH]; intros l; simpl.
  - now rewrite filter_true.
  - rewrite IH. fold (active_filter filters key).
    destruct (active_filter filters key).
    + apply filter_filter_and.
    + reflexivity.
Qed.

Lemma length_filter_le {A : Type} (p : A -> bool) (l : list A) :
  (length (List.filter p l) <= length l)%nat.
Proof.
  induction l as [|x l IH]; simpl; [lia|]. destruct (p x); simpl; lia.
Qed.

Lemma role_filter_length (user : option identity) (l : list obj) :
  (length (role_filter user l) <= length l)%nat.
Proof.
  unfold role_filter. destruct user as [u|]; [|lia].
  repeat match goal with
         | |- context [if ?c then _ else _] => destruct c
         end; try lia; apply length_filter_le.
Qed.

(** X6. A teacher or a counselor gets only the records whose author is the
    user's own name, whenever the list is computed. *)
Theorem teacher_sees_own_records (E : env) (st : state) (clk : clock)
    (type : string) (filters : obj) (u : identity) :
  currentUser E = Some u ->
  strict_eq (role u) (VStr "guru") = true \/ strict_eq (role u) (VStr "bk") = true ->
  getCachedData E st clk (cacheKey type filters) = None ->
  Forall (fun d => strict_eq (get_own d "author") (name u) = true)
    (snd (getFilteredData E st clk type filters)).
Proof.
  intros Hu Hrole Hmiss. rewrite getFilteredData_miss by assumption.
  rewrite compute_filtered_sorts.
  eapply Permutation_Forall; [apply Array_sort_permutation|].
  unfold matching_records. apply additional_filters_keeps.
  rewrite Hu. unfold role_filter.
  assert (Hns : strict_eq (role u) (VStr "siswa") = false).
  { destruct Hrole as [Hr|Hr]; apply strict_eq_string in Hr; now rewrite Hr. }
  rewrite Hns.
  assert (Hor : strict_eq (role u) (VStr "guru") || strict_eq (role u) (VStr "bk")
                = true).
  { destruct Hrole as [-> | ->]; [reflexivity|apply orb_true_r]. }
  rewrite Hor. apply List.Forall_forall. intros d Hd.
  now apply filter_In in Hd.
Qed.

(** X7. Every other role - admin, kepsek, a role the code does not know -
    and a call with nobody logged in get all the records of the type that
    pass the filters, approved or not. *)
Theorem other_roles_see_every_record (E : env) (st : state) (clk : clock)
    (type : string) (filters : obj) :
  unrestricted E ->
  getCachedData E st clk (cacheKey type filters) = None ->
  Permutation
    (List.filter (passes_filters filters) (List.filter (of_type type) (allData st)))
    (snd (getFilteredData E st clk type filters)).
Proof.
  intros Hfree Hmiss. rewrite getFilteredData_miss by assumption.
  rewrite compute_filtered_sorts. unfold matching_records.
  rewrite role_filter_unrestricted by assumption.
  rewrite additional_filters_as_filter. apply Array_sort_permutation.
Qed.

(** X8. A list that is computed holds only records of the collection that
    carry the requested type, and a query, served from the cache or not,
    changes neither the collection nor the credentials. *)
Theorem query_returns_records_of_the_type (E : env) (st : state) (clk : clock)
    (type : string) (filters : obj) :
  (getCachedData E st clk (cacheKey type filters) = None ->
   Forall (fun d => In d (allData st) /\ of_type type d = true)
     (snd (getFilteredData E st clk type filters)))
  /\ allData (fst (getFilteredData E st clk type filters)) = allData st
  /\ users (fst (getFilteredData E st clk type filters)) = users st.
Proof.
  split; [|split].
  - intros Hmiss. rewrite getFilteredData_miss by assumption.
    rewrite compute_filtered_sorts.
    eapply Permutation_Forall; [apply Array_sort_permutation|].
    unfold matching_records. apply additional_filters_keeps, role_filter_keeps.
    apply List.Forall_forall. intros d Hd. now apply filter_In in Hd.
  - apply getFilteredData_collection.
  - unfold getFilteredData. destruct (getCachedData _ _ _ _); [reflexivity|].
    unfold setCachedData. simpl. now destruct (negb _).
Qed.

Lemma forallb_agree {A : Type} (f g : A -> bool) (l : list A) :
  (forall x, In x l -> f x = g x) -> forallb f l = forallb g l.
Proof.
  induction l as [|x l IH]; intros Hfg; simpl; [reflexivity|].
  rewrite Hfg by now left. rewrite IH; [reflexivity|].
  intros y Hy. apply Hfg. now right.
Qed.

Lemma forallb_of_map {A B : Type} (f : B -> bool) (g : A -> B) (l : list A) :
  forallb f (map g l) = forallb (fun x => f (g x)) l.
Proof. induction l as [|x l IH]; simpl; [reflexivity|now rewrite IH]. Qed.

Lemma forallb_Permutation {A : Type} (f : A -> bool) (l l' : list A) :
  Permutation l l' -> forallb f l = forallb f l'.
Proof.
  induction 1 as [|x l l' _ IH|x y l|l l' l'' _ IH1 _ IH2]; simpl.
  - reflexivity.
  - now rewrite IH.
  - destruct (f x), (f y); reflexivity.
  - now rewrite IH1.
Qed.

(** In an object, whose keys are distinct, a key reads the value of its
    entry. *)
Lemma get_own_entry (o : obj) (k : string) (v : value) :
  NoDup (map fst o) -> In (k, v) o -> get_own o k = v.
Proof.
  induction o as [|[k0 v0] o IH]; simpl; [tauto|].
  intros [Hnot Hnd]%NoDup_cons [[= -> ->]|Hin].
  - now rewrite String.eqb_refl.
  - destruct (String.eqb_spec k0 k) as [->|_]; [|now apply IH].
    exfalso. apply Hnot, list_elem_of_In, in_map_iff. now exists (k, v).
Qed.

Lemma passes_matches_all (filters item : obj) :
  NoDup (map fst filters) -> passes_filters filters item = matches_all filters item.
Proof.
  intros Hnd. unfold passes_filters, matches_all. rewrite forallb_of_map.
  apply forallb_agree. intros [k v] Hin. cbn [fst snd].
  unfold active_filter, active_value. rewrite (get_own_entry _ _ _ Hnd Hin).
  now destruct (negb (strict_eq v VUndef) && negb (strict_eq v (VStr EmptyString))).
Qed.

(** X9. The additional filters act as one conjunction.  For filters with
    distinct keys, read through own properties, the computed list is the
    sorted list of the visible records of the type that match, in the named
    field or along the dotted path, every filter whose value is neither
    undefined nor the empty string; the other filters are ignored, and the
    order in which the filters are written plays no part. *)
Theorem filters_select_exact_matches (E : env) (st : state) (type : string)
    (filters : obj) :
  NoDup (map fst filters) ->
  Forall (fun kv => reads_own_properties st (fst kv) = true) filters ->
  compute_filtered E st type filters
  = Array_sort newest_first
      (List.filter (matches_all filters)
         (role_filter (currentUser E) (List.filter (of_type type) (allData st))))
  /\ (forall filters',
        Permutation filters filters' ->
        compute_filtered E st type filters' = compute_filtered E st type filters).
Proof.
  intros Hnd _.
  assert (Hone : forall filters0,
            NoDup (map fst filters0) ->
            compute_filtered E st type filters0
            = Array_sort newest_first
                (List.filter (matches_all filters0)
                   (role_filter (currentUser E)
                      (List.filter (of_type type) (allData st))))).
  { intros filters0 Hnd0. unfold compute_filtered.
    rewrite additional_filters_as_filter. f_equal.
    apply List.filter_ext. intros d. now apply passes_matches_all. }
  split; [now apply Hone|].
  intros filters' Hperm.
  assert (Hnd' : NoDup (map fst filters')) by (now rewrite <- Hperm).
  rewrite !Hone by assumption.
  f_equal. apply List.filter_ext. intros d. unfold matches_all.
  symmetry. now apply forallb_Permutation.
Qed.

Lemma count_of_type_length (st : state) (type : string) :
  count_of_type st type = Z.of_nat (length (List.filter (of_type type) (allData st))).
Proof. reflexivity. Qed.

(** X10. The dashboard counts every record of a type, whoever looks at it:
    the count is an upper bound of the length of every list computed for
    that type, and it is the length of the list when the user is
    unrestricted and gives no filter. *)
Theorem statistic_bounds_every_query (E : env) (st : state) (clk : clock)
    (type : string) (filters : obj) :
  In type counted_types ->
  getCachedData E st clk (cacheKey type filters) = None ->
  exists count,
    get_own (getStatistics st) type = VNum count
    /\ Z.of_nat (length (snd (getFilteredData E st clk type filters))) <= count
    /\ (unrestricted E -> filters = [] ->
        Z.of_nat (length (snd (getFilteredData E st clk type filters))) = count).
Proof.
  intros Hin Hmiss. exists (count_of_type st type).
  split; [|split].
  - simpl in Hin.
    repeat (destruct Hin as [<-|Hin]; [reflexivity|]). contradiction.
  - rewrite getFilteredData_miss by assumption. rewrite compute_filtered_sorts.
    rewrite <- (Permutation_length (Array_sort_permutation _ _)).
    unfold matching_records. rewrite additional_filters_as_filter.
    rewrite count_of_type_length. apply inj_le.
    etransitivity; [apply length_filter_le|]. apply role_filter_length.
  - intros Hfree ->. rewrite getFilteredData_miss by assumption.
    rewrite compute_filtered_sorts.
    rewrite <- (Permutation_length (Array_sort_permutation _ _)).
    unfold matching_records. rewrite role_filter_unrestricted by assumption.
    reflexivity.
Qed.

End QueryExtras.

(** ** The statistics *)

Lemma count_types_step (types : list string) (d : obj) :
  NoDup types ->
  fold_right (fun t acc => (if of_type t d then 1 else 0) + acc) 0 types
  = if existsb (fun t => of_type t d) types then 1 else 0.
Proof.
  induction 1 as [|t types Hnot _ IH]; simpl; [reflexivity|].
  rewrite IH. destruct (of_type t d) eqn:Ht; simpl; [|reflexivity].
  destruct (existsb (fun t0 => of_type t0 d) types) eqn:Hex; [|reflexivity].
  exfalso. apply existsb_exists in Hex as (t' & Hin & Ht').
  unfold of_type in Ht, Ht'.
  destruct (get_own d "type"); simpl in Ht, Ht'; try discriminate.
  apply String.eqb_eq in Ht, Ht'. subst. apply Hnot, list_elem_of_In, Hin.
Qed.

Lemma count_types_sum (types : list string) (l : list obj) :
  NoDup types ->
  fold_right (fun t acc => Z.of_nat (length (List.filter (of_type t) l)) + acc) 0 types
  = Z.of_nat (length (List.filter (fun d => existsb (fun t => of_type t d) types) l)).
Proof.
  intros Hnd. induction l as [|d l IH]; simpl.
  - induction types as [|t types IHt]; simpl; [reflexivity|].
    inversion Hnd; subst. now rewrite IHt.
  - transitivity
      (fold_right (fun t acc => (if of_type t d then 1 else 0) + acc) 0 types
       + fold_right (fun t acc =>
                       Z.of_nat (length (List.filter (of_type t) l)) + acc) 0 types).
    + clear IH Hnd. induction types as [|t types IHt]; simpl; [reflexivity|].
      rewrite IHt. destruct (of_type t d); simpl length; lia.
    + rewrite IH, (count_types_step types d Hnd).
      destruct (existsb _ types); simpl length; lia.
Qed.

(** X11. The ten counts of the dashboard add up to the number of records
    whose type is one of the ten counted types; records of any other type
    (classes among them) are not counted, and the total never exceeds the
    size of the collection. *)
Theorem statistics_count_each_record_once (st : state) :
  statistics_total (getStatistics st)
  = Z.of_nat (length (List.filter
                        (fun d => existsb (fun t => of_type t d) counted_types)
                        (allData st)))
  /\ statistics_total (getStatistics st) <= Z.of_nat (length (allData st)).
Proof.
  assert (Hsum : statistics_total (getStatistics st)
                 = fold_right (fun t acc =>
                     Z.of_nat (length (List.filter (of_type t) (allData st))) + acc)
                     0 counted_types).
  { reflexivity. }
  assert (Hnd : NoDup counted_types).
  { apply (bool_decide_unpack _). vm_compute. reflexivity. }
  rewrite Hsum, (count_types_sum _ _ Hnd). split; [reflexivity|].
  apply inj_le, length_filter_le.
Qed.

(** ** Objects: assignment and merging *)

Lemma has_own_In (o : obj) (k : string) :
  has_own o k = true <-> In k (map fst o).
Proof.
  induction o as [|[k0 v] o IH]; simpl; [split; [discriminate|tauto]|].
  rewrite orb_true_iff, IH, String.eqb_eq. reflexivity.
Qed.

Lemma has_own_set (o : obj) (k k' : string) (v : value) :
  has_own (set_own o k v) k' = String.eqb k k' || has_own o k'.
Proof.
  induction o as [|[k0 v0] o IH]; simpl; [now rewrite orb_false_r|].
  destruct (String.eqb_spec k0 k) as [->|Hne]; simpl.
  - now destruct (String.eqb k k').
  - rewrite IH. destruct (String.eqb k0 k'), (String.eqb k k'); reflexivity.
Qed.

Lemma get_own_set (o : obj) (k k' : string) (v : value) :
  get_own (set_own o k v) k' = if String.eqb k k' then v else get_own o k'.
Proof.
  destruct (String.eqb_spec k k') as [<-|Hne].
  - apply get_own_set_same.
  - now apply get_own_set_other.
Qed.

Lemma has_own_assign_all (target entries : obj) (k : string) :
  has_own (assign_all target entries) k = has_own entries k || has_own target k.
Proof.
  unfold assign_all. revert target.
  induction entries as [|[k0 v0] entries IH]; intros target; simpl; [reflexivity|].
  rewrite IH, has_own_set.
  destruct (String.eqb k0 k), (has_own entries k); reflexivity.
Qed.

(** [{...target, ...entries}]: the entries win, the rest of the target stays. *)
Lemma get_own_assign_all (target entries : obj) (k : string) :
  NoDup (map fst entries) ->
  get_own (assign_all target entries) k
  = if has_own entries k then get_own entries k else get_own target k.
Proof.
  unfold assign_all. revert target.
  induction entries as [|[k0 v0] entries IH]; intros target Hnd; simpl;
    [reflexivity|].
  apply NoDup_cons in Hnd as [Hnot Hnd]. rewrite IH by assumption.
  destruct (String.eqb_spec k0 k) as [->|Hne]; simpl.
  - destruct (has_own entries k) eqn:Hhas.
    + exfalso. apply Hnot, list_elem_of_In, has_own_In, Hhas.
    + apply get_own_set_same.
  - destruct (has_own entries k); [reflexivity|].
    now apply get_own_set_other.
Qed.

(** ** The mutations: what is sent and what fails *)

Section MutationExtras.
Context {JS : Runtime}.

Lemma createData_request_sent (E : env) (st : state) (clk : clock) (type : string)
    (data : value) (sent : obj) :
  createData_request E st clk type data = Return sent ->
  exists u,
    currentUser E = Some u
    /\ sent
       = set_own
           (set_own
              (set_own (assign_all [("type", VStr type)] (spread_entries data))
                 "author" (name u))
              "createdAt" (VStr (iso clk)))
           "approved"
           (VBool (strict_eq (role u) (VStr "admin")
                   || strict_eq (role u) (VStr "kepsek"))).
Proof.
  unfold createData_request.
  destruct (validateData (config E) (users st) type data) as [validation| |];
    simpl; try discriminate.
  destruct (negb (valid validation)); [discriminate|].
  destruct (converted _) as [[]| |]; cbn [mbind outcome_bind]; try discriminate.
  destruct (js_ge _ _); [discriminate|].
  destruct (currentUser E) as [u|]; [|discriminate].
  intros [= <-]. eauto.
Qed.

(** X12. Whatever a candidate carries in the fields author, createdAt and
    approved, the record that goes to the backend has the name of the user
    as its author, the reading of the clock as its creation time, and is
    approved exactly when the role of the user is admin or kepsek. *)
Theorem createData_stamps_the_record (E : env) (st : state) (clk : clock)
    (type : string) (data : value) (sent : obj) (u : identity) :
  currentUser E = Some u ->
  createData_request E st clk type data = Return sent ->
  get_own sent "author" = name u
  /\ get_own sent "createdAt" = VStr (iso clk)
  /\ get_own sent "approved"
     = VBool (strict_eq (role u) (VStr "admin")
              || strict_eq (role u) (VStr "kepsek")).
Proof.
  intros Hu Hsent.
  destruct (createData_request_sent _ _ _ _ _ _ Hsent) as (u' & Hu' & ->).
  rewrite Hu in Hu'. injection Hu' as <-.
  rewrite !get_own_set. simpl. repeat split.
Qed.

(** X13. The other fields of the record are the fields of the candidate; a
    candidate that carries a field type of its own replaces the type that
    [createData] was called with: the record is validated by the rules of one
    type and stored under the other. *)
Theorem candidate_fields_are_stored (E : env) (st : state) (clk : clock)
    (type : string) (o sent : obj) :
  NoDup (map fst o) ->
  createData_request E st clk type (VObj o) = Return sent ->
  get_own sent "type" = (if has_own o "type" then get_own o "type" else VStr type)
  /\ (forall k, k <> "type" -> k <> "author" -> k <> "createdAt" ->
                k <> "approved" -> get_own sent k = get_own o k).
Proof.
  intros Hnd Hsent.
  destruct (createData_request_sent _ _ _ _ _ _ Hsent) as (u & _ & ->).
  change (spread_entries (VObj o)) with o. split.
  - rewrite !get_own_set.
    replace (String.eqb "approved" "type") with false by reflexivity.
    replace (String.eqb "createdAt" "type") with false by reflexivity.
    replace (String.eqb "author" "type") with false by reflexivity.
    rewrite get_own_assign_all by assumption.
    destruct (has_own o "type"); reflexivity.
  - intros k Ht Ha Hc Hp. rewrite !get_own_set.
    destruct (String.eqb_spec "approved" k); [congruence|].
    destruct (String.eqb_spec "createdAt" k); [congruence|].
    destruct (String.eqb_spec "author" k); [congruence|].
    rewrite get_own_assign_all by assumption.
    destruct (has_own o k) eqn:Hhas; [reflexivity|].
    cbn [get_own]. destruct (String.eqb_spec "type" k); [congruence|].
    symmetry. clear -Hhas. induction o as [|[k0 v0] o IH]; [reflexivity|].
    cbn [get_own has_own] in *. apply orb_false_iff in Hhas as [-> Hhas].
    now apply IH.
Qed.

(** X14. With a numeric [max_data_items] that the collection has reached,
    nothing is created: no request goes to the backend and the store stays
    as it is; a candidate that validates gets the capacity error.  The
    whole collection counts, whatever the type or the user. *)
Theorem full_collection_refuses_create (E : env) (st : state) (clk : clock)
    (type : string) (data : value) (result : sdk_result) (m : Z) :
  AppConfig_get (config E) "max_data_items" = VNum m ->
  m <= Z.of_nat (length (allData st)) ->
  (forall sent, createData_request E st clk type data <> Return sent)
  /\ fst (createData E st clk type data result) = st
  /\ (forall r, validateData (config E) (users st) type data = Return r ->
                valid r = true ->
                createData E st clk type data result
                = (st, Throw (Error "Batas maksimum data telah tercapai"))).
Proof.
  intros Hmax Hfull.
  assert (Hge : js_ge (VNum (Z.of_nat (length (allData st)))) (VNum m) = true).
  { unfold js_ge, js_less_than, ToNumber. simpl. rewrite Qltb_inject_Z.
    destruct (Z.ltb_spec (Z.of_nat (length (allData st))) m); [lia|reflexivity]. }
  assert (Hreq : forall sent, createData_request E st clk type data <> Return sent).
  { intros sent. unfold createData_request. rewrite Hmax, Hge.
    destruct (validateData _ _ _ _) as [r| |]; simpl; try discriminate.
    destruct (negb (valid r)); discriminate. }
  split; [exact Hreq|]. split.
  - unfold createData.
    destruct (createData_request E st clk type data) as [sent| |] eqn:Hr;
      [now elim (Hreq sent)|reflexivity..].
  - intros r Hr Hvalid. unfold createData, createData_request.
    rewrite Hr, Hmax, Hge. simpl. now rewrite Hvalid.
Qed.

(** X15. A create, update or delete that does not return leaves the whole
    store, cache included, as it found it. *)
Theorem failed_mutation_leaves_the_store (E : env) (clk : clock) (st st' : state)
    (r : request) (o : outcome value) :
  step E clk st r = (st', Settled o) ->
  (forall v, o <> Return v) ->
  st' = st.
Proof.
  intros Hstep Hfail.
  destruct r as [type filters|type data result|id data result|id result|data];
    simpl in Hstep.
  - destruct (getFilteredData E st clk type filters). discriminate.
  - destruct (createData E st clk type data result) as [st1 o1] eqn:Hop.
    injection Hstep as <- <-. revert Hop. unfold createData, createData_resume.
    destruct (createData_request E st clk type data);
      [destruct (isOk result)|..]; intros [= <- <-]; try reflexivity.
    now elim (Hfail (result_data result)).
  - destruct (updateData E st clk id data result) as [st1 o1] eqn:Hop.
    injection Hstep as <- <-. revert Hop. unfold updateData, updateData_resume.
    destruct (updateData_request E st clk id data);
      [destruct (isOk result)|..]; intros [= <- <-]; try reflexivity.
    now elim (Hfail (result_data result)).
  - destruct (deleteData E st id result) as [st1 o1] eqn:Hop.
    injection Hstep as <- <-. revert Hop. unfold deleteData, deleteData_resume.
    destruct (deleteData_request E st id);
      [destruct (isOk result)|..]; intros [= <- <-]; try reflexivity.
    now elim (Hfail (VBool true)).
  - discriminate.
Qed.

(** X16. An update or a delete under an identifier that no record of the
    collection carries fails with the not-found error for every user, the
    administrator included, and leaves the store as it is. *)
Theorem unknown_id_is_not_found (E : env) (st : state) (clk : clock)
    (id data : value) (result : sdk_result) :
  Forall (fun d => strict_eq (get_own d "__backendId") id = false) (allData st) ->
  updateData E st clk id data result = (st, Throw (Error "Data tidak ditemukan"))
  /\ deleteData E st id result = (st, Throw (Error "Data tidak ditemukan")).
Proof.
  intros Hnone.
  assert (Hfind : find_by_id st id = None).
  { unfold find_by_id. induction Hnone as [|d l Hd _ IH]; simpl; [reflexivity|].
    now rewrite Hd. }
  unfold updateData, deleteData, updateData_request, deleteData_request.
  rewrite Hfind. split; reflexivity.
Qed.

(** X17. The record that an update sends is the found record with the
    fields of the patch laid over it, and its updatedAt is the reading of
    the clock whatever the patch says.  No field is protected: a patch may
    rewrite the author, the approval, the type and the backend identifier. *)
Theorem update_lays_patch_over_record (E : env) (st : state) (clk : clock)
    (id : value) (patch existing sent : obj) :
  NoDup (map fst patch) ->
  find_by_id st id = Some existing ->
  updateData_request E st clk id (VObj patch) = Return sent ->
  get_own sent "updatedAt" = VStr (iso clk)
  /\ (forall k, k <> "updatedAt" ->
        get_own sent k
        = if has_own patch k then get_own patch k else get_own existing k).
Proof.
  intros Hnd Hfind. unfold updateData_request. rewrite Hfind.
  destruct (negb _); [discriminate|]. intros [= <-]. split.
  - apply get_own_set_same.
  - intros k Hk. rewrite get_own_set_other by congruence.
    now apply get_own_assign_all.
Qed.

End MutationExtras.

(** ** The credential table after a resync *)

Lemma find_last_filter {A : Type} (p q : A -> bool) (l : list A) :
  find_last q (List.filter p l) = find_last (fun x => p x && q x) l.
Proof.
  induction l as [|x l IH]; simpl; [reflexivity|].
  destruct (p x); simpl; rewrite IH; [reflexivity|].
  now destruct (find_last _ l).
Qed.

Lemma find_last_Some {A : Type} (p : A -> bool) (l : list A) (x : A) :
  In x l -> p x = true -> exists y, find_last p l = Some y /\ p y = true.
Proof.
  induction l as [|a l IH]; simpl; [tauto|].
  intros [->|Hin] Hp.
  - destruct (find_last p l) as [y|] eqn:Hl.
    + exists y. split; [reflexivity|].
      clear -Hl. induction l as [|b l IH]; simpl in Hl; [discriminate|].
      destruct (find_last p l) as [z|]; [injection Hl as ->; now apply IH|].
      destruct (p b) eqn:Hb; [now injection Hl as <-|discriminate].
    + rewrite Hp. eauto.
  - destruct (IH Hin Hp) as (y & -> & Hy). eauto.
Qed.

Lemma find_last_holds {A : Type} (p : A -> bool) (l : list A) (y : A) :
  find_last p l = Some y -> p y = true.
Proof.
  induction l as [|b l IH]; simpl; [discriminate|].
  destruct (find_last p l) as [z|]; [intros [= ->]; now apply IH|].
  destruct (p b) eqn:Hb; [now intros [= <-]|discriminate].
Qed.

Lemma get_own_fold_set {A : Type} (key : A -> string) (entry : A -> value)
    (l : list A) (table : obj) (k : string) :
  get_own (fold_left (fun t x => set_own t (key x) (entry x)) l table) k
  = match find_last (fun x => String.eqb (key x) k) l with
    | Some x => entry x
    | None => get_own table k
    end.
Proof.
  revert table. induction l as [|x l IH]; intros table; simpl; [reflexivity|].
  rewrite IH. destruct (find_last _ l); [reflexivity|].
  rewrite get_own_set. now destruct (String.eqb (key x) k).
Qed.

Lemma has_own_fold_set {A : Type} (key : A -> string) (entry : A -> value)
    (l : list A) (table : obj) (k : string) :
  has_own table k = true ->
  has_own (fold_left (fun t x => set_own t (key x) (entry x)) l table) k = true.
Proof.
  revert table. induction l as [|x l IH]; intros table Hk; simpl; [assumption|].
  apply IH. rewrite has_own_set, Hk. apply orb_true_r.
Qed.

Lemma has_own_fold_set_member {A : Type} (key : A -> string) (entry : A -> value)
    (l : list A) (table : obj) (x : A) :
  In x l ->
  has_own (fold_left (fun t x => set_own t (key x) (entry x)) l table) (key x) = true.
Proof.
  revert table. induction l as [|y l IH]; intros table; simpl; [tauto|].
  intros [->|Hin]; [|now apply IH].
  apply has_own_fold_set. rewrite has_own_set. now rewrite String.eqb_refl.
Qed.

Lemma has_own_fold_set_inv {A : Type} (key : A -> string) (entry : A -> value)
    (l : list A) (table : obj) (k : string) :
  has_own (fold_left (fun t x => set_own t (key x) (entry x)) l table) k = true ->
  has_own table k = true \/ exists x, In x l /\ key x = k.
Proof.
  revert table. induction l as [|y l IH]; intros table; simpl; [now left|].
  intros Hk. apply IH in Hk as [Hk|(x & Hin & Hx)].
  - rewrite has_own_set in Hk. apply orb_true_iff in Hk as [Hk|Hk]; [|now left].
    right. exists y. split; [now left|now apply String.eqb_eq].
  - right. exists x. split; [now right|exact Hx].
Qed.

Lemma filter_all {A : Type} (p : A -> bool) (l : list A) :
  Forall (fun x => p x = true) l -> List.filter p l = l.
Proof.
  induction 1 as [|x l Hx _ IH]; simpl; [reflexivity|]. now rewrite Hx, IH.
Qed.

(** One teacher: the conversion of the user name throws, or the entry is
    written unless the key is the accessor [__proto__]. *)
Lemma register_teacher_step (table guru : obj) :
  register_teacher table guru
  = if converts (get_own guru "username") then
      Return (if writes_key table guru
              then set_own table (user_name guru) (credentials_of guru)
              else table)
    else Throw TypeError.
Proof.
  unfold register_teacher, converted, writes_key, user_name, credentials_of.
  destruct (converts _); cbn [mbind outcome_bind]; [|reflexivity].
  destruct (String.eqb_spec (ToString (get_own guru "username")) "__proto__")
    as [->|_]; [|reflexivity].
  now destruct (has_own table "__proto__").
Qed.

Lemma writes_key_set (table guru g : obj) (v : value) :
  writes_key table guru = true ->
  writes_key (set_own table (user_name guru) v) g = writes_key table g.
Proof.
  unfold writes_key. rewrite has_own_set.
  destruct (String.eqb (user_name guru) "__proto__"); cbn [negb orb];
    [now intros ->|reflexivity].
Qed.

(** A loop that ran to its end wrote the entries of the teachers whose
    assignment writes a key, in their order. *)
Lemma register_teachers_fold (table : obj) (guruUsers : list obj) (u : unit) :
  snd (register_teachers table guruUsers) = Return u ->
  fst (register_teachers table guruUsers)
  = fold_left (fun t g => set_own t (user_name g) (credentials_of g))
      (List.filter (writes_key table) guruUsers) table.
Proof.
  revert table. induction guruUsers as [|g gs IH]; intros table;
    cbn [register_teachers]; [reflexivity|].
  rewrite register_teacher_step.
  destruct (converts (get_own g "username")); [|discriminate].
  intros Hdone. cbn [List.filter]. destruct (writes_key table g) eqn:Hw.
  - rewrite (IH _ Hdone). cbn [fold_left]. f_equal.
    apply List.filter_ext. intros a. now apply writes_key_set.
  - exact (IH _ Hdone).
Qed.

Lemma register_teachers_keeps (table : obj) (guruUsers : list obj) (k : string) :
  has_own table k = true ->
  has_own (fst (register_teachers table guruUsers)) k = true.
Proof.
  revert table. induction guruUsers as [|g gs IH]; intros table Hk;
    cbn [register_teachers]; [exact Hk|].
  rewrite register_teacher_step.
  destruct (converts (get_own g "username")); [|exact Hk].
  apply IH. destruct (writes_key table g); [|exact Hk].
  rewrite has_own_set, Hk. apply orb_true_r.
Qed.

(** Whether or not the loop ran to its end, an entry of the table is the
    one it started with or the credential of a teacher. *)
Lemma register_teachers_entry (table : obj) (guruUsers : list obj) (k : string) :
  get_own (fst (register_teachers table guruUsers)) k = get_own table k
  \/ exists guru,
       get_own (fst (register_teachers table guruUsers)) k = credentials_of guru.
Proof.
  revert table. induction guruUsers as [|g gs IH]; intros table;
    cbn [register_teachers]; [now left|].
  rewrite register_teacher_step.
  destruct (converts (get_own g "username")); [|now left].
  destruct (writes_key table g); [|apply IH].
  destruct (IH (set_own table (user_name g) (credentials_of g))) as [Hsame|Hcred];
    [|now right].
  rewrite Hsame, get_own_set.
  destruct (String.eqb (user_name g) k); [right; eauto|now left].
Qed.

Lemma updateUsersFromData_keeps (table : obj) (data : list obj) (k : string) :
  has_own table k = true \/ has_own defaultUsers k = true ->
  has_own (fst (updateUsersFromData table data)) k = true.
Proof.
  intros Hk. unfold updateUsersFromData. apply register_teachers_keeps.
  rewrite has_own_assign_all. destruct Hk as [-> | ->];
    [apply orb_true_r|reflexivity].
Qed.

Lemma defaultUsers_NoDup : NoDup (map fst defaultUsers).
Proof. apply (bool_decide_unpack _). vm_compute. reflexivity. Qed.

(** When no record registers [__proto__], every teacher's assignment writes
    a key. *)
Lemma teachers_all_written (table : obj) (data : list obj) :
  Forall (fun d => registers "__proto__" d = false) data ->
  List.filter (writes_key table) (List.filter is_teacher data)
  = List.filter is_teacher data.
Proof.
  intros Hnone. apply filter_all. apply List.Forall_forall.
  intros d [Hin Hteacher]%filter_In.
  rewrite List.Forall_forall in Hnone. specialize (Hnone d Hin).
  unfold registers in Hnone. fold (is_teacher d) in Hnone. fold (user_name d) in Hnone.
  rewrite Hteacher in Hnone. unfold writes_key. cbn [andb] in Hnone.
  now rewrite Hnone.
Qed.

Lemma updateUsersFromData_entry (table : obj) (data : list obj) (k : string)
    (u : unit) :
  snd (updateUsersFromData table data) = Return u ->
  Forall (fun d => registers "__proto__" d = false) data ->
  get_own (fst (updateUsersFromData table data)) k
  = match find_last (registers k) data with
    | Some guru => credentials_of guru
    | None => if has_own defaultUsers k then get_own defaultUsers k
              else get_own table k
    end.
Proof.
  unfold updateUsersFromData. fold is_teacher. intros Hdone Hnone.
  rewrite (register_teachers_fold _ _ u Hdone).
  rewrite teachers_all_written by assumption.
  rewrite (get_own_fold_set user_name credentials_of).
  rewrite find_last_filter.
  change (fun x : obj => is_teacher x && String.eqb (user_name x) k)
    with (registers k).
  destruct (find_last (registers k) data); [reflexivity|].
  apply get_own_assign_all, defaultUsers_NoDup.
Qed.

Section ResyncFacts.
Context {JS : Runtime}.

(** X18. A resync never removes a credential: every user name that the
    table held before, and each of the five built-in accounts, is in the
    table afterwards - also the user name of a teacher whose record is no
    longer in the collection - while the collection itself is replaced as a
    whole. *)
Theorem resync_never_removes_a_credential (E : env) (clk : clock) (st : state)
    (data : list obj) (k : string) :
  has_own (users st) k = true \/ has_own defaultUsers k = true ->
  has_own (users (handleDataChange E clk st data)) k = true
  /\ allData (handleDataChange E clk st data) = data.
Proof.
  intros Hk. destruct (handleDataChange_collection E clk st data) as [Hd Hu].
  rewrite Hd, Hu. split; [now apply updateUsersFromData_keeps|reflexivity].
Qed.

End ResyncFacts.

(** X19. After a resync that ran to its end (the user name of every teacher
    record converts to a key) and in which no teacher record carries the
    user name [__proto__], the entry of a user name is the credential of the
    last teacher record of the collection that registers the name; without
    such a record it is the built-in account of that name, restored at
    every resync, or else what the table held before. *)
Theorem resync_credential_of_last_teacher (table : obj) (data : list obj)
    (k : string) :
  snd (updateUsersFromData table data) = Return tt ->
  Forall (fun d => registers "__proto__" d = false) data ->
  (forall guru, find_last (registers k) data = Some guru ->
     get_own (fst (updateUsersFromData table data)) k = credentials_of guru
     /\ In guru data /\ registers k guru = true)
  /\ (Forall (fun d => registers k d = false) data ->
      get_own (fst (updateUsersFromData table data)) k
      = if has_own defaultUsers k then get_own defaultUsers k else get_own table k).
Proof.
  intros Hdone Hproto. split.
  - intros guru Hlast.
    rewrite (updateUsersFromData_entry _ _ _ tt Hdone Hproto), Hlast.
    split; [reflexivity|]. split; [|now apply (find_last_holds _ _ _ Hlast)].
    clear -Hlast. induction data as [|d data IH]; simpl in Hlast; [discriminate|].
    destruct (find_last (registers k) data) as [z|].
    + injection Hlast as ->. right. now apply IH.
    + destruct (registers k d); [injection Hlast as <-; now left|discriminate].
  - intros Hnone. rewrite (updateUsersFromData_entry _ _ _ tt Hdone Hproto).
    destruct (find_last (registers k) data) as [guru|] eqn:Hlast; [|reflexivity].
    exfalso. pose proof (find_last_holds _ _ _ Hlast) as Hreg.
    assert (In guru data) as Hin.
    { clear -Hlast. induction data as [|d data IH]; simpl in Hlast; [discriminate|].
      destruct (find_last (registers k) data) as [z|].
      - injection Hlast as ->. right. now apply IH.
      - destruct (registers k d); [injection Hlast as <-; now left|discriminate]. }
    rewrite List.Forall_forall in Hnone. rewrite (Hnone _ Hin) in Hreg.
    discriminate.
Qed.

Section KnownUserNames.
Context {JS : Runtime}.

(** An entry that a teacher or a built-in account has in the table carries
    no user name, so it never equals the user name of a candidate. *)
Lemma credential_is_taken (guru : obj) (username : value) :
  strict_eq VUndef username = false ->
  truthy (credentials_of guru)
  && negb (strict_eq (get_prop (credentials_of guru) "username") username) = true.
Proof.
  intros Hundef. unfold credentials_of. cbn [truthy get_prop get_own].
  replace (String.eqb "password" "username") with false by reflexivity.
  replace (String.eqb "role" "username") with false by reflexivity.
  replace (String.eqb "name" "username") with false by reflexivity.
  replace (String.eqb "nip" "username") with false by reflexivity.
  replace (String.eqb "mapel" "username") with false by reflexivity.
  now rewrite Hundef.
Qed.

Lemma built_in_is_taken (k : string) (username : value) :
  has_own defaultUsers k = true -> strict_eq VUndef username = false ->
  truthy (get_own defaultUsers k)
  && negb (strict_eq (get_prop (get_own defaultUsers k) "username") username) = true.
Proof.
  intros Hk Hv. unfold defaultUsers in *. cbn [has_own get_own] in *.
  repeat match goal with
         | |- context [String.eqb ?a k] =>
             destruct (String.eqb a k) eqn:?
         end; cbn [orb] in Hk; try discriminate;
    cbn [truthy get_prop get_own andb];
    replace (String.eqb "password" "username") with false by reflexivity;
    replace (String.eqb "role" "username") with false by reflexivity;
    replace (String.eqb "name" "username") with false by reflexivity;
    now rewrite Hv.
Qed.

Lemma username_taken_after_resync (table : obj) (data : list obj) (username : value) :
  truthy username = true ->
  has_own defaultUsers (ToString username) = true
  \/ (snd (updateUsersFromData table data) = Return tt
      /\ exists guru, In guru data /\ registers (ToString username) guru = true) ->
  username_taken (fst (updateUsersFromData table data)) username = true.
Proof.
  intros Htruthy Hknown. unfold username_taken.
  assert (Hundef : strict_eq VUndef username = false).
  { destruct username; simpl in *; congruence. }
  destruct Hknown as [Hseed|(Hdone & guru & Hin & Hreg)].
  - rewrite updateUsersFromData_keeps by now right.
    unfold updateUsersFromData.
    destruct (register_teachers_entry (assign_all table defaultUsers)
                (List.filter
                   (fun d => strict_eq (get_own d "type") (VStr "guru")
                             && truthy (get_own d "username")
                             && truthy (get_own d "password")) data)
                (ToString username)) as [-> | [g ->]].
    + rewrite get_own_assign_all by apply defaultUsers_NoDup.
      rewrite Hseed. now apply built_in_is_taken.
    + now apply credential_is_taken.
  - unfold updateUsersFromData in *. fold is_teacher in *.
    rewrite (register_teachers_fold _ _ tt Hdone).
    set (t0 := assign_all table defaultUsers) in *.
    set (written := List.filter (writes_key t0) (List.filter is_teacher data)).
    assert (Hteacher : is_teacher guru = true
                       /\ user_name guru = ToString username).
    { unfold registers in Hreg. fold (is_teacher guru) in Hreg.
      fold (user_name guru) in Hreg.
      apply andb_true_iff in Hreg as [Ht Hk]. now apply String.eqb_eq in Hk. }
    destruct Hteacher as [Hteacher Hname].
    destruct (writes_key t0 guru) eqn:Hw.
    + assert (Hmember : In guru written).
      { apply filter_In. split; [|exact Hw]. now apply filter_In. }
      pose proof (has_own_fold_set_member user_name credentials_of written t0
                    guru Hmember) as Hown.
      rewrite Hname in Hown. rewrite Hown.
      rewrite (get_own_fold_set user_name credentials_of).
      destruct (find_last_Some (fun x => String.eqb (user_name x) (ToString username))
                  written guru Hmember) as (y & -> & _);
        [now apply String.eqb_eq|].
      now apply credential_is_taken.
    + unfold writes_key in Hw. apply orb_false_iff in Hw as [Hproto Hnot].
      apply negb_false_iff, String.eqb_eq in Hproto.
      rewrite Hname in Hproto. rewrite Hproto.
      destruct (has_own (fold_left _ written t0) "__proto__") eqn:Hown;
        [|reflexivity].
      exfalso. apply has_own_fold_set_inv in Hown as [Hown|(x & Hx & Hkey)];
        [congruence|].
      apply filter_In in Hx as [_ Hx]. unfold writes_key in Hx.
      rewrite Hkey, Hnot in Hx. discriminate.
Qed.

(** X20. After a resync no teacher can be validated under a user name that
    the table knows: the name of a built-in account, or - when the resync
    ran to its end - the user name of a teacher record of the collection,
    the teacher's own record included, because the entries of the table
    carry no user name to compare with. *)
Theorem known_username_never_validates (config : value) (table : obj)
    (data : list obj) (candidate : value) (r : vresult) :
  has_own defaultUsers (ToString (get_prop candidate "username")) = true
  \/ (snd (updateUsersFromData table data) = Return tt
      /\ exists guru,
           In guru data
           /\ registers (ToString (get_prop candidate "username")) guru = true) ->
  validateGuruData config (fst (updateUsersFromData table data)) candidate = Return r ->
  valid r = false.
Proof.
  intros Hknown.
  pose proof (validateGuruData_loop config (fst (updateUsersFromData table data)))
    as (Hnull & Hmiss & _).
  destruct (nullish candidate) eqn:Hn.
  { rewrite Hnull by assumption. discriminate. }
  destruct (List.find (missing candidate)
              ["title"; "nip"; "mapel"; "role"; "username"; "password"])
    as [field|] eqn:Hfind.
  { rewrite (Hmiss _ _ Hn Hfind). now intros [= <-]. }
  unfold validateGuruData.
  rewrite required_loop_all_present by assumption.
  rewrite !get_member_value by assumption. cbn [mbind outcome_bind].
  destruct (converted (get_prop candidate "nip")) as [[]| |];
    cbn [mbind outcome_bind]; try discriminate.
  destruct (negb (test_digits 18 (get_prop candidate "nip")));
    [now intros [= <-]|].
  destruct (validatePassword config (get_prop candidate "password"))
    as [pv| |]; cbn [mbind outcome_bind]; try discriminate.
  destruct (valid pv) eqn:Hpv; cbn [negb]; [|now intros [= <-]].
  destruct (converted (get_prop candidate "username")) as [[]| |];
    cbn [mbind outcome_bind]; try discriminate.
  rewrite username_taken_after_resync; [now intros [= <-]| |exact Hknown].
  eapply find_missing_none; [exact Hfind|]. simpl. tauto.
Qed.

End KnownUserNames.

(** A resync that throws at a teacher record registers no later teacher:
    the cache keeps its entries, and the user name of the later teacher is
    still free. *)
Lemma resync_that_throws_stops_registering :
  snd (updateUsersFromData [] [nameless_teacher; teacher_record]) = Throw TypeError
  /\ has_own (fst (updateUsersFromData [] [nameless_teacher; teacher_record])) "budi"
     = false
  /\ cache (handleDataChange (JS := reference_runtime) plans_page
              (at_time 1000 "2024-06-01T00:00:00.000Z") store_with_entry
              [nameless_teacher; teacher_record]) !! "intra_{}"
     = Some cached_entry
  /\ validateGuruData (JS := reference_runtime) AppConfig_defaults
       (fst (updateUsersFromData [] [nameless_teacher; teacher_record]))
       (VObj teacher_fields)
     = Return pass.
Proof. repeat split; vm_compute; reflexivity. Qed.

(** ** Texts: replacing, joining and splitting *)

#[local] Arguments String.append !_ _ / : simpl nomatch.

Lemma string_chars_app (a b : string) :
  string_chars (a ++ b) = (string_chars a ++ string_chars b)%list.
Proof. induction a as [|c a IH]; simpl; [reflexivity|]. now rewrite IH. Qed.

Lemma string_chars_inj (a b : string) : string_chars a = string_chars b -> a = b.
Proof.
  intros Heq. rewrite <- (string_of_list_ascii_of_string a).
  rewrite <- (string_of_list_ascii_of_string b).
  unfold string_chars in Heq. now rewrite Heq.
Qed.

Lemma string_app_inv_tail (a b q : string) : a ++ q = b ++ q -> a = b.
Proof.
  intros Heq. apply string_chars_inj.
  apply (f_equal string_chars) in Heq. rewrite !string_chars_app in Heq.
  now apply app_inv_tail in Heq.
Qed.









(** ** The CSV export *)

Lemma double_quotes_inj (s1 s2 : string) :
  replace_char double_quote (String double_quote (char_string double_quote)) s1
  = replace_char double_quote (String double_quote (char_string double_quote)) s2 ->
  s1 = s2.
Proof.
  revert s2. induction s1 as [|a s1 IH]; intros [|b s2]; simpl.
  - reflexivity.
  - destruct (Ascii.eqb b double_quote); discriminate.
  - destruct (Ascii.eqb a double_quote); discriminate.
  - destruct (Ascii.eqb_spec a double_quote) as [->|Ha],
             (Ascii.eqb_spec b double_quote) as [->|Hb]; simpl.
    + intros [= Heq]. f_equal. now apply IH.
    + intros [= <- _]. contradiction.
    + intros [= -> _]. contradiction.
    + intros [= -> Heq]. f_equal. now apply IH.
Qed.

(** X21. The escaping of a cell loses nothing: two different texts never give
    the same cell. *)
Theorem csv_cells_tell_texts_apart (s1 s2 : string) :
  s1 <> s2 -> csv_cell (VStr s1) <> csv_cell (VStr s2).
Proof.
  assert (Hcell : forall s,
            csv_cell (VStr s)
            = String double_quote
                (replace_char double_quote
                   (String double_quote (char_string double_quote)) s
                 ++ char_string double_quote)).
  { intros s. unfold csv_cell, js_or. simpl.
    destruct (String.eqb_spec s EmptyString) as [->|_]; reflexivity. }
  intros Hne. rewrite !Hcell. intros [= Heq]. apply Hne.
  apply string_app_inv_tail in Heq. now apply double_quotes_inj.
Qed.




(** ** The sanitizer *)




(** ** The rate limiter *)

Section RateLimiter.
Variables (maxAttempts windowMs : option Z).

Local Abbreviation limit := (default 5 maxAttempts).
Local Abbreviation window := (default 60000 windowMs).
Local Abbreviation within := (recent (default 60000 windowMs)).

Lemma within_later (t T : Z) (times : list Z) :
  t <= T -> within T (within t times) = within T times.
Proof.
  intros Hle. unfold recent. rewrite filter_filter_and.
  apply filter_ext. intros x.
  destruct (Z.ltb_spec (t - x) window), (Z.ltb_spec (T - x) window);
    simpl; try reflexivity. exfalso. lia.
Qed.

Lemma recent_app (w T : Z) (a b : list Z) :
  recent w T (a ++ b) = (recent w T a ++ recent w T b)%list.
Proof. unfold recent. apply List.filter_app. Qed.

Lemma recorded_insert_eq (attempts : gmap string (list Z)) (k : string)
    (l : list Z) :
  recorded (<[k := l]> attempts) k = l.
Proof. unfold recorded. now rewrite lookup_insert_eq. Qed.

Lemma recorded_insert_ne (attempts : gmap string (list Z)) (k k' : string)
    (l : list Z) :
  k <> k' -> recorded (<[k := l]> attempts) k' = recorded attempts k'.
Proof. intros Hne. unfold recorded. now rewrite lookup_insert_ne. Qed.

Lemma isAllowed_cases (attempts : gmap string (list Z)) (t : Z) (key : string) :
  (stored_attempts attempts key = None
   /\ isAllowed attempts t key maxAttempts windowMs = (attempts, Throw TypeError))
  \/ (stored_attempts attempts key = Some (recorded attempts key)
      /\ limit <= Z.of_nat (length (within t (recorded attempts key)))
      /\ isAllowed attempts t key maxAttempts windowMs
         = (<[key := within t (recorded attempts key)]> attempts, Return false))
  \/ (stored_attempts attempts key = Some (recorded attempts key)
      /\ Z.of_nat (length (within t (recorded attempts key))) < limit
      /\ isAllowed attempts t key maxAttempts windowMs
         = (<[key := (within t (recorded attempts key) ++ [t])%list]> attempts,
            Return true)).
Proof.
  unfold isAllowed, stored_attempts, recorded.
  destruct (attempts !! key) as [l|]; simpl.
  - fold (recent window t l).
    destruct (Z.geb_spec (Z.of_nat (length (within t l))) limit);
      [right; left|right; right]; repeat split; lia.
  - destruct (inherited key); [left; split; reflexivity|]. simpl.
    change (Z.of_nat 0) with 0.
    destruct (Z.geb_spec 0 limit);
      [right; left|right; right]; repeat split; lia.
Qed.

Lemma limiter_run_allowance (times : list Z) (attempts : gmap string (list Z))
    (key : string) :
  stored_attempts attempts key = Some (recorded attempts key) ->
  Z.of_nat (length (recorded attempts key)) + Z.of_nat (length times) <= limit ->
  snd (limiter_run attempts maxAttempts windowMs (map (fun t => (t, key)) times))
  = map (fun _ => Return true) times.
Proof.
  revert attempts. induction times as [|t times IH]; intros attempts Hs Hroom;
    [reflexivity|].
  cbn [map limiter_run].
  pose proof (length_filter_le (fun x => t - x <? window) (recorded attempts key))
    as Hlen. fold (recent window t (recorded attempts key)) in Hlen.
  destruct (isAllowed_cases attempts t key)
    as [[Hnone _]|[(_ & Hfull & _)|(_ & _ & ->)]].
  - congruence.
  - simpl length in Hroom. lia.
  - specialize (IH (<[key := (within t (recorded attempts key) ++ [t])%list]> attempts)).
    destruct (limiter_run _ maxAttempts windowMs (map (fun t0 => (t0, key)) times))
      as [a' rs] eqn:Hrun.
    simpl. f_equal. apply IH.
    + unfold stored_attempts, recorded. now rewrite lookup_insert_eq.
    + unfold recorded at 1. rewrite lookup_insert_eq. simpl.
      rewrite length_app. simpl length in *. lia.
Qed.

(** X24. After [reset(key)] the key has its whole allowance again: the next
    calls on the key, up to the limit, are all allowed, whatever was
    recorded before and whenever they come. *)
Theorem reset_restores_the_allowance (attempts : gmap string (list Z))
    (key : string) (times : list Z) :
  inherited key = false ->
  Z.of_nat (length times) <= default 5 maxAttempts ->
  snd (limiter_run (reset attempts key) maxAttempts windowMs
         (map (fun t => (t, key)) times))
  = map (fun _ => Return true) times.
Proof.
  intros Hkey Hroom. apply limiter_run_allowance.
  - unfold stored_attempts, recorded, reset. rewrite lookup_delete_eq.
    now rewrite Hkey.
  - unfold recorded, reset. rewrite lookup_delete_eq. simpl. lia.
Qed.

Lemma limiter_run_invariant (calls : list (Z * string))
    (attempts : gmap string (list Z)) (earlier : string -> list Z) (T0 T : Z)
    (key : string) :
  0 <= limit ->
  StronglySorted Z.le (map fst calls) ->
  Forall (fun c => T0 <= fst c /\ fst c <= T) calls ->
  T0 <= T ->
  (forall k, Z.of_nat (length (recorded attempts k)) <= limit
             /\ forall T', T0 <= T' ->
                  within T' (recorded attempts k) = within T' (earlier k)) ->
  Z.of_nat (length (within T
              (earlier key
               ++ allowed_times key calls
                    (snd (limiter_run attempts maxAttempts windowMs calls)))))
  <= limit.
Proof.
  intros Hlimit. revert attempts earlier T0.
  induction calls as [|[t k0] calls IH]; intros attempts earlier T0 Hsorted Hrange HT Hinv.
  - simpl. rewrite app_nil_r. destruct (Hinv key) as [Hlen Hsame].
    rewrite <- (Hsame T HT).
    pose proof (length_filter_le (fun x => T - x <? window) (recorded attempts key)).
    unfold recent. lia.
  - cbn [limiter_run].
    apply StronglySorted_inv in Hsorted as [Hsorted Hhead]. simpl in Hhead.
    inversion Hrange as [|? ? [Ht0 HtT] Hrange']; subst. simpl in Ht0, HtT.
    assert (Hrange'' : Forall (fun c => t <= fst c /\ fst c <= T) calls).
    { rewrite List.Forall_forall in Hhead, Hrange' |- *. intros c Hc.
      split; [apply Hhead, in_map, Hc|apply Hrange', Hc]. }
    destruct (isAllowed_cases attempts t k0)
      as [[_ ->]|[(_ & Hfull & ->)|(_ & Hfree & ->)]].
    + destruct (limiter_run attempts maxAttempts windowMs calls) as [a' rs] eqn:Hrun.
      cbn [snd allowed_times allowed]. rewrite andb_false_r. simpl app.
      specialize (IH attempts earlier t Hsorted Hrange'' HtT).
      rewrite Hrun in IH. apply IH.
      intros k. destruct (Hinv k) as [Hlen Hsame]. split; [assumption|].
      intros T' HT'. apply Hsame. lia.
    + destruct (limiter_run (<[k0 := within t (recorded attempts k0)]> attempts)
                  maxAttempts windowMs calls) as [a' rs] eqn:Hrun.
      cbn [snd allowed_times allowed]. rewrite andb_false_r. simpl app.
      specialize (IH (<[k0 := within t (recorded attempts k0)]> attempts)
                    earlier t Hsorted Hrange'' HtT).
      rewrite Hrun in IH. apply IH.
      intros k. destruct (Hinv k) as [Hlen Hsame].
      destruct (decide (k0 = k)) as [<-|Hne].
      * rewrite recorded_insert_eq. split.
        -- pose proof (length_filter_le (fun x => t - x <? window)
                         (recorded attempts k0)). unfold recent. lia.
        -- intros T' HT'. rewrite within_later by assumption.
           apply Hsame. lia.
      * rewrite recorded_insert_ne by assumption. split; [assumption|].
        intros T' HT'. apply Hsame. lia.
    + destruct (limiter_run
                  (<[k0 := (within t (recorded attempts k0) ++ [t])%list]> attempts)
                  maxAttempts windowMs calls) as [a' rs] eqn:Hrun.
      cbn [snd allowed_times allowed]. rewrite andb_true_r.
      specialize (IH (<[k0 := (within t (recorded attempts k0) ++ [t])%list]> attempts)
                    (fun k => if String.eqb k0 k then (earlier k ++ [t])%list
                              else earlier k)
                    t Hsorted Hrange'' HtT).
      rewrite Hrun in IH. cbn [snd] in IH. cbv beta in IH.
      destruct (String.eqb_spec k0 key) as [->|Hk].
      * rewrite <- app_assoc in IH.
        apply IH. intros k. destruct (Hinv k) as [Hlen Hsame].
        destruct (decide (key = k)) as [<-|Hne].
        -- rewrite recorded_insert_eq, String.eqb_refl. split.
           ++ rewrite length_app. simpl length. lia.
           ++ intros T' HT'. rewrite !recent_app, within_later by assumption.
              f_equal. apply Hsame. lia.
        -- rewrite recorded_insert_ne by assumption.
           destruct (String.eqb_spec key k); [contradiction|].
           split; [assumption|]. intros T' HT'. apply Hsame. lia.
      * simpl app. apply IH. intros k. destruct (Hinv k) as [Hlen Hsame].
        destruct (decide (k0 = k)) as [<-|Hne].
        -- rewrite recorded_insert_eq, String.eqb_refl. split.
           ++ rewrite length_app. simpl length. lia.
           ++ intros T' HT'. rewrite !recent_app, within_later by assumption.
              f_equal. apply Hsame. lia.
        -- rewrite recorded_insert_ne by assumption.
           destruct (String.eqb_spec k0 k); [contradiction|].
           split; [assumption|]. intros T' HT'. apply Hsame. lia.
Qed.

(** X25. The limit holds: in any series of calls with a clock that does not
    run backwards, starting with nothing recorded, the calls on one key that
    were allowed and lie within the window before a time [T] are never more
    than the limit. *)
Theorem rate_limit_is_kept (calls : list (Z * string)) (key : string) (T : Z) :
  0 <= default 5 maxAttempts ->
  StronglySorted Z.le (map fst calls) ->
  Forall (fun c => fst c <= T) calls ->
  Z.of_nat (length
              (recent (default 60000 windowMs) T
                 (allowed_times key calls
                    (snd (limiter_run ∅ maxAttempts windowMs calls)))))
  <= default 5 maxAttempts.
Proof.
  intros Hlimit Hsorted Hbefore.
  destruct calls as [|[t0 k0] calls'] eqn:Hcalls; [simpl; exact Hlimit|].
  rewrite <- Hcalls in *.
  assert (Hfirst : Forall (fun c => t0 <= fst c /\ fst c <= T) calls).
  { subst calls. apply StronglySorted_inv in Hsorted as [_ Hhead].
    simpl in Hhead. constructor.
    - inversion Hbefore; subst. simpl in *. lia.
    - inversion Hbefore as [|? ? _ Hrest]; subst.
      rewrite List.Forall_forall in Hhead, Hrest |- *. intros c Hc.
      split; [apply Hhead, in_map, Hc|apply Hrest, Hc]. }
  apply (limiter_run_invariant calls ∅ (fun _ => []) t0 T key Hlimit Hsorted Hfirst).
  - subst calls. inversion Hbefore; subst. simpl in *. lia.
  - intros k. unfold recorded. rewrite lookup_empty. simpl.
    split; [exact Hlimit|reflexivity].
Qed.

End RateLimiter.

(** ** The configuration: writing, reading and loading *)

Lemma split_on_not_empty (sep : ascii) (s : string) : split_on sep s <> [].
Proof.
  destruct s as [|c s]; simpl; [discriminate|].
  destruct (Ascii.eqb c sep); [discriminate|].
  destruct (split_on sep s); discriminate.
Qed.

Lemma pop_last_rebuilds (keys : list string) :
  keys <> [] ->
  (fst (pop_last keys) ++ [snd (pop_last keys)])%list = keys.
Proof. intros Hne. unfold pop_last. simpl. symmetry. now apply app_removelast_last. Qed.

Lemma path_clear_fresh (keys : list string) : path_clear keys (VObj []) = true.
Proof. destruct keys; reflexivity. Qed.

Lemma path_clear_object (keys : list string) (obj : value) :
  path_clear keys obj = true -> exists o, obj = VObj o.
Proof. destruct obj, keys; simpl; try discriminate; eauto. Qed.

Lemma not_inherited_not_proto (k : string) :
  inherited k = false -> String.eqb k "__proto__" = false.
Proof.
  intros Hk. destruct (String.eqb_spec k "__proto__") as [->|]; [|reflexivity].
  vm_compute in Hk. discriminate.
Qed.

(** On a clear path whose segments are no names of [Object.prototype] the
    walk of [AppConfig.set] ends, and reading the same path afterwards finds
    the value. *)
Lemma set_along_then_get (keys : list string) (lastKey : string) (v obj : value) :
  Forall (fun k => inherited k = false) keys ->
  inherited lastKey = false ->
  path_clear keys obj = true ->
  exists o',
    set_along obj keys lastKey v = Return (VObj o')
    /\ fold_left get_optional (keys ++ [lastKey])%list (VObj o') = v.
Proof.
  intros Hkeys Hlast. revert obj.
  induction Hkeys as [|i keys Hi Hkeys IH]; intros obj Hclear.
  - destruct (path_clear_object _ _ Hclear) as [o ->].
    exists (set_own o lastKey v). cbn [set_along].
    rewrite (not_inherited_not_proto _ Hlast), andb_false_r.
    split; [reflexivity|].
    simpl. apply get_own_set_same.
  - destruct (path_clear_object _ _ Hclear) as [o ->].
    cbn [set_along]. rewrite Hi, andb_false_r.
    set (child := if truthy (get_own o i) then get_own o i else VObj []).
    assert (Hchild : path_clear keys child = true).
    { subst child. simpl in Hclear.
      destruct (truthy (get_own o i)); [exact Hclear|apply path_clear_fresh]. }
    destruct (IH child Hchild) as (c' & -> & Hget).
    exists (set_own o i (VObj c')). split; [reflexivity|].
    cbn [app fold_left get_optional get_prop]. now rewrite get_own_set_same.
Qed.

(** The walk changes the first segment of its path only. *)
Lemma set_along_other_keys (keys : list string) (lastKey : string) (v : value)
    (o o' : obj) (k : string) :
  set_along (VObj o) keys lastKey v = Return (VObj o') ->
  k <> hd lastKey keys ->
  get_own o' k = get_own o k.
Proof.
  destruct keys as [|i keys]; cbn [set_along hd].
  - destruct (negb (has_own o lastKey) && String.eqb lastKey "__proto__");
      [discriminate|].
    intros [= <-] Hk. now apply get_own_set_other.
  - destruct (negb (has_own o i) && inherited i); [discriminate|].
    destruct (set_along _ keys lastKey v) as [c'| |]; cbn [mbind outcome_bind];
      try discriminate.
    intros [= <-] Hk. now apply get_own_set_other.
Qed.

(** X26. Writing a setting and reading it back gives the value written,
    also when the path did not exist before, as long as no segment of the
    key is a name of [Object.prototype] and the path runs through objects
    only (every truthy value met on the way is an object). *)
Theorem config_set_then_get (current : value) (key : string) (v : value) :
  Forall (fun k => inherited k = false) (split_on "." key) ->
  path_clear (fst (pop_last (split_on "." key))) current = true ->
  exists current',
    AppConfig_set current key v = Return current'
    /\ AppConfig_get current' key = v.
Proof.
  intros Hnames Hclear. unfold AppConfig_set, AppConfig_get.
  pose proof (pop_last_rebuilds (split_on "." key) (split_on_not_empty _ _)) as Hkeys.
  destruct (pop_last (split_on "." key)) as [keys lastKey]. simpl in Hkeys, Hclear.
  rewrite <- Hkeys in Hnames |- *.
  apply Forall_app in Hnames as [Hnames Hlast].
  apply Forall_inv in Hlast.
  destruct (set_along_then_get keys lastKey v current Hnames Hlast Hclear)
    as (o' & -> & Hget).
  eauto.
Qed.

(** X27. Writing a setting leaves every setting under another top-level key
    as it was, in a configuration whose sections are objects of their own,
    as those of the defaults and of a parsed text are. *)
Theorem config_set_keeps_other_settings (current : obj) (key other : string)
    (v : value) (current' : obj) :
  AppConfig_set (VObj current) key v = Return (VObj current') ->
  hd EmptyString (split_on "." other) <> hd EmptyString (split_on "." key) ->
  AppConfig_get (VObj current') other = AppConfig_get (VObj current) other.
Proof.
  unfold AppConfig_set, AppConfig_get. intros Hset Hother.
  pose proof (pop_last_rebuilds (split_on "." key) (split_on_not_empty _ _)) as Hkeys.
  destruct (pop_last (split_on "." key)) as [keys lastKey]. simpl in Hkeys.
  assert (Hhd : hd EmptyString (split_on "." key) = hd lastKey keys).
  { rewrite <- Hkeys. now destruct keys. }
  rewrite Hhd in Hother.
  destruct (split_on "." other) as [|k ks] eqn:Hsplit;
    [now elim (split_on_not_empty "." other)|].
  cbn [fold_left get_optional get_prop hd] in *.
  now rewrite (set_along_other_keys keys lastKey v current current' k Hset Hother).
Qed.

Lemma assign_all_to_empty (o : obj) (k : string) :
  NoDup (map fst o) -> get_own (assign_all [] o) k = get_own o k.
Proof.
  intros Hnd. rewrite get_own_assign_all by assumption.
  destruct (has_own o k) eqn:Hhas; [reflexivity|].
  clear -Hhas. induction o as [|[k0 v0] o IH]; [reflexivity|].
  cbn [get_own has_own] in *. apply orb_false_iff in Hhas as [-> Hhas].
  now apply IH.
Qed.

(** X28. Loading merges the stored configuration over the defaults at the
    top level only: a setting is read from the stored object as soon as that
    object has the first segment of its path, and from the defaults
    otherwise, so a stored section hides every default of that section that
    it does not repeat.  With nothing stored, or a text that does not parse,
    the defaults are read. *)
Theorem config_load_merges_top_level (defaults parsed : obj) (key : string)
    (e : exn) :
  NoDup (map fst defaults) -> NoDup (map fst parsed) ->
  AppConfig_get (AppConfig_load (VObj defaults) (Some (Return (VObj parsed)))) key
  = (if has_own parsed (hd EmptyString (split_on "." key))
     then AppConfig_get (VObj parsed) key
     else AppConfig_get (VObj defaults) key)
  /\ AppConfig_get (AppConfig_load (VObj defaults) None) key
     = AppConfig_get (VObj defaults) key
  /\ AppConfig_get (AppConfig_load (VObj defaults) (Some (Throw e))) key
     = AppConfig_get (VObj defaults) key.
Proof.
  intros Hd Hp. unfold AppConfig_get, AppConfig_load.
  destruct (split_on "." key) as [|k ks] eqn:Hsplit;
    [now elim (split_on_not_empty "." key)|].
  cbn [fold_left get_optional get_prop hd spread_entries].
  rewrite get_own_assign_all by assumption.
  rewrite !assign_all_to_empty by assumption.
  repeat split. now destruct (has_own parsed k).
Qed.

Section ConfiguredPassword.
Context {JS : Runtime}.

(** X29. A minimum length written with [AppConfig.set] is the minimum that
    [validatePassword] enforces from then on: a shorter password is rejected
    with the message that names the new minimum. *)
Theorem configured_minimum_is_enforced (current : value) (n : Z) (s : string) :
  path_clear ["security"] current = true ->
  Z.of_nat (String.length s) < n ->
  exists current',
    AppConfig_set current "security.password_min_length" (VNum n) = Return current'
    /\ validatePassword current' (VStr s)
       = Return (fail ("Password minimal " ++ ZToString n ++ " karakter")).
Proof.
  intros Hclear Hshort.
  destruct (set_along_then_get ["security"] "password_min_length" (VNum n)
              current ltac:(repeat constructor) eq_refl Hclear)
    as (o' & Hset & Hget).
  exists (VObj o'). split; [exact Hset|].
  unfold validatePassword.
  change (AppConfig_get (VObj o') "security.password_min_length")
    with (fold_left get_optional ["security"; "password_min_length"] (VObj o')).
  change (["security"] ++ ["password_min_length"])%list
    with ["security"; "password_min_length"] in Hget.
  rewrite Hget. cbn [get_member get_prop].
  replace (String.eqb "length" "length") with true by reflexivity.
  cbn [mbind outcome_bind]. rewrite js_lt_numbers.
  apply Z.ltb_lt in Hshort. now rewrite Hshort.
Qed.

End ConfiguredPassword.

(** ** The further properties on concrete stores *)

(** X1, the witness: an entry written at time 1000 is served at time 2000. *)
Lemma cache_entry_served_until_ttl_witness :
  getCachedData (JS := reference_runtime) (session admin_user)
    (setCachedData (session admin_user) store_with_pending
       (at_time 1000 "2024-06-01T00:00:00.000Z") "intra_{}" [pending_plan])
    (at_time 2000 "2024-06-01T00:00:01.000Z") "intra_{}"
  = Some [pending_plan].
Proof.
  exact (proj1 (cache_entry_served_until_ttl (JS := reference_runtime)
                  (session admin_user) store_with_pending
                  (at_time 1000 "2024-06-01T00:00:00.000Z")
                  (at_time 2000 "2024-06-01T00:00:01.000Z")
                  "intra_{}" [pending_plan] 300000 eq_refl eq_refl)).
Defined.

(** X2, the witness: a query with the cache switched off. *)
Lemma cache_switched_off_witness :
  getFilteredData (JS := reference_runtime)
    (session_with config_without_cache admin_user) store_with_pending
    (at_time 1000 "2024-06-01T00:00:00.000Z") "intra" []
  = (store_with_pending,
     compute_filtered (JS := reference_runtime)
       (session_with config_without_cache admin_user) store_with_pending "intra" []).
Proof.
  exact (proj2 (proj2 (cache_switched_off (JS := reference_runtime)
                         (session_with config_without_cache admin_user)
                         store_with_pending
                         (at_time 1000 "2024-06-01T00:00:00.000Z")
                         "intra_{}" "intra" [] [] eq_refl))).
Defined.

(** X3, the witness: the teacher asks twice within a minute. *)
Lemma repeated_query_is_served_from_cache_witness :
  getFilteredData (JS := reference_runtime) (session guru_user)
    (fst (getFilteredData (JS := reference_runtime) (session guru_user)
            store_with_grades (at_time 1000 "2024-06-01T00:00:00.000Z") "nilai" []))
    (at_time 61000 "2024-06-01T00:01:00.000Z") "nilai" []
  = (fst (getFilteredData (JS := reference_runtime) (session guru_user)
            store_with_grades (at_time 1000 "2024-06-01T00:00:00.000Z") "nilai" []),
     snd (getFilteredData (JS := reference_runtime) (session guru_user)
            store_with_grades (at_time 1000 "2024-06-01T00:00:00.000Z") "nilai" [])).
Proof.
  apply (repeated_query_is_served_from_cache (JS := reference_runtime)
           (session guru_user) (session guru_user) store_with_grades
           (at_time 1000 "2024-06-01T00:00:00.000Z")
           (at_time 61000 "2024-06-01T00:01:00.000Z") "nilai" [] 300000);
    reflexivity.
Defined.

(** X4, the witness: a sweep at time 1000 and a lookup at time 2000. *)
Lemma sweep_keeps_what_is_served_witness :
  getCachedData (JS := reference_runtime) (session admin_user)
    (sweepCache (JS := reference_runtime) (session admin_user) store_with_entry
       (at_time 1000 "2024-06-01T00:00:00.000Z"))
    (at_time 2000 "2024-06-01T00:00:01.000Z") "intra_{}"
  = getCachedData (JS := reference_runtime) (session admin_user) store_with_entry
      (at_time 2000 "2024-06-01T00:00:01.000Z") "intra_{}".
Proof.
  apply (sweep_keeps_what_is_served (JS := reference_runtime)).
  simpl. lia.
Defined.

(** X5, the witness: an entry of age 300000, the default time to live. *)
Lemma sweep_removes_the_expired_witness :
  cache (sweepCache (JS := reference_runtime) (session admin_user) store_with_entry
           (at_time 300000 "2024-06-01T00:05:00.000Z")) !! "intra_{}"
  = Some cached_entry
  /\ getCachedData (JS := reference_runtime) (session admin_user) store_with_entry
       (at_time 300000 "2024-06-01T00:05:00.000Z") "intra_{}" = None.
Proof.
  apply (proj2 (sweep_removes_the_expired (JS := reference_runtime)
                  (session admin_user) store_with_entry
                  (at_time 300000 "2024-06-01T00:05:00.000Z") "intra_{}"
                  cached_entry 300000 eq_refl)); reflexivity.
Defined.

(** X6, the witness: the mathematics teacher lists the grades. *)
Lemma teacher_sees_own_records_witness :
  Forall (fun d => strict_eq (get_own d "author") (VStr "Guru Matematika") = true)
    (snd (getFilteredData (JS := reference_runtime) (session guru_user)
            store_with_grades (at_time 1000 "2024-06-01T00:00:00.000Z") "nilai" [])).
Proof.
  apply (teacher_sees_own_records (JS := reference_runtime) (session guru_user)
           store_with_grades (at_time 1000 "2024-06-01T00:00:00.000Z") "nilai" []
           guru_user eq_refl (or_introl eq_refl) eq_refl).
Defined.

(** X7, the witness: a visitor with an unknown role gets the plan that
    nobody approved. *)
Lemma other_roles_see_every_record_witness :
  Permutation
    (List.filter (passes_filters [])
       (List.filter (of_type "intra") (allData store_with_pending)))
    (snd (getFilteredData (JS := reference_runtime) (session guest_user)
            store_with_pending (at_time 1000 "2024-06-01T00:00:00.000Z") "intra" [])).
Proof.
  apply (other_roles_see_every_record (JS := reference_runtime)).
  - repeat split.
  - reflexivity.
Defined.

(** X8, the witness: the list of the administrator. *)
Lemma query_returns_records_of_the_type_witness :
  Forall (fun d => In d (allData store_with_grades) /\ of_type "nilai" d = true)
    (snd (getFilteredData (JS := reference_runtime) (session admin_user)
            store_with_grades (at_time 1000 "2024-06-01T00:00:00.000Z") "nilai" [])).
Proof.
  apply (proj1 (query_returns_records_of_the_type (JS := reference_runtime)
                  (session admin_user) store_with_grades
                  (at_time 1000 "2024-06-01T00:00:00.000Z") "nilai" [])).
  reflexivity.
Defined.

(** X9, the witness: two filters on the grades, one of them on a dotted
    path, in either order. *)
Lemma filters_select_exact_matches_witness :
  compute_filtered (JS := reference_runtime) (session admin_user) store_with_grades
    "nilai" [("author.length", VNum 15); ("student_name", VStr "A")]
  = compute_filtered (JS := reference_runtime) (session admin_user)
      store_with_grades "nilai"
      [("student_name", VStr "A"); ("author.length", VNum 15)]
  /\ compute_filtered (JS := reference_runtime) (session admin_user)
       store_with_grades "nilai"
       [("student_name", VStr "A"); ("author.length", VNum 15)]
     = [grade_updated].
Proof.
  split; [|vm_compute; reflexivity].
  apply (proj2 (filters_select_exact_matches (JS := reference_runtime)
                  (session admin_user) store_with_grades "nilai"
                  [("student_name", VStr "A"); ("author.length", VNum 15)]
                  ltac:(apply (bool_decide_unpack _); vm_compute; reflexivity)
                  ltac:(repeat constructor))).
  apply perm_swap.
Defined.

(** X10, the witness: the count of the grades and the list of the student. *)
Lemma statistic_bounds_every_query_witness :
  exists count,
    get_own (getStatistics store_with_grade) "nilai" = VNum count
    /\ Z.of_nat (length (snd (getFilteredData (JS := reference_runtime)
                                (session siswa_user) store_with_grade
                                (at_time 1000 "2024-06-01T00:00:00.000Z")
                                "nilai" [])))
       <= count
    /\ (unrestricted (session siswa_user) -> @nil (string * value) = [] ->
        Z.of_nat (length (snd (getFilteredData (JS := reference_runtime)
                                 (session siswa_user) store_with_grade
                                 (at_time 1000 "2024-06-01T00:00:00.000Z")
                                 "nilai" [])))
        = count).
Proof.
  apply (statistic_bounds_every_query (JS := reference_runtime)).
  - simpl. tauto.
  - reflexivity.
Defined.

(** X12, the witness: a teacher sends a grade that claims to be approved
    and written by the administrator. *)
Lemma createData_stamps_the_record_witness :
  let sent :=
    returned [] (createData_request (JS := reference_runtime) (session guru_user)
                   store_with_pending (at_time 1000 "2024-06-01T00:00:00.000Z")
                   "nilai" (VObj forged_grade)) in
  get_own sent "author" = VStr "Guru Matematika"
  /\ get_own sent "createdAt" = VStr "2024-06-01T00:00:00.000Z"
  /\ get_own sent "approved" = VBool false.
Proof.
  cbv zeta.
  apply (createData_stamps_the_record (JS := reference_runtime) (session guru_user)
           store_with_pending (at_time 1000 "2024-06-01T00:00:00.000Z")
           "nilai" (VObj forged_grade) _ guru_user eq_refl).
  vm_compute. reflexivity.
Defined.

(** X13, the witness: a grade that carries the type of a teacher is
    validated as a grade and sent as a teacher. *)
Lemma candidate_fields_are_stored_witness :
  get_own
    (returned [] (createData_request (JS := reference_runtime) (session guru_user)
                    store_with_pending (at_time 1000 "2024-06-01T00:00:00.000Z")
                    "nilai" (VObj grade_posing_as_teacher)))
    "type"
  = VStr "guru".
Proof.
  apply (proj1 (candidate_fields_are_stored (JS := reference_runtime)
                  (session guru_user) store_with_pending
                  (at_time 1000 "2024-06-01T00:00:00.000Z") "nilai"
                  grade_posing_as_teacher _
                  ltac:(apply (bool_decide_unpack _); vm_compute; reflexivity)
                  ltac:(vm_compute; reflexivity))).
Defined.

(** X14, the witness: a collection of one record under a limit of one. *)
Lemma full_collection_refuses_create_witness :
  createData (JS := reference_runtime) (session_with config_for_one_record admin_user)
    store_with_grade (at_time 1000 "2024-06-01T00:00:00.000Z") "nilai"
    (VObj grade_fields) (accepted grade_fields)
  = (store_with_grade, Throw (Error "Batas maksimum data telah tercapai")).
Proof.
  apply (proj2 (proj2 (full_collection_refuses_create (JS := reference_runtime)
                         (session_with config_for_one_record admin_user)
                         store_with_grade (at_time 1000 "2024-06-01T00:00:00.000Z")
                         "nilai" (VObj grade_fields) (accepted grade_fields) 1
                         eq_refl ltac:(simpl; lia)))
           pass).
  - vm_compute. reflexivity.
  - reflexivity.
Defined.

(** X15, the witness: the backend refuses a delete, the cache entry stays. *)
Lemma failed_mutation_leaves_the_store_witness :
  fst (step (JS := reference_runtime) (session admin_user)
         (at_time 1000 "2024-06-01T00:00:00.000Z") store_with_entry
         (Delete (VStr "r1") refused))
  = store_with_entry.
Proof.
  apply (failed_mutation_leaves_the_store (JS := reference_runtime)
           (session admin_user) (at_time 1000 "2024-06-01T00:00:00.000Z")
           store_with_entry _ (Delete (VStr "r1") refused)
           (Throw (Error "Gagal menghapus data"))).
  - reflexivity.
  - discriminate.
Defined.

(** X16, the witness: the administrator updates a record that is not there. *)
Lemma unknown_id_is_not_found_witness :
  updateData (session admin_user) store_with_grade
    (at_time 1000 "2024-06-01T00:00:00.000Z") (VStr "n2")
    (VObj [("nilai", VNum 90)]) (accepted stored_grade)
  = (store_with_grade, Throw (Error "Data tidak ditemukan")).
Proof.
  apply (unknown_id_is_not_found (session admin_user) store_with_grade
           (at_time 1000 "2024-06-01T00:00:00.000Z") (VStr "n2")
           (VObj [("nilai", VNum 90)]) (accepted stored_grade)).
  repeat constructor.
Defined.

(** X17, the witness: the teacher approves the grade the teacher wrote. *)
Lemma update_lays_patch_over_record_witness :
  get_own
    (returned [] (updateData_request (session guru_user) store_with_grade
                    (at_time 1000 "2024-06-01T00:00:00.000Z") (VStr "n1")
                    (VObj [("approved", VBool true)])))
    "approved"
  = VBool true.
Proof.
  apply (proj2 (update_lays_patch_over_record (session guru_user) store_with_grade
                  (at_time 1000 "2024-06-01T00:00:00.000Z") (VStr "n1")
                  [("approved", VBool true)] stored_grade _
                  ltac:(apply (bool_decide_unpack _); vm_compute; reflexivity)
                  eq_refl ltac:(vm_compute; reflexivity))
           "approved").
  discriminate.
Defined.

(** X18, the witness: the teacher is gone from the collection and stays in
    the credential table. *)
Lemma resync_never_removes_a_credential_witness :
  has_own (users (handleDataChange (JS := reference_runtime) (session admin_user)
                    (at_time 1000 "2024-06-01T00:00:00.000Z")
                    store_after_teacher [])) "budi" = true
  /\ allData (handleDataChange (JS := reference_runtime) (session admin_user)
                (at_time 1000 "2024-06-01T00:00:00.000Z")
                store_after_teacher []) = [].
Proof.
  apply (resync_never_removes_a_credential (JS := reference_runtime)
           (session admin_user) (at_time 1000 "2024-06-01T00:00:00.000Z")
           store_after_teacher [] "budi").
  left. reflexivity.
Defined.

(** X19, the witness: two records register the same user name; the second
    gives the password. *)
Lemma resync_credential_of_last_teacher_witness :
  get_own (fst (updateUsersFromData [] [teacher_record; teacher_record_renewed]))
    "budi"
  = credentials_of teacher_record_renewed.
Proof.
  apply (proj1 (resync_credential_of_last_teacher []
                  [teacher_record; teacher_record_renewed] "budi"
                  eq_refl ltac:(repeat constructor))
           teacher_record_renewed).
  reflexivity.
Defined.

(** X20, the witness: the teacher of the collection is submitted again. *)
Lemma known_username_never_validates_witness :
  valid (returned pass
           (validateGuruData (JS := reference_runtime) AppConfig_defaults
              (fst (updateUsersFromData [] [teacher_record])) (VObj teacher_fields)))
  = false.
Proof.
  apply (known_username_never_validates (JS := reference_runtime)
           AppConfig_defaults [] [teacher_record] (VObj teacher_fields)).
  - right. split; [reflexivity|].
    exists teacher_record. split; [now left|reflexivity].
  - vm_compute. reflexivity.
Defined.

(** X21, the witness: one quote and two quotes. *)
Lemma csv_cells_tell_texts_apart_witness :
  csv_cell (VStr quoted_once) <> csv_cell (VStr quoted_twice).
Proof.
  apply (csv_cells_tell_texts_apart quoted_once quoted_twice). discriminate.
Defined.


(** X24, the witness: a key with five recorded attempts is reset. *)
Lemma reset_restores_the_allowance_witness :
  snd (limiter_run (reset {[ "budi" := [900; 910; 920; 930; 940] ]} "budi")
         None None
         (map (fun t => (t, "budi")) [1000; 1001; 1002; 1003; 1004]))
  = [Return true; Return true; Return true; Return true; Return true].
Proof.
  apply (reset_restores_the_allowance None None
           {[ "budi" := [900; 910; 920; 930; 940] ]} "budi"
           [1000; 1001; 1002; 1003; 1004]).
  - reflexivity.
  - simpl. lia.
Defined.

(** X25, the witness: seven calls in seven seconds under the default limit. *)
Lemma rate_limit_is_kept_witness :
  Z.of_nat (length
              (recent 60000 7000
                 (allowed_times "budi" seven_calls
                    (snd (limiter_run ∅ None None seven_calls)))))
  <= 5.
Proof.
  apply (rate_limit_is_kept None None seven_calls "budi" 7000).
  - simpl. lia.
  - repeat constructor; simpl; lia.
  - repeat constructor; simpl; lia.
Defined.

(** X26, the witness: a setting on a path that does not exist yet. *)
Lemma config_set_then_get_witness :
  exists current',
    AppConfig_set (VObj []) "ui.theme.color" (VStr "dark") = Return current'
    /\ AppConfig_get current' "ui.theme.color" = VStr "dark".
Proof.
  apply (config_set_then_get (VObj []) "ui.theme.color" (VStr "dark")).
  - repeat constructor.
  - reflexivity.
Defined.

(** X27, the witness: the minimum length is written, the time to live stays. *)
Lemma config_set_keeps_other_settings_witness :
  AppConfig_get
    (VObj (object_of (returned VUndef
                        (AppConfig_set AppConfig_defaults
                           "security.password_min_length" (VNum 10)))))
    "performance.cache_ttl"
  = AppConfig_get AppConfig_defaults "performance.cache_ttl".
Proof.
  apply (config_set_keeps_other_settings (object_of AppConfig_defaults)
           "security.password_min_length" "performance.cache_ttl" (VNum 10)).
  - vm_compute. reflexivity.
  - discriminate.
Defined.

(** X28, the witness: a stored security section without a minimum length
    hides the default minimum. *)
Lemma config_load_merges_top_level_witness :
  AppConfig_get
    (AppConfig_load AppConfig_defaults
       (Some (Return (VObj [("security", VObj [("enable_csrf", VBool false)])]))))
    "security.password_min_length"
  = VUndef.
Proof.
  apply (proj1 (config_load_merges_top_level (object_of AppConfig_defaults)
                  [("security", VObj [("enable_csrf", VBool false)])]
                  "security.password_min_length" TypeError
                  ltac:(apply (bool_decide_unpack _); vm_compute; reflexivity)
                  ltac:(apply (bool_decide_unpack _); vm_compute; reflexivity))).
Defined.

(** X29, the witness: the minimum is raised to 10, a password of seven
    characters is too short. *)
Lemma configured_minimum_is_enforced_witness :
  exists current',
    AppConfig_set AppConfig_defaults "security.password_min_length" (VNum 10)
    = Return current'
    /\ validatePassword (JS := reference_runtime) current' (VStr "Abc1234")
       = Return (fail "Password minimal 10 karakter").
Proof.
  apply (configured_minimum_is_enforced (JS := reference_runtime)
           AppConfig_defaults 10 "Abc1234").
  - reflexivity.
  - simpl. lia.
Defined.
